(** * Release tooling of better-mcps: bump classification, version
    arithmetic, version files and the tag-on-merge pass.

    The development embeds the three release scripts
    ([scripts/release.py], [scripts/bump_level.py],
    [scripts/tag_on_merge.py]) as Rocq functions and states the
    properties of the release engine over them.

    Conventions of the embedding.
    - Python [str] is [string]; the model covers ASCII text, so [\d] is
      [0-9] and [\s] is the ASCII part of Python's whitespace class.
    - Python [int] is unbounded: [N].
    - A raised exception is a value of [exn]; code that can raise returns
      a [result].
    - [run] (subprocess.check_output, decoded and stripped) is an oracle
      from the argument vector to a [result string]: the scripts are
      verified against whatever the version-control tool answers. *)

From Stdlib Require Import Bool Ascii String List NArith Arith Lia.
From Stdlib Require Import DecimalString DecimalN DecimalPos.
From Stdlib Require Import Permutation Sorted.
Import ListNotations.

Local Open Scope list_scope.
Local Open Scope string_scope.
Local Open Scope nat_scope.

(** ** Exceptions and results *)

Inductive exn : Type :=
| CalledProcessError (cmd : list string)
| ValueError (msg : string)
| IndexError
| OSError (file : string)
| SystemExit (msg : string).

Inductive result (A : Type) : Type :=
| Ok (a : A)
| Raise (e : exn).

Arguments Ok {A} a.
Arguments Raise {A} e.

Definition bind {A B : Type} (r : result A) (k : A -> result B) : result B :=
  match r with
  | Ok a => k a
  | Raise e => Raise e
  end.

Declare Scope result_scope.
Delimit Scope result_scope with result.
Notation "x <- r ;; k" := (bind r (fun x => k))
  (at level 61, r at next level, right associativity) : result_scope.

(** ** Python string primitives *)

Module Py.

Definition ch (n : nat) : ascii := ascii_of_nat n.

Definition LF : ascii := ch 10.
Definition CR : ascii := ch 13.

(** [str.isspace] on ASCII: tab, LF, VT, FF, CR, FS, GS, RS, US, space.
    This is also the class [\s] of a [str] pattern. *)
Definition isspace (c : ascii) : bool :=
  let n := nat_of_ascii c in
  ((9 <=? n) && (n <=? 13)) || ((28 <=? n) && (n <=? 32)).

(** [\d] on ASCII. *)
Definition isdigit (c : ascii) : bool :=
  let n := nat_of_ascii c in (48 <=? n) && (n <=? 57).

(** [[a-zA-Z]]. *)
Definition isalpha (c : ascii) : bool :=
  let n := nat_of_ascii c in
  ((65 <=? n) && (n <=? 90)) || ((97 <=? n) && (n <=? 122)).

(** [.] without DOTALL: anything but a line feed. *)
Definition isdot (c : ascii) : bool := negb (Ascii.eqb c LF).

(** Line boundaries of [str.splitlines] on ASCII, CR apart:
    LF, VT, FF, FS, GS, RS. *)
Definition islinebreak (c : ascii) : bool :=
  let n := nat_of_ascii c in
  (n =? 10) || (n =? 11) || (n =? 12) || (n =? 28) || (n =? 29) || (n =? 30).

(** [s.startswith(p)] *)
Definition startswith (s p : string) : bool := String.prefix p s.

(** [p in s] *)
Fixpoint contains (p s : string) : bool :=
  String.prefix p s ||
  match s with
  | EmptyString => false
  | String _ r => contains p r
  end.

(** [s.lower()] on ASCII. *)
Definition lower_char (c : ascii) : ascii :=
  let n := nat_of_ascii c in
  if (65 <=? n) && (n <=? 90) then ascii_of_nat (n + 32) else c.

Fixpoint lower (s : string) : string :=
  match s with
  | EmptyString => EmptyString
  | String c r => String (lower_char c) (lower r)
  end.

(** [s.splitlines()]: [cur] is the line being read. *)
Fixpoint splitlines_from (cur s : string) : list string :=
  match s with
  | EmptyString =>
      match cur with EmptyString => [] | _ => [cur] end
  | String c r =>
      if Ascii.eqb c CR then
        match r with
        | String c' r' =>
            if Ascii.eqb c' LF then cur :: splitlines_from EmptyString r'
            else cur :: splitlines_from EmptyString r
        | EmptyString => cur :: splitlines_from EmptyString r
        end
      else if islinebreak c then cur :: splitlines_from EmptyString r
      else splitlines_from (cur ++ String c EmptyString) r
  end.

Definition splitlines (s : string) : list string :=
  splitlines_from EmptyString s.

(** [s.lstrip()], [s.rstrip()], [s.strip()] *)
Fixpoint lstrip (s : string) : string :=
  match s with
  | String c r => if isspace c then lstrip r else s
  | EmptyString => EmptyString
  end.

Fixpoint rstrip (s : string) : string :=
  match s with
  | EmptyString => EmptyString
  | String c r =>
      match rstrip r with
      | EmptyString => if isspace c then EmptyString else String c EmptyString
      | r' => String c r'
      end
  end.

Definition strip (s : string) : string := rstrip (lstrip s).

(** Longest prefix of [s] whose characters satisfy [p], and the rest:
    what a greedy [p+] or [p*] takes when the next pattern item cannot
    start with a [p] character. *)
Fixpoint span (p : ascii -> bool) (s : string) : string * string :=
  match s with
  | EmptyString => (EmptyString, EmptyString)
  | String c r =>
      if p c then let (a, b) := span p r in (String c a, b)
      else (EmptyString, s)
  end.

(** [s[len(p):]] when [s.startswith(p)] *)
Fixpoint strip_prefix (p s : string) : option string :=
  match p, s with
  | EmptyString, _ => Some s
  | String a p', String b s' =>
      if Ascii.eqb a b then strip_prefix p' s' else None
  | String _ _, EmptyString => None
  end.

(** [s[n:]] *)
Fixpoint slice_from (n : nat) (s : string) : string :=
  match n, s with
  | O, _ => s
  | S k, String _ r => slice_from k r
  | S _, EmptyString => EmptyString
  end.

(** [if s] on a [str]: the empty string is false. *)
Definition truthy (s : string) : bool :=
  match s with EmptyString => false | _ => true end.

Definition DQUOTE : ascii := ch 34.


(** The one-character strings of the line feed and of the double quote. *)
Definition NL : string := String LF EmptyString.
Definition QUOTE : string := String DQUOTE EmptyString.

(** [$] without MULTILINE: the end of the string, or just before a line
    feed that ends the string. *)
Definition at_end (s : string) : bool :=
  match s with
  | EmptyString => true
  | String c EmptyString => Ascii.eqb c LF
  | _ => false
  end.

(** [\s*$] with MULTILINE: [$] holds at the end of the string and
    before every line feed; the white space before it is skipped. *)
Fixpoint spaces_then_eol (s : string) : bool :=
  match s with
  | EmptyString => true
  | String c r =>
      if Ascii.eqb c LF then true
      else if isspace c then spaces_then_eol r
      else false
  end.

(** [int(s)] for a string of decimal digits, of any length. *)
Definition int (s : string) : N :=
  match NilEmpty.uint_of_string s with
  | Some d => N.of_uint d
  | None => 0%N
  end.

(** [str(n)], as an f-string formats an [int]. *)
Definition str (n : N) : string := NilZero.string_of_uint (N.to_uint n).

(** [sorted(xs)] on strings: insertion into a sorted list, an equal key
    staying behind the ones already there. *)
Fixpoint insert_sorted (x : string) (xs : list string) : list string :=
  match xs with
  | [] => [x]
  | y :: ys =>
      if String.ltb x y then x :: xs else y :: insert_sorted x ys
  end.

Definition sorted (xs : list string) : list string :=
  fold_left (fun acc x => insert_sorted x acc) xs [].

(** [s.add(x)] on a set kept as a list without repetition. *)
Definition set_add (x : string) (s : list string) : list string :=
  if existsb (String.eqb x) s then s else (s ++ [x])%list.

End Py.

(** ** The version assignment pattern

    [re.search(PATTERN, text, flags=re.M)] where PATTERN is
    [^KEY\s*=\s*Q([^Q]+)Q\s*$], Q the double quote character and KEY
    [version] (project descriptor) or [__version__] (init file): the same
    expression in [release.py] and [tag_on_merge.py]. *)

(** The pattern tried at one position, the value of group 1 on success.
    Each greedy item is followed by a character outside its class ("=",
    the quote), so it takes its whole run. *)
Definition match_assignment (key s : string) : option string :=
  match Py.strip_prefix key s with
  | None => None
  | Some r1 =>
      match snd (Py.span Py.isspace r1) with
      | String "=" r3 =>
          match snd (Py.span Py.isspace r3) with
          | String q r5 =>
              if Ascii.eqb q Py.DQUOTE then
                let (g, r6) :=
                  Py.span (fun c => negb (Ascii.eqb c Py.DQUOTE)) r5 in
                match g, r6 with
                | String _ _, String _ r7 =>
                    if Py.spaces_then_eol r7 then Some g else None
                | _, _ => None
                end
              else None
          | EmptyString => None
          end
      | _ => None
      end
  end.

(** [re.search] with MULTILINE: positions from left to right; [^] holds
    at position 0 and after each line feed ([bol]). *)
Fixpoint search_assignment (key : string) (bol : bool) (s : string)
  : option string :=
  match (if bol then match_assignment key s else None) with
  | Some g => Some g
  | None =>
      match s with
      | EmptyString => None
      | String c r => search_assignment key (Ascii.eqb c Py.LF) r
      end
  end.

(** ** The bump levels *)

Inductive SemverBump : Type := Major | Minor | Patch | BumpNone.

Definition bump_name (b : SemverBump) : string :=
  match b with
  | Major => "major"
  | Minor => "minor"
  | Patch => "patch"
  | BumpNone => "none"
  end.

Definition bump_eqb (a b : SemverBump) : bool :=
  match a, b with
  | Major, Major | Minor, Minor | Patch, Patch | BumpNone, BumpNone => true
  | _, _ => false
  end.

(** The order [none < patch < minor < major] of the data model. *)
Definition bump_rank (b : SemverBump) : nat :=
  match b with
  | BumpNone => 0
  | Patch => 1
  | Minor => 2
  | Major => 3
  end.

Definition bump_le (a b : SemverBump) : Prop := bump_rank a <= bump_rank b.

(** ** The breaking-change marker

    [re.match(r"^[a-zA-Z]+\(.+\)!:|^[a-zA-Z]+!:", subject)], the same
    expression in [release.py] and in [bump_level.py]. A match starts at
    position 0. The letters are followed by "(" or "!", neither a letter,
    so [[a-zA-Z]+] takes the whole run of letters. *)

(** [.+\)!:] from the character after "(": one character that is not a
    line feed, then either ")!:" or more of [.+]. *)
Fixpoint scope_then_bang (s : string) : bool :=
  match s with
  | EmptyString => false
  | String c r =>
      Py.isdot c && (Py.startswith r ")!:" || scope_then_bang r)
  end.

Definition breaking_marker (subject : string) : bool :=
  let (ty, rest) := Py.span Py.isalpha subject in
  match ty with
  | EmptyString => false
  | String _ _ =>
      match rest with
      | String "(" r => scope_then_bang r
      | _ => Py.startswith rest "!:"
      end
  end.

(** ** scripts/release.py *)

Module Release.

Record Package : Type := mkPackage {
  name : string;   (* directory name *)
  path : string    (* absolute path of the package directory *)
}.

Definition tag_prefix (pkg : Package) : string :=
  "better-mcps-" ++ name pkg ++ "-v".

Section Queries.

(** [subprocess.check_output(args, stderr=STDOUT)], decoded. *)
Variable check_output : list string -> result string.

(** [REPO_ROOT.glob("*/pyproject.toml")]: the package directories
    found, in the order the file system lists them. *)
Variable glob_pyproject : list Package.

(** [Path.read_text] by path. *)
Variable read_text : string -> result string.

Definition run (args : list string) : result string :=
  (out <- check_output args ;; Ok (Py.strip out))%result.

(** [pkgs.sort(key=lambda p: p.name)] *)
Fixpoint insert_by_name (p : Package) (ps : list Package)
  : list Package :=
  match ps with
  | [] => [p]
  | q :: qs =>
      if String.ltb (name p) (name q) then p :: ps
      else q :: insert_by_name p qs
  end.

Definition list_packages : list Package :=
  fold_left (fun acc p => insert_by_name p acc) glob_pyproject [].

(** [xs[0]] *)
Definition index0 (xs : list string) : result string :=
  match xs with
  | x :: _ => Ok x
  | [] => Raise IndexError
  end.

(** The body of the [try] is a [result]; [except Exception] turns
    every raise into [None]. *)
Definition latest_tag_for (pkg : Package) : option string :=
  match
    (out <- run ["git"; "tag"; "--list"; tag_prefix pkg ++ "*";
                 "--sort=-creatordate"] ;;
     index0 (Py.splitlines out))%result
  with
  | Ok t => Some t
  | Raise _ => None
  end.

(** [not tag] holds for [None] and for the empty string. *)
Definition git_range_since (tag : option string) : string :=
  match tag with
  | None => "HEAD"
  | Some EmptyString => "HEAD"
  | Some t => t ++ "..HEAD"
  end.

Definition changed_files_since (tag : option string)
  : result (list string) :=
  let rng := git_range_since tag in
  if String.eqb rng "HEAD" then
    (out <- run ["git"; "ls-files"] ;; Ok (Py.splitlines out))%result
  else
    (out <- run ["git"; "diff"; "--name-only"; rng] ;;
     Ok (Py.splitlines out))%result.

Definition package_changed (pkg : Package) (tag : option string)
  : result bool :=
  let prefix := name pkg ++ "/" in
  (files <- changed_files_since tag ;;
   Ok (existsb (fun f => Py.startswith f prefix) files))%result.

(** The [for sha in commit_list] loop; [bump] is the running bump. *)
Fixpoint bump_loop (pkg : Package) (commit_list : list string)
  (bump : SemverBump) : result SemverBump :=
  match commit_list with
  | [] => Ok bump
  | sha :: rest =>
      (out <- run ["git"; "show"; "--name-only"; "--pretty=format:"; sha] ;;
       let touched := Py.splitlines out in
       if negb (existsb (fun p => Py.startswith p (name pkg ++ "/"))
                  (filter Py.truthy touched))
       then bump_loop pkg rest bump
       else
         subject <- run ["git"; "show"; "-s"; "--format=%s"; sha] ;;
         body <- run ["git"; "show"; "-s"; "--format=%b"; sha] ;;
         if Py.contains "BREAKING CHANGE" body || breaking_marker subject
         then Ok Major
         else if Py.startswith subject "feat"
         then bump_loop pkg rest
                (if bump_eqb bump BumpNone || bump_eqb bump Patch
                    || bump_eqb bump Minor
                 then Minor else bump)
         else if Py.startswith subject "fix"
         then bump_loop pkg rest
                (if bump_eqb bump BumpNone then Patch else bump)
         else bump_loop pkg rest bump)%result
  end.

Definition rev_list_args (tag : option string) : list string :=
  match tag with
  | None => ["git"; "rev-list"; "HEAD"]
  | Some _ => ["git"; "rev-list"; git_range_since tag]
  end.

Definition conventional_bump_from_commits (tag : option string)
  (pkg : Package) : result SemverBump :=
  (out <- run (rev_list_args tag) ;;
   bump_loop pkg (Py.splitlines out) BumpNone)%result.

(** [SEMVER_RE.match(v)]: the three groups. Each [\d+] is followed
    by "." or by [$], so it takes its whole run of digits. *)
Definition SEMVER_RE_match (v : string)
  : option (string * string * string) :=
  let (major, r1) := Py.span Py.isdigit v in
  match major, r1 with
  | String _ _, String "." r2 =>
      let (minor, r3) := Py.span Py.isdigit r2 in
      match minor, r3 with
      | String _ _, String "." r4 =>
          let (patch, r5) := Py.span Py.isdigit r4 in
          match patch with
          | String _ _ =>
              if Py.at_end r5 then Some (major, minor, patch) else None
          | EmptyString => None
          end
      | _, _ => None
      end
  | _, _ => None
  end.

Definition parse_semver (v : string) : result (N * N * N) :=
  match SEMVER_RE_match v with
  | None => Raise (ValueError ("Invalid semver: " ++ v))
  | Some (major, minor, patch) =>
      Ok (Py.int major, Py.int minor, Py.int patch)
  end.

Definition bump_version (v : string) (bump : SemverBump)
  : result string :=
  (mmp <- parse_semver v ;;
   let '(major, minor, patch) := mmp in
   match bump with
   | BumpNone => Ok v
   | Major => Ok (Py.str (major + 1) ++ ".0.0")
   | Minor => Ok (Py.str major ++ "." ++ Py.str (minor + 1) ++ ".0")
   | Patch =>
       Ok (Py.str major ++ "." ++ Py.str minor ++ "."
             ++ Py.str (patch + 1))
   end)%result.

Definition version_from_tag (tag : string) (pkg : Package) : result string :=
  if negb (Py.startswith tag (tag_prefix pkg))
  then Raise (ValueError
                ("Tag " ++ tag ++ " does not match " ++ tag_prefix pkg))
  else Ok (Py.slice_from (String.length (tag_prefix pkg)) tag).

Definition read_pyproject_version (pyproject : string) : result string :=
  (txt <- read_text pyproject ;;
   match search_assignment "version" true txt with
   | None => Raise (ValueError ("Could not find version in " ++ pyproject))
   | Some g => Ok g
   end)%result.

(** The planning loop of [cmd_tag_main]: [planned] grows by
    [(pkg, next_version)] for each changed package. *)
Fixpoint plan_loop (pkgs : list Package)
  (planned : list (Package * string))
  : result (list (Package * string)) :=
  match pkgs with
  | [] => Ok planned
  | pkg :: rest =>
      let last_tag := latest_tag_for pkg in
      (changed <- package_changed pkg last_tag ;;
       if negb changed then plan_loop rest planned
       else
         bump <- conventional_bump_from_commits last_tag pkg ;;
         let bump := if bump_eqb bump BumpNone then Patch else bump in
         let pyproject := path pkg ++ "/pyproject.toml" in
         current <- read_pyproject_version pyproject ;;
         next_v <- bump_version current bump ;;
         plan_loop rest (planned ++ [(pkg, next_v)])%list)%result
  end.

Definition cmd_tag_main_plan : result (list (Package * string)) :=
  plan_loop list_packages [].

(** [cmd_detect_changed]: the names printed as a JSON array. *)
Fixpoint detect_loop (pkgs : list Package) (changed : list string)
  : result (list string) :=
  match pkgs with
  | [] => Ok changed
  | pkg :: rest =>
      let tag := latest_tag_for pkg in
      (c <- package_changed pkg tag ;;
       detect_loop rest
         (if c then (changed ++ [name pkg])%list else changed))%result
  end.

Definition cmd_detect_changed : result (list string) :=
  detect_loop list_packages [].

End Queries.

End Release.

(** ** scripts/bump_level.py *)

Module BumpLevel.

Section Queries.

Variable check_output : list string -> result string.

Definition run (args : list string) : result string :=
  (out <- check_output args ;; Ok (Py.strip out))%result.

Definition rev_list_args (since_ref : string) : list string :=
  if String.eqb since_ref "" || String.eqb (Py.lower since_ref) "none"
  then ["git"; "rev-list"; "HEAD"]
  else ["git"; "rev-list"; since_ref ++ "..HEAD"].

Definition commits_since (since_ref : string) : result (list string) :=
  (out <- run (rev_list_args since_ref) ;; Ok (Py.splitlines out))%result.

Definition touched_package (sha package : string) : result bool :=
  (out <- run ["git"; "show"; "--name-only"; "--pretty=format:"; sha] ;;
   let files := Py.splitlines out in
   let prefix := package ++ "/" in
   Ok (existsb (fun f => Py.startswith f prefix)
         (filter Py.truthy files)))%result.

Definition subject_body (sha : string) : result (string * string) :=
  (subject <- run ["git"; "show"; "-s"; "--format=%s"; sha] ;;
   body <- run ["git"; "show"; "-s"; "--format=%b"; sha] ;;
   Ok (subject, body))%result.

(** The loop of [main]; the value is what [main] prints. *)
Fixpoint bump_loop (package : string) (shas : list string)
  (bump : SemverBump) : result SemverBump :=
  match shas with
  | [] => Ok bump
  | sha :: rest =>
      (t <- touched_package sha package ;;
       if negb t then bump_loop package rest bump
       else
         sb <- subject_body sha ;;
         let (subj, body) := sb in
         if Py.contains "BREAKING CHANGE" body || breaking_marker subj
         then Ok Major
         else if Py.startswith subj "feat"
         then bump_loop package rest Minor
         else if Py.startswith subj "fix" || Py.startswith subj "perf"
         then bump_loop package rest
                (if bump_eqb bump BumpNone then Patch else bump)
         else bump_loop package rest bump)%result
  end.

(** [main(argv)]: the lines written to stdout and stderr, and the exit
    status. *)
Record Output : Type := mkOutput {
  stdout : list string;
  stderr : list string;
  status : nat
}.

Definition main (argv : list string) : result Output :=
  match argv with
  | [_; package; since_ref] =>
      (shas <- commits_since since_ref ;;
       bump <- bump_loop package shas BumpNone ;;
       Ok (mkOutput [bump_name bump] [] 0))%result
  | _ =>
      Ok (mkOutput []
            ["Usage: python scripts/bump_level.py <package> <since_ref>"] 2)
  end.

End Queries.

End BumpLevel.

(** ** scripts/tag_on_merge.py *)

Module TagOnMerge.

(** What the pass reads and changes: the working tree, the local tags,
    the remote, and the two output streams. [tag_refused] and
    [push_refused] stand for the failures of [git tag] and [git push]
    that do not depend on the tags (bad name, no network). *)
Record World : Type := mkWorld {
  repo_root : string;
  files : string -> option string;          (* path to text *)
  dirs : string -> bool;                    (* existing directories *)
  glob_init : string -> list string;        (* src.glob("*/__init__.py") *)
  diff_name_only : string -> string -> result string;
  tags : list string;                       (* local tags, newest first *)
  tag_refused : string -> bool;
  push_refused : string -> bool;
  pushed : list string;
  stdout : list string;
  stderr : list string
}.

Definition with_tags (w : World) (ts : list string) : World :=
  mkWorld (repo_root w) (files w) (dirs w) (glob_init w)
    (diff_name_only w) ts (tag_refused w) (push_refused w) (pushed w)
    (stdout w) (stderr w).

Definition with_pushed (w : World) (ps : list string) : World :=
  mkWorld (repo_root w) (files w) (dirs w) (glob_init w)
    (diff_name_only w) (tags w) (tag_refused w) (push_refused w) ps
    (stdout w) (stderr w).

Definition with_stdout (w : World) (out : list string) : World :=
  mkWorld (repo_root w) (files w) (dirs w) (glob_init w)
    (diff_name_only w) (tags w) (tag_refused w) (push_refused w)
    (pushed w) out (stderr w).

Definition with_stderr (w : World) (err : list string) : World :=
  mkWorld (repo_root w) (files w) (dirs w) (glob_init w)
    (diff_name_only w) (tags w) (tag_refused w) (push_refused w)
    (pushed w) (stdout w) err.

(** Computations on the world that can raise; the world at the raise is
    kept. *)
Definition M (A : Type) : Type := World -> result A * World.

Definition ret {A : Type} (a : A) : M A := fun w => (Ok a, w).

Definition raise {A : Type} (e : exn) : M A := fun w => (Raise e, w).

Definition bindM {A B : Type} (m : M A) (k : A -> M B) : M B :=
  fun w =>
    match m w with
    | (Ok a, w') => k a w'
    | (Raise e, w') => (Raise e, w')
    end.

Declare Scope world_scope.
Delimit Scope world_scope with world.
Notation "x <- m ;; k" := (bindM m (fun x => k))
  (at level 61, m at next level, right associativity) : world_scope.
Notation "m ;; k" := (bindM m (fun _ => k))
  (at level 61, right associativity) : world_scope.

Definition print (line : string) : M unit :=
  fun w => (Ok tt, with_stdout w (stdout w ++ [line])%list).

Definition eprint (line : string) : M unit :=
  fun w => (Ok tt, with_stderr w (stderr w ++ [line])%list).

Definition has_tag (w : World) (tag : string) : bool :=
  existsb (String.eqb tag) (tags w).

(** The command lines the script issues, as the tool answers them.
    [rev-parse] is asked about tag names only and resolves the local
    tags; [tag -a] refuses a name that exists. *)
Definition check_output (args : list string) : M string :=
  fun w =>
    match args with
    | ["git"; "diff"; "--name-only"; before; after] =>
        (diff_name_only w before after, w)
    | ["git"; "rev-parse"; tag] =>
        if has_tag w tag then (Ok tag, w)
        else (Raise (CalledProcessError args), w)
    | ["git"; "tag"; "-a"; tag; "-m"; _] =>
        if has_tag w tag || tag_refused w tag
        then (Raise (CalledProcessError args), w)
        else (Ok "", with_tags w (tag :: tags w))
    | ["git"; "push"; "origin"; tag] =>
        if push_refused w tag
        then (Raise (CalledProcessError args), w)
        else (Ok "", with_pushed w (tag :: pushed w))
    | _ => (Raise (CalledProcessError args), w)
    end.

Definition run (args : list string) : M string :=
  (out <- check_output args ;; ret (Py.strip out))%world.

Definition read_text (path : string) : M string :=
  fun w =>
    match files w path with
    | Some txt => (Ok txt, w)
    | None => (Raise (OSError path), w)
    end.

Definition exists_file (path : string) : M bool :=
  fun w =>
    (Ok (match files w path with Some _ => true | None => dirs w path end),
     w).

Definition read_project_version (pyproject : string) : M string :=
  (text <- read_text pyproject ;;
   match search_assignment "version" true text with
   | None => raise (ValueError ("Could not find version in " ++ pyproject))
   | Some g => ret g
   end)%world.

(** The [for init_py in src.glob(...)] loop. *)
Fixpoint first_with_version (inits : list string) : M (option string) :=
  match inits with
  | [] => ret None
  | init_py :: rest =>
      (txt <- read_text init_py ;;
       if Py.contains "__version__" txt then ret (Some init_py)
       else first_with_version rest)%world
  end.

Definition find_init_with_version (pkg_dir : string) : M (option string) :=
  let src := pkg_dir ++ "/src" in
  fun w =>
    if negb (dirs w src) then (Ok None, w)
    else first_with_version (glob_init w src) w.

Definition read_init_version (init_py : string) : M string :=
  (text <- read_text init_py ;;
   match search_assignment "__version__" true text with
   | None => raise (ValueError ("Could not find __version__ in " ++ init_py))
   | Some g => ret g
   end)%world.

(** [except subprocess.CalledProcessError] catches that exception only. *)
Definition tag_exists (tag : string) : M bool :=
  fun w =>
    match run ["git"; "rev-parse"; tag] w with
    | (Ok _, w') => (Ok true, w')
    | (Raise (CalledProcessError _), w') => (Ok false, w')
    | (Raise e, w') => (Raise e, w')
    end.

(** [re.match(r"^([^/]+)/pyproject\.toml$", line)]: group 1. *)
Definition pyproject_line (line : string) : option string :=
  let (g, r) := Py.span (fun c => negb (Ascii.eqb c "/")) line in
  match g, r with
  | String _ _, String _ r' =>
      match Py.strip_prefix "pyproject.toml" r' with
      | Some e => if Py.at_end e then Some g else None
      | None => None
      end
  | _, _ => None
  end.

Definition changed_packages (changed : string) : list string :=
  fold_left
    (fun pkgs line =>
       match pyproject_line (Py.strip line) with
       | Some g => Py.set_add g pkgs
       | None => pkgs
       end)
    (Py.splitlines changed) [].

Definition tag_name (pkg version : string) : string :=
  "better-mcps-" ++ pkg ++ "-v" ++ version.

Definition mismatch_message (pkg version init_version init_py : string)
  : string :=
  "Version mismatch for " ++ pkg ++ ": pyproject=" ++ version
    ++ " init=" ++ init_version ++ " (" ++ init_py ++ ")".

(** The body of [for pkg in sorted(pkgs)]. *)
Definition tag_package (pkg : string) : M unit :=
  fun w =>
    (let pkg_dir := repo_root w ++ "/" ++ pkg in
     let pyproject := pkg_dir ++ "/pyproject.toml" in
     e <- exists_file pyproject ;;
     if negb e then ret tt
     else
       version <- read_project_version pyproject ;;
       init_py <- find_init_with_version pkg_dir ;;
       match init_py with
       | Some init_py =>
           init_version <- read_init_version init_py ;;
           if negb (String.eqb init_version version)
           then raise (SystemExit
                         (mismatch_message pkg version init_version init_py))
           else ret tt
       | None => ret tt
       end ;;
       let tag := tag_name pkg version in
       te <- tag_exists tag ;;
       if te then print ("Tag already exists: " ++ tag)
       else
         run ["git"; "tag"; "-a"; tag; "-m"; "Release " ++ tag] ;;
         run ["git"; "push"; "origin"; tag] ;;
         print ("Tagged " ++ tag))%world w.

Fixpoint tag_loop (pkgs : list string) : M unit :=
  match pkgs with
  | [] => ret tt
  | pkg :: rest => (tag_package pkg ;; tag_loop rest)%world
  end.

Definition main (argv : list string) : M nat :=
  match argv with
  | [_; before; after] =>
      (changed <- (if negb (String.eqb before after)
                   then run ["git"; "diff"; "--name-only"; before; after]
                   else ret "") ;;
       match changed_packages changed with
       | [] =>
           print "No package pyproject.toml changes detected; nothing to tag." ;;
           ret 0
       | pkgs => tag_loop (Py.sorted pkgs) ;; ret 0
       end)%world
  | _ =>
      (eprint "Usage: python scripts/tag_on_merge.py <before_sha> <after_sha>" ;;
       ret 2)%world
  end.

End TagOnMerge.

(** ** Commits as the classifier sees them *)

Record Commit : Type := mkCommit {
  sha : string;
  subject : string;
  body : string;
  touched_paths : list string   (* the lines of git show --name-only *)
}.

(** Some touched path lies under [package/]. *)
Definition touches (package : string) (c : Commit) : bool :=
  existsb (fun p => Py.startswith p (package ++ "/"))
    (filter Py.truthy (touched_paths c)).

(** The commit carries a breaking-change marker. *)
Definition is_breaking (c : Commit) : bool :=
  Py.contains "BREAKING CHANGE" (body c) || breaking_marker (subject c).

Definition show_names (s : string) : list string :=
  ["git"; "show"; "--name-only"; "--pretty=format:"; s].
Definition show_subject (s : string) : list string :=
  ["git"; "show"; "-s"; "--format=%s"; s].
Definition show_body (s : string) : list string :=
  ["git"; "show"; "-s"; "--format=%b"; s].

(** The tool answers the three per-commit queries with the data of [c]. *)
Definition answers (check_output : list string -> result string)
  (c : Commit) : Prop :=
  (exists out, check_output (show_names (sha c)) = Ok out
               /\ Py.splitlines (Py.strip out) = touched_paths c)
  /\ (exists out, check_output (show_subject (sha c)) = Ok out
                  /\ Py.strip out = subject c)
  /\ (exists out, check_output (show_body (sha c)) = Ok out
                  /\ Py.strip out = body c).

(** A breaking commit of the package; a [feat] commit of the package; a
    commit that is not a breaking commit of the package. *)
Definition breaking_for (package : string) (c : Commit) : Prop :=
  touches package c = true /\ is_breaking c = true.

Definition feat_for (package : string) (c : Commit) : Prop :=
  touches package c = true /\ Py.startswith (subject c) "feat" = true.

Definition not_breaking_for (package : string) (c : Commit) : Prop :=
  touches package c = true -> is_breaking c = false.

(** The revision listing [args] succeeds and lists the commits [cs]. *)
Definition lists (check_output : list string -> result string)
  (args : list string) (cs : list Commit) : Prop :=
  exists out, check_output args = Ok out
              /\ Py.splitlines (Py.strip out) = map sha cs.

(** ** A version-control tool answering from a list of commits *)

Module Example.

Definition find_commit (cs : list Commit) (s : string) : option Commit :=
  find (fun c => String.eqb (sha c) s) cs.

(** Answers [rev-list] with every commit, newest first, and [show] from
    the commit's fields; anything else exits non-zero. *)
Definition tool (cs : list Commit) (args : list string) : result string :=
  match args with
  | ["git"; "rev-list"; _] => Ok (String.concat Py.NL (map sha cs))
  | ["git"; "show"; "--name-only"; "--pretty=format:"; s] =>
      match find_commit cs s with
      | Some c => Ok (String.concat Py.NL (touched_paths c))
      | None => Raise (CalledProcessError args)
      end
  | ["git"; "show"; "-s"; fmt; s] =>
      match find_commit cs s with
      | Some c =>
          if String.eqb fmt "--format=%s" then Ok (subject c)
          else if String.eqb fmt "--format=%b" then Ok (body c)
          else Raise (CalledProcessError args)
      | None => Raise (CalledProcessError args)
      end
  | _ => Raise (CalledProcessError args)
  end.

Definition pkg_p : Release.Package := Release.mkPackage "p" "/repo/p".

Definition perf_commit : Commit :=
  mkCommit "c1" "perf: faster scan" "" ["p/scan.py"].
Definition fix_commit : Commit :=
  mkCommit "c2" "fix: off by one" "" ["p/scan.py"].
Definition feat_commit : Commit :=
  mkCommit "c3" "feat: add x" "" ["p/x.py"; "README.md"].
Definition breaking_commit : Commit :=
  mkCommit "c4" "feat!: remove old api" "" ["p/api.py"].
Definition other_commit : Commit :=
  mkCommit "c5" "docs: typo" "BREAKING CHANGE: none here" ["q/doc.md"].

(** A descriptor with two version lines. *)
Definition two_versions : string :=
  "[project]" ++ Py.NL
    ++ "version = " ++ Py.QUOTE ++ "1.2.0" ++ Py.QUOTE ++ Py.NL
    ++ "[tool.x]" ++ Py.NL
    ++ "version = " ++ Py.QUOTE ++ "1.1.9" ++ Py.QUOTE ++ Py.NL.

Definition one_version : string :=
  "[project]" ++ Py.NL ++ "name = " ++ Py.QUOTE ++ "p" ++ Py.QUOTE ++ Py.NL
    ++ "version = " ++ Py.QUOTE ++ "1.2.0" ++ Py.QUOTE ++ Py.NL.

Definition no_version : string :=
  "[project]" ++ Py.NL ++ "name = " ++ Py.QUOTE ++ "p" ++ Py.QUOTE ++ Py.NL.

Definition init_with (v : string) : string :=
  "# package p" ++ Py.NL
    ++ "__version__ = " ++ Py.QUOTE ++ v ++ Py.QUOTE ++ Py.NL.

Definition lookup (kvs : list (string * string)) (k : string)
  : option string :=
  option_map snd (find (fun kv => String.eqb (fst kv) k) kvs).

(** A repository at [/repo] with the package directories [p] and [q];
    [p] has a source tree with one init file. [fl] gives the files
    present, [diff] the changed names between the two revisions, [ts]
    the local tags. *)
Definition world (fl : list (string * string)) (diff : string)
  (ts : list string) : TagOnMerge.World :=
  TagOnMerge.mkWorld "/repo" (lookup fl)
    (fun d => String.eqb d "/repo/p/src")
    (fun src => if String.eqb src "/repo/p/src"
                then ["/repo/p/src/p/__init__.py"] else [])
    (fun _ _ => Ok diff) ts (fun _ => false) (fun _ => false) [] [] [].

Definition diff_p : string := "README.md" ++ Py.NL ++ "p/pyproject.toml".

Definition consistent : TagOnMerge.World :=
  world [("/repo/p/pyproject.toml", one_version);
         ("/repo/p/src/p/__init__.py", init_with "1.2.0")] diff_p [].

Definition mismatched : TagOnMerge.World :=
  world [("/repo/p/pyproject.toml", one_version);
         ("/repo/p/src/p/__init__.py", init_with "1.1.9")] diff_p [].

Definition ambiguous : TagOnMerge.World :=
  world [("/repo/p/pyproject.toml", two_versions)] diff_p [].

(** The descriptor of [p] is in the diff and gone from the tree. *)
Definition deleted : TagOnMerge.World :=
  world [("/repo/p/src/p/__init__.py", init_with "1.2.0")] diff_p [].

(** [consistent] with a remote that refuses every push. *)
Definition offline : TagOnMerge.World :=
  TagOnMerge.mkWorld "/repo"
    (lookup [("/repo/p/pyproject.toml", one_version);
             ("/repo/p/src/p/__init__.py", init_with "1.2.0")])
    (fun d => String.eqb d "/repo/p/src")
    (fun src => if String.eqb src "/repo/p/src"
                then ["/repo/p/src/p/__init__.py"] else [])
    (fun _ _ => Ok diff_p) [] (fun _ => false) (fun _ => true) [] [] [].

(** The descriptor of [p] has no version line. *)
Definition unversioned : TagOnMerge.World :=
  world [("/repo/p/pyproject.toml", no_version)] diff_p [].

(** The world a first run of the pass leaves from [consistent]. *)
Definition after_first_run : TagOnMerge.World :=
  snd (TagOnMerge.main ["tag_on_merge.py"; "a1"; "b2"] consistent).

End Example.

(** ** The shape of a version string *)

(** Every character of [s] satisfies [p]. *)
Fixpoint all_chars (p : ascii -> bool) (s : string) : bool :=
  match s with
  | EmptyString => true
  | String c r => p c && all_chars p r
  end.

(** The head of [r], if any, stops a run of [p]. *)
Definition stops (p : ascii -> bool) (r : string) : Prop :=
  match r with
  | EmptyString => True
  | String c _ => p c = false
  end.

(** [\d+]: a non-empty string of decimal digits. *)
Definition decimal (s : string) : Prop :=
  s <> EmptyString /\ all_chars Py.isdigit s = true.

(** [v] matches [^\d+\.\d+\.\d+$] with the groups [a], [b], [c]: the
    three numbers separated by dots, and nothing else but for one line
    feed that [$] lets through at the very end. *)
Definition semver_shape (v a b c : string) : Prop :=
  decimal a /\ decimal b /\ decimal c
  /\ (v = a ++ "." ++ b ++ "." ++ c
      \/ v = a ++ "." ++ b ++ "." ++ c ++ Py.NL).

Definition matches_semver (v : string) : Prop :=
  exists a b c, semver_shape v a b c.

(** ** The assignment lines of a text *)

(** The text from each line start after the first: after every line
    feed. *)
Fixpoint later_line_starts (s : string) : list string :=
  match s with
  | EmptyString => []
  | String c r =>
      if Ascii.eqb c Py.LF then r :: later_line_starts r
      else later_line_starts r
  end.

Definition line_starts (s : string) : list string :=
  s :: later_line_starts s.

(** The value assigned at the line start [t], if the pattern matches
    there. *)
Definition assignment_at (key t : string) : list string :=
  match match_assignment key t with
  | Some g => [g]
  | None => []
  end.

(** The values of the lines of [txt] that match the assignment pattern
    for [key], from top to bottom. *)
Definition assignments (key txt : string) : list string :=
  flat_map (assignment_at key) (line_starts txt).

(** ** The command lines of the read-only queries of release.py *)

Definition tag_list_args (pkg : Release.Package) : list string :=
  ["git"; "tag"; "--list"; Release.tag_prefix pkg ++ "*";
   "--sort=-creatordate"].

Definition changed_files_args (tag : option string) : list string :=
  if String.eqb (Release.git_range_since tag) "HEAD"
  then ["git"; "ls-files"]
  else ["git"; "diff"; "--name-only"; Release.git_range_since tag].

(** The bump [cmd_tag_main] plans with, after the classifier. *)
Definition planned_bump (bump : SemverBump) : SemverBump :=
  if bump_eqb bump BumpNone then Patch else bump.

Module ExampleTools.

Definition chore_commit : Commit :=
  mkCommit "c6" "chore: tidy" "" ["p/scan.py"].

(** A repository without tags whose tracked files include [p/scan.py]:
    the tag listing prints nothing. *)
Definition first_release (cs : list Commit) (args : list string)
  : result string :=
  match args with
  | ["git"; "ls-files"] => Ok ("README.md" ++ Py.NL ++ "p/scan.py")
  | "git" :: "tag" :: _ => Ok ""
  | _ => Example.tool cs args
  end.

(** The same repository when the tag listing exits non-zero. *)
Definition tag_listing_fails (cs : list Commit) (args : list string)
  : result string :=
  match args with
  | ["git"; "ls-files"] => Ok ("README.md" ++ Py.NL ++ "p/scan.py")
  | "git" :: "tag" :: _ => Raise (CalledProcessError args)
  | _ => Example.tool cs args
  end.

(** The same repository when the revision listing and the per-commit
    queries exit non-zero. *)
Definition history_fails (args : list string) : result string :=
  match args with
  | ["git"; "ls-files"] => Ok ("README.md" ++ Py.NL ++ "p/scan.py")
  | "git" :: "tag" :: _ => Ok ""
  | _ => Raise (CalledProcessError args)
  end.

Definition read_one_version (path : string) : result string :=
  Ok Example.one_version.

(** The same repository when the subject query exits non-zero. *)
Definition subject_fails (cs : list Commit) (args : list string)
  : result string :=
  match args with
  | ["git"; "show"; "-s"; "--format=%s"; _] =>
      Raise (CalledProcessError args)
  | _ => first_release cs args
  end.

(** The same repository when the body query about the revision [bad]
    exits non-zero. *)
Definition body_fails (bad : string) (cs : list Commit)
  (args : list string) : result string :=
  match args with
  | ["git"; "show"; "-s"; "--format=%b"; s] =>
      if String.eqb s bad then Raise (CalledProcessError args)
      else first_release cs args
  | _ => first_release cs args
  end.

End ExampleTools.

(** ** The reconcile pass: what a run may read, and its checks *)

Module Reconcile.

Import TagOnMerge.

(** The part of the world that no command of the pass changes. *)
Record Static : Type := mkStatic {
  s_root : string;
  s_files : string -> option string;
  s_dirs : string -> bool;
  s_glob : string -> list string;
  s_diff : string -> string -> result string;
  s_tag_refused : string -> bool;
  s_push_refused : string -> bool
}.

Definition static (w : World) : Static :=
  mkStatic (repo_root w) (files w) (dirs w) (glob_init w)
    (diff_name_only w) (tag_refused w) (push_refused w).

(** [pkg_dir / "pyproject.toml"] for the package directory of [pkg]. *)
Definition package_dir (w : World) (pkg : string) : string :=
  repo_root w ++ "/" ++ pkg.

Definition descriptor_path (w : World) (pkg : string) : string :=
  package_dir w pkg ++ "/pyproject.toml".

(** The descriptor and the init file of [pkg] read [version] and
    [init_version], two different values. *)
Definition versions_disagree (w : World) (pkg version init_py
  init_version : string) : Prop :=
  (exists txt,
      files w (descriptor_path w pkg) = Some txt
      /\ search_assignment "version" true txt = Some version)
  /\ fst (find_init_with_version (package_dir w pkg) w) = Ok (Some init_py)
  /\ (exists itxt,
        files w init_py = Some itxt
        /\ search_assignment "__version__" true itxt = Some init_version)
  /\ init_version <> version.

(** The checks of [tag_package] that come before it looks at the tags:
    [None] when the descriptor does not exist, the version when it reads
    and the init file, if there is one, agrees. *)
Definition check_package (pkg : string) : M (option string) :=
  fun w =>
    (let pkg_dir := repo_root w ++ "/" ++ pkg in
     let pyproject := pkg_dir ++ "/pyproject.toml" in
     e <- exists_file pyproject ;;
     if negb e then ret None
     else
       version <- read_project_version pyproject ;;
       init_py <- find_init_with_version pkg_dir ;;
       match init_py with
       | Some init_py =>
           init_version <- read_init_version init_py ;;
           if negb (String.eqb init_version version)
           then raise (SystemExit
                         (mismatch_message pkg version init_version init_py))
           else ret tt
       | None => ret tt
       end ;;
       ret (Some version))%world w.

(** What [tag_package] does once the checks gave [version]. *)
Definition tag_if_new (pkg version : string) (w : World)
  : result unit * World :=
  let tag := tag_name pkg version in
  if has_tag w tag
  then (Ok tt,
        with_stdout w
          (stdout w ++ [("Tag already exists: " ++ tag)%string])%list)
  else if tag_refused w tag
  then (Raise (CalledProcessError
                 ["git"; "tag"; "-a"; tag; "-m"; "Release " ++ tag]), w)
  else
    let w1 := with_tags w (tag :: tags w) in
    if push_refused w tag
    then (Raise (CalledProcessError ["git"; "push"; "origin"; tag]), w1)
    else
      let w2 := with_pushed w1 (tag :: pushed w1) in
      (Ok tt,
       with_stdout w2 (stdout w2 ++ [("Tagged " ++ tag)%string])%list).

(** [main] from the changed names on. *)
Definition after_diff (changed : string) : M nat :=
  match changed_packages changed with
  | [] =>
      (print "No package pyproject.toml changes detected; nothing to tag." ;;
       ret 0)%world
  | pkgs => (tag_loop (Py.sorted pkgs) ;; ret 0)%world
  end.

End Reconcile.

(** ** The shapes the two other patterns accept *)

(** [[a-zA-Z]+] *)
Definition letters (s : string) : Prop :=
  s <> EmptyString /\ all_chars Py.isalpha s = true.

(** [.+] *)
Definition scope_text (s : string) : Prop :=
  s <> EmptyString /\ all_chars Py.isdot s = true.

(** [\s*] *)
Definition spaces (s : string) : Prop := all_chars Py.isspace s = true.

(** A non-empty text without a double quote. *)
Definition unquoted (s : string) : Prop :=
  s <> EmptyString
  /\ all_chars (fun c => negb (Ascii.eqb c Py.DQUOTE)) s = true.

(** [s] starts with a breaking-change marker: letters and [!:], or
    letters, a scope in parentheses and [!:]. *)
Definition breaking_shape (s : string) : Prop :=
  exists ty rest,
    letters ty
    /\ (s = ty ++ "!:" ++ rest
        \/ exists scope,
            scope_text scope /\ s = ty ++ "(" ++ scope ++ ")!:" ++ rest).

(** [s] starts with an assignment of [g] to [key] that ends its line:
    the key, the equals sign and the quoted value, with optional white
    space around them, up to the end of the text or to a line feed. *)
Definition assignment_shape (key s g : string) : Prop :=
  exists ws1 ws2 ws3 rest,
    spaces ws1 /\ spaces ws2 /\ spaces ws3 /\ unquoted g
    /\ (rest = EmptyString \/ exists r, rest = String Py.LF r)
    /\ s = key ++ ws1 ++ "=" ++ ws2 ++ Py.QUOTE ++ g ++ Py.QUOTE
             ++ ws3 ++ rest.

(** [line] names the descriptor of the top-level directory [g]:
    [^([^/]+)/pyproject\.toml$]. *)
Definition descriptor_line_shape (line g : string) : Prop :=
  g <> EmptyString
  /\ all_chars (fun c => negb (Ascii.eqb c "/")) g = true
  /\ (line = g ++ "/pyproject.toml"
      \/ line = g ++ "/pyproject.toml" ++ Py.NL).

(** ** The rules stated in the classifier docstrings

    [release.py]: any BREAKING CHANGE or type! gives major, any feat
    minor, any fix patch, else none. [bump_level.py]: the same with
    fix or perf for patch. Only commits touching the package count. *)

Definition subject_has (prefixes : list string) (c : Commit) : bool :=
  existsb (fun p => Py.startswith (subject c) p) prefixes.

(** Some commit of [cs] touches the package and satisfies [p]. *)
Definition any_commit (package : string) (p : Commit -> bool)
  (cs : list Commit) : bool :=
  existsb (fun c => touches package c && p c) cs.

Definition rules_bump (patch_prefixes : list string) (package : string)
  (cs : list Commit) : SemverBump :=
  if any_commit package is_breaking cs then Major
  else if any_commit package (subject_has ["feat"]) cs then Minor
  else if any_commit package (subject_has patch_prefixes) cs then Patch
  else BumpNone.

(** The greater of two bumps in the order of the data model. *)
Definition bump_max (a b : SemverBump) : SemverBump :=
  if bump_rank a <=? bump_rank b then b else a.

(** The tool answers the name listing of [c]; and, when [c] touches the
    package, its subject and body as well: what the loops ask about a
    commit they do not skip. *)
Definition names_answered (check_output : list string -> result string)
  (c : Commit) : Prop :=
  exists out, check_output (show_names (sha c)) = Ok out
              /\ Py.splitlines (Py.strip out) = touched_paths c.

Definition seen (check_output : list string -> result string)
  (package : string) (c : Commit) : Prop :=
  names_answered check_output c
  /\ (touches package c = true -> answers check_output c).

(** ** Tools that answer less *)

Module PartialTools.

(** Answers as [Example.tool], but knows the subject and body of the
    commits touching [p/] only. *)
Definition messages_of_p_only (cs : list Commit) (args : list string)
  : result string :=
  match args with
  | ["git"; "show"; "-s"; _; s] =>
      match Example.find_commit cs s with
      | Some c =>
          if touches "p" c then Example.tool cs args
          else Raise (CalledProcessError args)
      | None => Raise (CalledProcessError args)
      end
  | _ => Example.tool cs args
  end.

(** Lists one more revision than it can describe. *)
Definition lists_unknown (cs : list Commit) (args : list string)
  : result string :=
  match args with
  | ["git"; "rev-list"; _] =>
      Ok (String.concat Py.NL (map sha cs ++ ["unknown"])%list)
  | _ => Example.tool cs args
  end.

End PartialTools.

(** ** The order of versions *)

(** [(M, m, p)] comes before [(M', m', p')]: the lexicographic order of
    semantic versions. *)
Definition version_lt (x y : N * N * N) : Prop :=
  let '(M, m, p) := x in
  let '(M', m', p') := y in
  (M < M' \/ (M = M' /\ (m < m' \/ (m = m' /\ p < p'))))%N.

(** The text [str(M).str(m).str(p)]. *)
Definition version_text (x : N * N * N) : string :=
  let '(M, m, p) := x in
  Py.str M ++ "." ++ Py.str m ++ "." ++ Py.str p.

(** ** Orders on names *)

(** [x <= y] as Python compares strings. *)
Definition str_le (x y : string) : Prop := String.leb x y = true.

Definition name_le (p q : Release.Package) : Prop :=
  str_le (Release.name p) (Release.name q).

(** ** What a run of the reconcile pass may add *)

Module Growth.

Import TagOnMerge Reconcile.

(** [t] is the tag of a package at the version its descriptor reads in
    [w], the init file agreeing. *)
Definition release_tag_in (w : World) (t : string) : Prop :=
  exists pkg v,
    fst (check_package pkg w) = Ok (Some v) /\ t = tag_name pkg v.

(** From [w] to [w']: nothing is lost, a new tag satisfies [P], and a
    new push is of a new tag. *)
Definition grows (P : string -> Prop) (w w' : World) : Prop :=
  static w' = static w
  /\ incl (tags w) (tags w')
  /\ incl (pushed w) (pushed w')
  /\ (forall t, In t (tags w') -> In t (tags w) \/ P t)
  /\ (forall t, In t (pushed w') ->
                In t (pushed w) \/ (In t (tags w') /\ ~ In t (tags w))).

End Growth.

(** ** Rewriting the version assignment

    [re.subn(PATTERN, REPL, text, flags=re.M)] for the assignment pattern
    of [release.py], with a replacement text that holds no backslash, as
    the versions [bump_version] returns: the replacement is then taken as
    it is. *)





(** ** release.py: applying a plan

    The working tree, the commands that change the repository or the
    hosting service, and the answers to the commands that only read. *)

Module ReleaseRun.

Record World : Type := mkWorld {
  repo_root : string;
  query : list string -> result string;   (* read-only commands *)
  glob_pyproject : list Release.Package;  (* REPO_ROOT.glob("*/pyproject.toml") *)
  files : string -> option string;
  dirs : string -> bool;
  glob_init : string -> list string;      (* src.glob("*/__init__.py") *)
  refused : list string -> bool;          (* changing commands that fail *)
  commands : list (list string);          (* changing commands run, in order *)
  releases : list string;                 (* tags that have a release record *)
  stdout : list string
}.


Definition with_commands (w : World) (cs : list (list string)) : World :=
  mkWorld (repo_root w) (query w) (glob_pyproject w) (files w) (dirs w)
    (glob_init w) (refused w) cs (releases w) (stdout w).

Definition with_releases (w : World) (rs : list string) : World :=
  mkWorld (repo_root w) (query w) (glob_pyproject w) (files w) (dirs w)
    (glob_init w) (refused w) (commands w) rs (stdout w).

Definition with_stdout (w : World) (out : list string) : World :=
  mkWorld (repo_root w) (query w) (glob_pyproject w) (files w) (dirs w)
    (glob_init w) (refused w) (commands w) (releases w) out.

Definition M (A : Type) : Type := World -> result A * World.

Definition ret {A : Type} (a : A) : M A := fun w => (Ok a, w).

Definition raise {A : Type} (e : exn) : M A := fun w => (Raise e, w).

Definition bindM {A B : Type} (m : M A) (k : A -> M B) : M B :=
  fun w =>
    match m w with
    | (Ok a, w') => k a w'
    | (Raise e, w') => (Raise e, w')
    end.

Declare Scope run_scope.
Delimit Scope run_scope with run.
Notation "x <- m ;; k" := (bindM m (fun x => k))
  (at level 61, m at next level, right associativity) : run_scope.
Notation "m ;; k" := (bindM m (fun _ => k))
  (at level 61, right associativity) : run_scope.

Definition print (line : string) : M unit :=
  fun w => (Ok tt, with_stdout w (stdout w ++ [line])%list).

(** A command that changes something: refused, or run and recorded. *)
Definition change (args : list string) : M string :=
  fun w =>
    if refused w args then (Raise (CalledProcessError args), w)
    else (Ok "", with_commands w (commands w ++ [args])%list).

Definition has_release (w : World) (tag : string) : bool :=
  existsb (String.eqb tag) (releases w).

(** The command lines of [release.py]. *)
Definition check_output (args : list string) : M string :=
  match args with
  | ["git"; "add"; _] => change args
  | ["git"; "commit"; "-m"; _] => change args
  | ["git"; "push"; "origin"; _] => change args
  | ["git"; "tag"; "-a"; _; "-m"; _] => change args
  | ["gh"; "release"; "view"; tag] =>
      fun w =>
        if has_release w tag then (Ok tag, w)
        else (Raise (CalledProcessError args), w)
  | ["gh"; "release"; "create"; tag; "--title"; _; "--notes"; _] =>
      fun w =>
        if has_release w tag || refused w args
        then (Raise (CalledProcessError args), w)
        else (Ok "",
              with_releases (with_commands w (commands w ++ [args])%list)
                (tag :: releases w))
  | _ => fun w => (query w args, w)
  end.

Definition run (args : list string) : M string :=
  (out <- check_output args ;; ret (Py.strip out))%run.

Definition read_text (path : string) : M string :=
  fun w =>
    match files w path with
    | Some txt => (Ok txt, w)
    | None => (Raise (OSError path), w)
    end.






Fixpoint first_with_version (inits : list string) : M (option string) :=
  match inits with
  | [] => ret None
  | c :: rest =>
      (txt <- read_text c ;;
       if Py.contains "__version__" txt then ret (Some c)
       else first_with_version rest)%run
  end.





Definition tag_name (pkg : Release.Package) (next_v : string) : string :=
  Release.tag_prefix pkg ++ next_v.

(** The second loop over the plan: one tag per package, each pushed. *)
Fixpoint tag_loop (planned : list (Release.Package * string)) : M unit :=
  match planned with
  | [] => ret tt
  | (pkg, next_v) :: rest =>
      (let t := tag_name pkg next_v in
       run ["git"; "tag"; "-a"; t; "-m"; "Release " ++ t] ;;
       run ["git"; "push"; "origin"; t] ;;
       tag_loop rest)%run
  end.






End ReleaseRun.

(** ** Keys and values of the rewriting

    What the round trip of a version through a file relies on. *)





(** ** A repository for [release.py]

    The tree of [Example] at [/repo]: the package [p] at version 1.2.0
    with its init file. [q] answers the read-only commands, [rs] are the
    tags that have a release record. *)

Module ExampleRun.


Definition world (q : list string -> result string)
  (fl : list (string * string)) (rs : list string) : ReleaseRun.World :=
  ReleaseRun.mkWorld "/repo" q [Example.pkg_p] (Example.lookup fl)
    (fun d => String.eqb d "/repo/p/src")
    (fun src => if String.eqb src "/repo/p/src"
                then ["/repo/p/src/p/__init__.py"] else [])
    (fun _ => false) [] rs [].






End ExampleRun.

(** ** The commands of a release, in order *)





(** ** Per-commit queries that fail

    The name listing of the revision [s] prints a path under the
    directory of [pkg]: the loop of [release.py] goes on to ask for the
    subject and the body. *)
Definition names_touch (pkg : Release.Package) (out : string) : bool :=
  existsb (fun p => Py.startswith p (Release.name pkg ++ "/"))
    (filter Py.truthy (Py.splitlines (Py.strip out))).

(** One of the queries the loop issues about the revision [s] exits
    with [e]: the name listing, or, for a revision that touches the
    package, the subject query, or the body query after the subject was
    answered. *)
Definition query_fails (check_output : list string -> result string)
  (pkg : Release.Package) (s : string) (e : exn) : Prop :=
  check_output (show_names s) = Raise e
  \/ (exists out,
         check_output (show_names s) = Ok out
         /\ names_touch pkg out = true
         /\ (check_output (show_subject s) = Raise e
             \/ exists sub,
                  check_output (show_subject s) = Ok sub
                  /\ check_output (show_body s) = Raise e)).

(** ** The releases [cmd_create_releases] makes *)




(** ** Changed packages

    [package_changed(pkg, latest_tag_for(pkg))] returned true. *)
Definition is_changed (check_output : list string -> result string)
  (pkg : Release.Package) : bool :=
  match Release.package_changed check_output pkg
          (Release.latest_tag_for check_output pkg) with
  | Ok true => true
  | _ => false
  end.

(** [next_v] is what the planning loop computes for [pkg]: the classified
    bump, none raised to patch, applied to the version the descriptor
    reads. *)
Definition planned_version (check_output : list string -> result string)
  (read_text : string -> result string) (pv : Release.Package * string)
  : Prop :=
  exists bump current,
    Release.conventional_bump_from_commits check_output
      (Release.latest_tag_for check_output (fst pv)) (fst pv) = Ok bump
    /\ Release.read_pyproject_version read_text
         (Release.path (fst pv) ++ "/pyproject.toml") = Ok current
    /\ Release.bump_version current (planned_bump bump) = Ok (snd pv)
    /\ planned_bump bump <> BumpNone.

(** * Properties *)

(** ** The classifier loops, one commit at a time *)

Section ClassifierSteps.

Variable check_output : list string -> result string.

Lemma release_loop_step (pkg : Release.Package) (c : Commit)
  (rest : list string) (b : SemverBump) :
  answers check_output c ->
  Release.bump_loop check_output pkg (sha c :: rest) b =
    if negb (touches (Release.name pkg) c)
    then Release.bump_loop check_output pkg rest b
    else if is_breaking c then Ok Major
    else if Py.startswith (subject c) "feat"
    then Release.bump_loop check_output pkg rest
           (if bump_eqb b BumpNone || bump_eqb b Patch || bump_eqb b Minor
            then Minor else b)
    else if Py.startswith (subject c) "fix"
    then Release.bump_loop check_output pkg rest
           (if bump_eqb b BumpNone then Patch else b)
    else Release.bump_loop check_output pkg rest b.
Proof.
  intros [(o1 & E1 & T) [(o2 & E2 & S) (o3 & E3 & B)]].
  unfold touches, is_breaking. rewrite <- T, <- S, <- B.
  cbn [Release.bump_loop]. unfold Release.run.
  unfold show_names, show_subject, show_body in *.
  rewrite E1. cbn [bind].
  destruct (negb _); [reflexivity|].
  rewrite E2. cbn [bind]. rewrite E3. cbn [bind]. reflexivity.
Qed.

Lemma bump_level_loop_step (package : string) (c : Commit)
  (rest : list string) (b : SemverBump) :
  answers check_output c ->
  BumpLevel.bump_loop check_output package (sha c :: rest) b =
    if negb (touches package c)
    then BumpLevel.bump_loop check_output package rest b
    else if is_breaking c then Ok Major
    else if Py.startswith (subject c) "feat"
    then BumpLevel.bump_loop check_output package rest Minor
    else if Py.startswith (subject c) "fix"
            || Py.startswith (subject c) "perf"
    then BumpLevel.bump_loop check_output package rest
           (if bump_eqb b BumpNone then Patch else b)
    else BumpLevel.bump_loop check_output package rest b.
Proof.
  intros [(o1 & E1 & T) [(o2 & E2 & S) (o3 & E3 & B)]].
  unfold touches, is_breaking. rewrite <- T, <- S, <- B.
  cbn [BumpLevel.bump_loop].
  unfold BumpLevel.touched_package, BumpLevel.subject_body, BumpLevel.run.
  unfold show_names, show_subject, show_body in *.
  rewrite E1. cbn [bind].
  destruct (negb _); [reflexivity|].
  rewrite E2. cbn [bind]. rewrite E3. cbn [bind]. reflexivity.
Qed.

End ClassifierSteps.

(** ** Reductions over a range of answered commits *)

Section ClassifierRanges.

Variable check_output : list string -> result string.
Variable pkg : Release.Package.
Variable package : string.
Hypothesis pkg_name : Release.name pkg = package.

Lemma release_loop_major (cs : list Commit) :
  Forall (answers check_output) cs ->
  Exists (breaking_for package) cs ->
  forall b, Release.bump_loop check_output pkg (map sha cs) b = Ok Major.
Proof.
  induction 1 as [|c cs Hc Hcs IH]; intros Hex b.
  - inversion Hex.
  - cbn [map]. rewrite (release_loop_step _ _ _ _ _ Hc).
    rewrite pkg_name.
    destruct (touches package c) eqn:T; cbn [negb].
    + destruct (is_breaking c) eqn:B; [reflexivity|].
      assert (Hrest : Exists (breaking_for package) cs).
      { apply Exists_cons in Hex.
        destruct Hex as [[_ B']|Hex']; [congruence | assumption]. }
      destruct (Py.startswith (subject c) "feat");
        [|destruct (Py.startswith (subject c) "fix")];
        apply IH; exact Hrest.
    + apply IH.
      apply Exists_cons in Hex.
      destruct Hex as [[T' _]|Hex']; [congruence | assumption].
Qed.

Lemma bump_level_loop_major (cs : list Commit) :
  Forall (answers check_output) cs ->
  Exists (breaking_for package) cs ->
  forall b,
    BumpLevel.bump_loop check_output package (map sha cs) b = Ok Major.
Proof.
  induction 1 as [|c cs Hc Hcs IH]; intros Hex b.
  - inversion Hex.
  - cbn [map]. rewrite (bump_level_loop_step _ _ _ _ _ Hc).
    destruct (touches package c) eqn:T; cbn [negb].
    + destruct (is_breaking c) eqn:B; [reflexivity|].
      assert (Hrest : Exists (breaking_for package) cs).
      { apply Exists_cons in Hex.
        destruct Hex as [[_ B']|Hex']; [congruence | assumption]. }
      destruct (Py.startswith (subject c) "feat");
        [|destruct (Py.startswith (subject c) "fix"
                   || Py.startswith (subject c) "perf")];
        apply IH; exact Hrest.
    + apply IH.
      apply Exists_cons in Hex.
      destruct Hex as [[T' _]|Hex']; [congruence | assumption].
Qed.

(** The running bump never goes down, and the loop returns. *)
Lemma release_loop_monotone (cs : list Commit) :
  Forall (answers check_output) cs ->
  forall b, exists b',
    Release.bump_loop check_output pkg (map sha cs) b = Ok b'
    /\ bump_le b b'.
Proof.
  unfold bump_le.
  induction 1 as [|c cs Hc Hcs IH]; intros b.
  - exists b. split; [reflexivity | lia].
  - cbn [map]. rewrite (release_loop_step _ _ _ _ _ Hc).
    destruct (negb _); [apply IH|].
    destruct (is_breaking c).
    { exists Major. split; [reflexivity | destruct b; cbn; lia]. }
    destruct (Py.startswith (subject c) "feat").
    { destruct (IH (if bump_eqb b BumpNone || bump_eqb b Patch
                       || bump_eqb b Minor then Minor else b))
        as (b' & E & L).
      exists b'. split; [exact E|]. destruct b; cbn in *; lia. }
    destruct (Py.startswith (subject c) "fix"); [|apply IH].
    destruct (IH (if bump_eqb b BumpNone then Patch else b)) as (b' & E & L).
    exists b'. split; [exact E|]. destruct b; cbn in *; lia.
Qed.

(** In [bump_level.py] the running bump is never [major]; from the
    values it takes it never goes down. *)
Lemma bump_level_loop_monotone (cs : list Commit) :
  Forall (answers check_output) cs ->
  forall b, b <> Major -> exists b',
    BumpLevel.bump_loop check_output package (map sha cs) b = Ok b'
    /\ bump_le b b'.
Proof.
  unfold bump_le.
  induction 1 as [|c cs Hc Hcs IH]; intros b Hb.
  - exists b. split; [reflexivity | lia].
  - cbn [map]. rewrite (bump_level_loop_step _ _ _ _ _ Hc).
    destruct (negb _); [apply IH; exact Hb|].
    destruct (is_breaking c).
    { exists Major. split; [reflexivity | destruct b; cbn; lia]. }
    destruct (Py.startswith (subject c) "feat").
    { destruct (IH Minor) as (b' & E & L); [discriminate|].
      exists b'. split; [exact E|].
      destruct b; cbn in *; try lia. congruence. }
    destruct (Py.startswith (subject c) "fix"
              || Py.startswith (subject c) "perf"); [|apply IH; exact Hb].
    destruct (IH (if bump_eqb b BumpNone then Patch else b)) as (b' & E & L).
    { destruct b; cbn; congruence. }
    exists b'. split; [exact E|]. destruct b; cbn in *; lia.
Qed.

(** Without a breaking commit, [minor] stays [minor]. *)
Lemma release_loop_keeps_minor (cs : list Commit) :
  Forall (answers check_output) cs ->
  Forall (not_breaking_for package) cs ->
  Release.bump_loop check_output pkg (map sha cs) Minor = Ok Minor.
Proof.
  induction 1 as [|c cs Hc Hcs IH]; intros Hnb; [reflexivity|].
  apply Forall_cons_iff in Hnb. destruct Hnb as [Hn Hrest].
  cbn [map]. rewrite (release_loop_step _ _ _ _ _ Hc). rewrite pkg_name.
  destruct (touches package c) eqn:T; cbn [negb]; [|apply IH; exact Hrest].
  rewrite (Hn T).
  destruct (Py.startswith (subject c) "feat");
    [|destruct (Py.startswith (subject c) "fix")];
    cbn; apply IH; exact Hrest.
Qed.

Lemma bump_level_loop_keeps_minor (cs : list Commit) :
  Forall (answers check_output) cs ->
  Forall (not_breaking_for package) cs ->
  BumpLevel.bump_loop check_output package (map sha cs) Minor = Ok Minor.
Proof.
  induction 1 as [|c cs Hc Hcs IH]; intros Hnb; [reflexivity|].
  apply Forall_cons_iff in Hnb. destruct Hnb as [Hn Hrest].
  cbn [map]. rewrite (bump_level_loop_step _ _ _ _ _ Hc).
  destruct (touches package c) eqn:T; cbn [negb]; [|apply IH; exact Hrest].
  rewrite (Hn T).
  destruct (Py.startswith (subject c) "feat");
    [|destruct (Py.startswith (subject c) "fix"
               || Py.startswith (subject c) "perf")];
    cbn; apply IH; exact Hrest.
Qed.

Lemma release_loop_minor (cs : list Commit) :
  Forall (answers check_output) cs ->
  Forall (not_breaking_for package) cs ->
  Exists (feat_for package) cs ->
  forall b, b <> Major ->
    Release.bump_loop check_output pkg (map sha cs) b = Ok Minor.
Proof.
  induction 1 as [|c cs Hc Hcs IH]; intros Hnb Hex b Hb.
  - inversion Hex.
  - apply Forall_cons_iff in Hnb. destruct Hnb as [Hn Hrest].
    cbn [map]. rewrite (release_loop_step _ _ _ _ _ Hc). rewrite pkg_name.
    destruct (touches package c) eqn:T; cbn [negb].
    + rewrite (Hn T).
      destruct (Py.startswith (subject c) "feat") eqn:F.
      * replace (if bump_eqb b BumpNone || bump_eqb b Patch
                    || bump_eqb b Minor then Minor else b) with Minor
          by (destruct b; cbn; congruence).
        apply release_loop_keeps_minor; assumption.
      * assert (Hex' : Exists (feat_for package) cs).
        { apply Exists_cons in Hex.
        destruct Hex as [[_ F']|Hex']; [congruence | assumption]. }
        destruct (Py.startswith (subject c) "fix");
          apply IH; try assumption.
        destruct b; cbn; congruence.
    + apply IH; try assumption.
      apply Exists_cons in Hex.
      destruct Hex as [[T' _]|Hex']; [congruence | assumption].
Qed.

Lemma bump_level_loop_minor (cs : list Commit) :
  Forall (answers check_output) cs ->
  Forall (not_breaking_for package) cs ->
  Exists (feat_for package) cs ->
  forall b, b <> Major ->
    BumpLevel.bump_loop check_output package (map sha cs) b = Ok Minor.
Proof.
  induction 1 as [|c cs Hc Hcs IH]; intros Hnb Hex b Hb.
  - inversion Hex.
  - apply Forall_cons_iff in Hnb. destruct Hnb as [Hn Hrest].
    cbn [map]. rewrite (bump_level_loop_step _ _ _ _ _ Hc).
    destruct (touches package c) eqn:T; cbn [negb].
    + rewrite (Hn T).
      destruct (Py.startswith (subject c) "feat") eqn:F.
      * apply bump_level_loop_keeps_minor; assumption.
      * assert (Hex' : Exists (feat_for package) cs).
        { apply Exists_cons in Hex.
        destruct Hex as [[_ F']|Hex']; [congruence | assumption]. }
        destruct (Py.startswith (subject c) "fix"
                  || Py.startswith (subject c) "perf");
          apply IH; try assumption.
        destruct b; cbn; congruence.
    + apply IH; try assumption.
      apply Exists_cons in Hex.
      destruct Hex as [[T' _]|Hex']; [congruence | assumption].
Qed.

End ClassifierRanges.

(** ** Classifier claims *)

Ltac answered :=
  repeat first
    [ apply Forall_nil
    | apply Forall_cons
    | match goal with
      | |- answers _ _ =>
          split; [|split]; eexists; (split; [reflexivity | reflexivity])
      | |- lists _ _ _ => eexists; (split; [reflexivity | reflexivity])
      end ].

(** C1 (evaluation at the failing input). A range whose only commit
    touching [p/] has the subject [perf: faster scan]: the classifier of
    [release.py] returns [none], the one of [bump_level.py] prints
    [patch]. A [fix] subject gives [patch] in both. *)
Theorem perf_only_range_release_none :
  Release.conventional_bump_from_commits
    (Example.tool [Example.perf_commit]) None Example.pkg_p = Ok BumpNone
  /\ BumpLevel.main (Example.tool [Example.perf_commit])
       ["bump_level.py"; "p"; ""]
     = Ok (BumpLevel.mkOutput ["patch"] [] 0)
  /\ Release.conventional_bump_from_commits
       (Example.tool [Example.fix_commit]) None Example.pkg_p = Ok Patch
  /\ BumpLevel.main (Example.tool [Example.fix_commit])
       ["bump_level.py"; "p"; ""]
     = Ok (BumpLevel.mkOutput ["patch"] [] 0).
Proof. repeat split; vm_compute; reflexivity. Qed.

(** C2. If some commit of the range touches the package and carries a
    breaking-change marker (the text BREAKING CHANGE in its body, or a
    subject of the form type!: or type(scope)!:), both classifiers give
    [major], whatever the other commits are and wherever they stand. *)
Theorem breaking_commit_classifies_major :
  forall (check_output : list string -> result string)
         (cs : list Commit) (package : string),
    Forall (answers check_output) cs ->
    Exists (breaking_for package) cs ->
    (forall tag pkg,
        Release.name pkg = package ->
        lists check_output (Release.rev_list_args tag) cs ->
        Release.conventional_bump_from_commits check_output tag pkg
        = Ok Major)
    /\ (forall script since_ref,
          lists check_output (BumpLevel.rev_list_args since_ref) cs ->
          BumpLevel.main check_output [script; package; since_ref]
          = Ok (BumpLevel.mkOutput ["major"] [] 0)).
Proof.
  intros check_output cs package Hans Hex. split.
  - intros tag pkg Hname (out & E & L). subst package.
    unfold Release.conventional_bump_from_commits, Release.run.
    rewrite E. cbn [bind]. rewrite L.
    apply release_loop_major with (package := Release.name pkg);
      [reflexivity | assumption | assumption].
  - intros script since_ref (out & E & L).
    unfold BumpLevel.main, BumpLevel.commits_since, BumpLevel.run.
    rewrite E. cbn [bind]. rewrite L.
    rewrite (bump_level_loop_major check_output package cs Hans Hex BumpNone).
    reflexivity.
Qed.

Lemma breaking_commit_classifies_major_witness :
  let cs := [Example.fix_commit; Example.other_commit;
             Example.breaking_commit; Example.feat_commit] in
  Release.conventional_bump_from_commits (Example.tool cs) None
    Example.pkg_p = Ok Major
  /\ BumpLevel.main (Example.tool cs) ["bump_level.py"; "p"; "HEAD~9"]
     = Ok (BumpLevel.mkOutput ["major"] [] 0).
Proof.
  intros cs.
  assert (Hans : Forall (answers (Example.tool cs)) cs) by (subst cs; answered).
  assert (Hex : Exists (breaking_for "p") cs).
  { subst cs. do 2 apply Exists_cons_tl. apply Exists_cons_hd.
    split; reflexivity. }
  destruct (breaking_commit_classifies_major (Example.tool cs) cs "p" Hans Hex)
    as [R B].
  split.
  - apply R; [reflexivity | subst cs; answered].
  - apply B. subst cs; answered.
Defined.

(** C3. With no breaking commit among the commits touching the package
    and at least one of them with a [feat] subject, both classifiers give
    [minor], whatever the number and the position of the [fix] commits
    (or of any other commit); and on any answered range the running bump
    of either loop never decreases: started from [minor] it ends at
    [minor] or [major]. *)
Theorem feat_among_fixes_classifies_minor :
  forall (check_output : list string -> result string)
         (cs : list Commit) (package : string),
    Forall (answers check_output) cs ->
    (Forall (not_breaking_for package) cs ->
     Exists (feat_for package) cs ->
     (forall tag pkg,
         Release.name pkg = package ->
         lists check_output (Release.rev_list_args tag) cs ->
         Release.conventional_bump_from_commits check_output tag pkg
         = Ok Minor)
     /\ (forall script since_ref,
           lists check_output (BumpLevel.rev_list_args since_ref) cs ->
           BumpLevel.main check_output [script; package; since_ref]
           = Ok (BumpLevel.mkOutput ["minor"] [] 0)))
    /\ (forall pkg b,
          Release.name pkg = package ->
          exists b',
            Release.bump_loop check_output pkg (map sha cs) b = Ok b'
            /\ bump_le b b')
    /\ (forall b,
          b <> Major ->
          exists b',
            BumpLevel.bump_loop check_output package (map sha cs) b = Ok b'
            /\ bump_le b b').
Proof.
  intros check_output cs package Hans. split; [|split].
  - intros Hnb Hex. split.
    + intros tag pkg Hname (out & E & L). subst package.
      unfold Release.conventional_bump_from_commits, Release.run.
      rewrite E. cbn [bind]. rewrite L.
      apply release_loop_minor with (package := Release.name pkg);
        try assumption; [reflexivity | discriminate].
    + intros script since_ref (out & E & L).
      unfold BumpLevel.main, BumpLevel.commits_since, BumpLevel.run.
      rewrite E. cbn [bind]. rewrite L.
      rewrite (bump_level_loop_minor check_output package cs Hans Hnb Hex
                 BumpNone) by discriminate.
      reflexivity.
  - intros pkg b Hname. subst package.
    apply release_loop_monotone; assumption.
  - intros b Hb.
    apply (bump_level_loop_monotone check_output package cs Hans b Hb).
Qed.

Lemma feat_among_fixes_classifies_minor_witness :
  let cs := [Example.fix_commit; Example.feat_commit; Example.other_commit;
             Example.fix_commit] in
  Release.conventional_bump_from_commits (Example.tool cs) None
    Example.pkg_p = Ok Minor
  /\ BumpLevel.main (Example.tool cs) ["bump_level.py"; "p"; "none"]
     = Ok (BumpLevel.mkOutput ["minor"] [] 0)
  /\ (exists b',
        Release.bump_loop (Example.tool cs) Example.pkg_p (map sha cs) Minor
        = Ok b'
        /\ bump_le Minor b')
  /\ (exists b',
        BumpLevel.bump_loop (Example.tool cs) "p" (map sha cs) Patch = Ok b'
        /\ bump_le Patch b').
Proof.
  intros cs.
  assert (Hans : Forall (answers (Example.tool cs)) cs) by (subst cs; answered).
  assert (Hnb : Forall (not_breaking_for "p") cs).
  { subst cs. repeat (apply Forall_cons;
                      [intros H; first [reflexivity | discriminate H]|]).
    apply Forall_nil. }
  assert (Hex : Exists (feat_for "p") cs).
  { subst cs. apply Exists_cons_tl. apply Exists_cons_hd. split; reflexivity. }
  destruct (feat_among_fixes_classifies_minor (Example.tool cs) cs "p" Hans)
    as [H [Hr Hm]].
  destruct (H Hnb Hex) as [R B].
  split; [|split; [|split]].
  - apply R; [reflexivity | subst cs; answered].
  - apply B. subst cs; answered.
  - apply Hr. reflexivity.
  - apply Hm. discriminate.
Defined.

(** ** Strings and greedy runs *)

Lemma append_empty_r (s : string) : s ++ "" = s.
Proof. induction s as [|c s IH]; cbn; [reflexivity | now rewrite IH]. Qed.


Lemma span_spec (p : ascii -> bool) (s a r : string) :
  Py.span p s = (a, r) ->
  s = a ++ r /\ all_chars p a = true /\ stops p r.
Proof.
  revert a r. induction s as [|c s IH]; cbn; intros a r E.
  - inversion E; subst. cbn. auto.
  - destruct (p c) eqn:P.
    + destruct (Py.span p s) as [a' r'] eqn:S. inversion E; subst.
      destruct (IH _ _ eq_refl) as (-> & A & St). cbn. rewrite P, A. auto.
    + inversion E; subst. cbn. auto.
Qed.

Lemma span_append (p : ascii -> bool) (a r : string) :
  all_chars p a = true -> stops p r -> Py.span p (a ++ r) = (a, r).
Proof.
  induction a as [|c a IH]; cbn; intros A St.
  - destruct r as [|c r]; cbn in *; [reflexivity | now rewrite St].
  - apply andb_true_iff in A. destruct A as [P A].
    rewrite P, (IH A St). reflexivity.
Qed.

Lemma at_end_spec (s : string) :
  Py.at_end s = true <-> s = "" \/ s = Py.NL.
Proof.
  destruct s as [|c [|d s]]; cbn; split; intros H; auto.
  - apply Ascii.eqb_eq in H. subst. now right.
  - destruct H as [H|H]; [discriminate|]. inversion H. reflexivity.
  - discriminate.
  - destruct H as [H|H]; discriminate.
Qed.

Lemma prefix_append (p s : string) :
  String.prefix p s = true <-> exists rest, s = p ++ rest.
Proof.
  revert s. induction p as [|c p IH]; intros s.
  - split; [intros _; now exists s | destruct s; reflexivity].
  - destruct s as [|d s]; cbn.
    + split; [discriminate | intros (r & H); discriminate].
    + destruct (ascii_dec c d) as [->|N].
      * rewrite IH. split; intros (r & H); exists r; [now rewrite H|].
        now inversion H.
      * split; [discriminate|]. intros (r & H). inversion H. now elim N.
Qed.

Lemma strip_prefix_append (p s r : string) :
  Py.strip_prefix p s = Some r <-> s = p ++ r.
Proof.
  revert s. induction p as [|c p IH]; intros s; cbn.
  - split; [intros H; now inversion H | now intros ->].
  - destruct s as [|d s]; [split; discriminate|].
    destruct (Ascii.eqb_spec c d) as [->|N].
    + rewrite IH. split; [now intros -> | intros H; now inversion H].
    + split; [discriminate|]. intros H. inversion H. now elim N.
Qed.

(** ** The breaking-change marker decides its shape *)

Lemma scope_then_bang_shape (r : string) :
  scope_then_bang r = true
  <-> exists scope rest, scope_text scope /\ r = scope ++ ")!:" ++ rest.
Proof.
  unfold scope_text. split.
  - induction r as [|c r IH]; cbn; [discriminate|].
    intros H. apply andb_true_iff in H. destruct H as [D H].
    apply orb_true_iff in H. destruct H as [H|H].
    + apply prefix_append in H. destruct H as (rest & ->).
      exists (String c ""), rest. cbn. rewrite D. repeat split. discriminate.
    + destruct (IH H) as (scope & rest & (_ & A) & ->).
      exists (String c scope), rest. cbn. rewrite D, A.
      repeat split. discriminate.
  - intros (scope & rest & (N & A) & ->).
    induction scope as [|c scope IH]; [now elim N|].
    cbn in A. apply andb_true_iff in A. destruct A as [D A].
    cbn [append scope_then_bang]. rewrite D. cbn [andb].
    destruct scope as [|d scope].
    + apply orb_true_iff. left. apply prefix_append. now exists rest.
    + apply orb_true_iff. right. apply IH; [discriminate | exact A].
Qed.

Lemma breaking_marker_shape (s : string) :
  breaking_marker s = true <-> breaking_shape s.
Proof.
  unfold breaking_marker, breaking_shape, letters. split.
  - destruct (Py.span Py.isalpha s) as [ty rest] eqn:S.
    apply span_spec in S. destruct S as (-> & A & _).
    destruct ty as [|x ty]; [discriminate|].
    intros H. exists (String x ty).
    destruct rest as [|c r].
    + discriminate.
    + destruct (Ascii.eqb_spec c "(") as [->|N].
      * apply scope_then_bang_shape in H.
        destruct H as (scope & rest & Sc & ->).
        exists rest. split; [split; [discriminate | exact A]|].
        right. exists scope. split; [exact Sc | reflexivity].
      * assert (H' : Py.startswith (String c r) "!:" = true).
        { destruct c as [[] [] [] [] [] [] [] []]; try exact H.
          now elim N. }
        apply prefix_append in H'. destruct H' as (rest & ->).
        exists rest. split; [split; [discriminate | exact A]|]. now left.
  - intros (ty & rest & (N & A) & [->|(scope & Sc & ->)]).
    + rewrite (span_append Py.isalpha ty ("!:" ++ rest) A) by reflexivity.
      destruct ty; [now elim N|].
      apply (proj2 (prefix_append "!:" ("!:" ++ rest))). now exists rest.
    + rewrite (span_append Py.isalpha ty ("(" ++ scope ++ ")!:" ++ rest) A)
        by reflexivity.
      destruct ty; [now elim N|]. cbn [append].
      apply scope_then_bang_shape. now exists scope, rest.
Qed.

(** ** The version pattern decides the shape *)

Lemma SEMVER_RE_match_shape (v a b c : string) :
  Release.SEMVER_RE_match v = Some (a, b, c) <-> semver_shape v a b c.
Proof.
  unfold Release.SEMVER_RE_match, semver_shape, decimal. split.
  - destruct (Py.span Py.isdigit v) as [a' r1] eqn:S1.
    destruct a' as [|x a']; [discriminate|].
    destruct r1 as [|d1 r2]; [discriminate|].
    destruct (Ascii.eqb_spec d1 ".") as [->|N1];
      [|destruct d1 as [[] [] [] [] [] [] [] []]; try discriminate;
        now elim N1].
    destruct (Py.span Py.isdigit r2) as [b' r3] eqn:S2.
    destruct b' as [|y b']; [discriminate|].
    destruct r3 as [|d2 r4]; [discriminate|].
    destruct (Ascii.eqb_spec d2 ".") as [->|N2];
      [|destruct d2 as [[] [] [] [] [] [] [] []]; try discriminate;
        now elim N2].
    destruct (Py.span Py.isdigit r4) as [c' r5] eqn:S3.
    destruct c' as [|z c']; [discriminate|].
    destruct (Py.at_end r5) eqn:E; [|discriminate].
    intros H. inversion H; subst. clear H.
    apply span_spec in S1, S2, S3.
    destruct S1 as (-> & A1 & _), S2 as (-> & A2 & _), S3 as (-> & A3 & _).
    apply at_end_spec in E.
    repeat split; try discriminate; try assumption.
    destruct E as [->| ->]; [left | right]; cbn;
      rewrite ?append_empty_r; reflexivity.
  - intros ((Na & A) & (Nb & B) & (Nc & C) & Hv).
    assert (Hs : forall u, Py.at_end u = true ->
              Py.span Py.isdigit (c ++ u) = (c, u)).
    { intros u Hu. apply span_append; [exact C|].
      destruct u as [|e [|? ?]]; cbn in *; try exact I; try discriminate.
      apply Ascii.eqb_eq in Hu. subst. reflexivity. }
    assert (E : exists u, Py.at_end u = true
                          /\ v = a ++ "." ++ b ++ "." ++ c ++ u).
    { destruct Hv as [->| ->].
      - exists "". split; [reflexivity|]. now rewrite append_empty_r.
      - exists Py.NL. split; reflexivity. }
    destruct E as (u & Hu & ->).
    rewrite (span_append Py.isdigit a ("." ++ b ++ "." ++ c ++ u) A)
      by reflexivity.
    destruct a as [|x a]; [now elim Na|]. cbn [append].
    rewrite (span_append Py.isdigit b (String "." (c ++ u)) B) by reflexivity.
    destruct b as [|y b]; [now elim Nb|]. cbn [append].
    rewrite (Hs u Hu).
    destruct c as [|z c]; [now elim Nc|].
    rewrite Hu. reflexivity.
Qed.

(** ** Numbers and their decimal text *)

Lemma string_of_uint_digits (d : Decimal.uint) :
  all_chars Py.isdigit (NilEmpty.string_of_uint d) = true.
Proof. induction d; cbn; auto. Qed.

Lemma to_uint_nonnil (n : N) : N.to_uint n <> Decimal.Nil.
Proof.
  destruct n as [|p]; cbn; [discriminate|].
  apply DecimalPos.Unsigned.to_uint_nonnil.
Qed.

Lemma str_nonnil (n : N) :
  Py.str n = NilEmpty.string_of_uint (N.to_uint n).
Proof.
  unfold Py.str. pose proof (to_uint_nonnil n) as H.
  destruct (N.to_uint n); [now elim H | reflexivity ..].
Qed.

Lemma str_decimal (n : N) : decimal (Py.str n).
Proof.
  rewrite str_nonnil. split; [|apply string_of_uint_digits].
  pose proof (to_uint_nonnil n) as H.
  destruct (N.to_uint n); [now elim H | discriminate ..].
Qed.

Lemma int_str (n : N) : Py.int (Py.str n) = n.
Proof.
  unfold Py.int. rewrite str_nonnil, NilEmpty.usu.
  apply DecimalN.Unsigned.of_to.
Qed.

(** ** Version arithmetic *)

Lemma parse_semver_shape (v a b c : string) :
  semver_shape v a b c ->
  Release.parse_semver v = Ok (Py.int a, Py.int b, Py.int c).
Proof.
  intros H. apply SEMVER_RE_match_shape in H.
  unfold Release.parse_semver. rewrite H. reflexivity.
Qed.

Lemma parse_semver_rejects (v : string) :
  ~ matches_semver v ->
  Release.parse_semver v = Raise (ValueError ("Invalid semver: " ++ v)).
Proof.
  intros H. unfold Release.parse_semver.
  destruct (Release.SEMVER_RE_match v) as [[[a b] c]|] eqn:E; [|reflexivity].
  elim H. exists a, b, c. apply SEMVER_RE_match_shape. exact E.
Qed.

Lemma parse_semver_formatted (x y z : N) :
  Release.parse_semver (Py.str x ++ "." ++ Py.str y ++ "." ++ Py.str z)
  = Ok (x, y, z).
Proof.
  rewrite (parse_semver_shape _ (Py.str x) (Py.str y) (Py.str z)).
  - now rewrite !int_str.
  - repeat split; try apply str_decimal. now left.
Qed.

Lemma bump_version_components_aux (v : string) :
  (forall a b c : string,
      semver_shape v a b c ->
      Release.parse_semver v = Ok (Py.int a, Py.int b, Py.int c)
      /\ Release.bump_version v BumpNone = Ok v
      /\ Release.bump_version v Patch
         = Ok (Py.str (Py.int a) ++ "." ++ Py.str (Py.int b) ++ "."
                 ++ Py.str (Py.int c + 1))
      /\ Release.bump_version v Minor
         = Ok (Py.str (Py.int a) ++ "." ++ Py.str (Py.int b + 1) ++ ".0")
      /\ Release.bump_version v Major
         = Ok (Py.str (Py.int a + 1) ++ ".0.0"))
  /\ (~ matches_semver v ->
      forall bump,
        Release.bump_version v bump
        = Raise (ValueError ("Invalid semver: " ++ v))).
Proof.
  split.
  - intros a b c H.
    pose proof (parse_semver_shape _ _ _ _ H) as P.
    unfold Release.bump_version. rewrite P. cbn [bind].
    repeat split.
  - intros H bump. unfold Release.bump_version.
    rewrite (parse_semver_rejects v H). reflexivity.
Qed.

(** C4. For a version string [v] of the shape [^\d+\.\d+\.\d+$] with
    components [(M, m, p)]: [bump_version v none] is [v]; with [patch]
    the result reads [(M, m, p+1)]; with [minor], [(M, m+1, 0)]; with
    [major], [(M+1, 0, 0)]; and [parse_semver] (hence [bump_version])
    raises ValueError on every string that is not of that shape. *)
Theorem bump_version_components :
  forall v : string,
    (forall a b c : string,
        semver_shape v a b c ->
        let M := Py.int a in
        let m := Py.int b in
        let p := Py.int c in
        Release.parse_semver v = Ok (M, m, p)
        /\ Release.bump_version v BumpNone = Ok v
        /\ Release.bump_version v Patch
           = Ok (Py.str M ++ "." ++ Py.str m ++ "." ++ Py.str (p + 1))
        /\ Release.parse_semver
             (Py.str M ++ "." ++ Py.str m ++ "." ++ Py.str (p + 1))
           = Ok (M, m, (p + 1)%N)
        /\ Release.bump_version v Minor
           = Ok (Py.str M ++ "." ++ Py.str (m + 1) ++ ".0")
        /\ Release.parse_semver (Py.str M ++ "." ++ Py.str (m + 1) ++ ".0")
           = Ok (M, (m + 1)%N, 0%N)
        /\ Release.bump_version v Major = Ok (Py.str (M + 1) ++ ".0.0")
        /\ Release.parse_semver (Py.str (M + 1) ++ ".0.0")
           = Ok ((M + 1)%N, 0%N, 0%N))
    /\ (~ matches_semver v ->
        Release.parse_semver v = Raise (ValueError ("Invalid semver: " ++ v))
        /\ forall bump,
            Release.bump_version v bump
            = Raise (ValueError ("Invalid semver: " ++ v))).
Proof.
  intros v. destruct (bump_version_components_aux v) as [Hok Hbad]. split.
  - intros a b c H M m p.
    destruct (Hok a b c H) as (P & H0 & H1 & H2 & H3).
    split; [exact P|]. split; [exact H0|]. split; [exact H1|].
    split; [apply parse_semver_formatted|]. split; [exact H2|].
    split; [apply (parse_semver_formatted M (m + 1) 0)|].
    split; [exact H3|]. apply (parse_semver_formatted (M + 1) 0 0).
  - intros H.
    split; [apply parse_semver_rejects; exact H | apply Hbad; exact H].
Qed.

Lemma bump_version_components_witness :
  (Release.bump_version "1.9.9" BumpNone = Ok "1.9.9"
   /\ Release.bump_version "1.9.9" Patch = Ok "1.9.10"
   /\ Release.bump_version "1.9.9" Minor = Ok "1.10.0"
   /\ Release.bump_version "1.9.9" Major = Ok "2.0.0")
  /\ Release.parse_semver "1.9.x" = Raise (ValueError "Invalid semver: 1.9.x").
Proof.
  split.
  - assert (S : semver_shape "1.9.9" "1" "9" "9").
    { repeat split; try discriminate. now left. }
    destruct (proj1 (bump_version_components "1.9.9") "1" "9" "9" S)
      as (_ & H0 & H1 & _ & H2 & _ & H3 & _).
    repeat split; assumption.
  - assert (N : ~ matches_semver "1.9.x").
    { intros (a & b & c & H). apply SEMVER_RE_match_shape in H.
      discriminate H. }
    exact (proj1 (proj2 (bump_version_components "1.9.x") N)).
Defined.

(** ** The assignment pattern decides its shape *)

Lemma spaces_then_eol_shape (r : string) :
  Py.spaces_then_eol r = true
  <-> exists ws rest,
        spaces ws
        /\ (rest = EmptyString \/ exists r', rest = String Py.LF r')
        /\ r = ws ++ rest.
Proof.
  unfold spaces. split.
  - induction r as [|c r IH]; cbn [Py.spaces_then_eol].
    + intros _. exists "", "". auto.
    + destruct (Ascii.eqb_spec c Py.LF) as [->|N].
      * intros _. exists "", (String Py.LF r). cbn. eauto.
      * destruct (Py.isspace c) eqn:Sp; [|discriminate].
        intros H. destruct (IH H) as (ws & rest & A & E & ->).
        exists (String c ws), rest. cbn [all_chars append].
        rewrite Sp, A. auto.
  - intros (ws & rest & A & E & ->).
    induction ws as [|c ws IH]; cbn [append Py.spaces_then_eol].
    + destruct E as [->|(r' & ->)]; [reflexivity|].
      cbn [Py.spaces_then_eol]. now rewrite Ascii.eqb_refl.
    + cbn [all_chars] in A. apply andb_true_iff in A. destruct A as [Sp A].
      destruct (Ascii.eqb c Py.LF); [reflexivity|].
      rewrite Sp. apply IH. exact A.
Qed.

Lemma match_assignment_shape (key s g : string) :
  match_assignment key s = Some g <-> assignment_shape key s g.
Proof.
  unfold match_assignment, assignment_shape, spaces, unquoted. split.
  - destruct (Py.strip_prefix key s) as [r1|] eqn:P; [|discriminate].
    apply strip_prefix_append in P. subst s.
    destruct (Py.span Py.isspace r1) as [ws1 r2] eqn:S1. cbn [snd].
    apply span_spec in S1. destruct S1 as (-> & A1 & _).
    destruct r2 as [|c r3]; [discriminate|].
    destruct (Ascii.eqb_spec c "=") as [->|N];
      [|destruct c as [[] [] [] [] [] [] [] []]; try discriminate;
        now elim N].
    destruct (Py.span Py.isspace r3) as [ws2 r4] eqn:S2. cbn [snd].
    apply span_spec in S2. destruct S2 as (-> & A2 & _).
    destruct r4 as [|q r5]; [discriminate|].
    destruct (Ascii.eqb_spec q Py.DQUOTE) as [->|N]; [|discriminate].
    destruct (Py.span _ r5) as [g' r6] eqn:S3.
    apply span_spec in S3. destruct S3 as (-> & A3 & St).
    destruct g' as [|x g']; [discriminate|].
    destruct r6 as [|c' r7]; [discriminate|].
    cbn in St. apply negb_false_iff, Ascii.eqb_eq in St. subst c'.
    destruct (Py.spaces_then_eol r7) eqn:E; [|discriminate].
    intros H. inversion H; subst g. clear H.
    apply spaces_then_eol_shape in E.
    destruct E as (ws3 & rest & A & E & ->).
    exists ws1, ws2, ws3, rest.
    repeat split; try assumption. discriminate.
  - intros (ws1 & ws2 & ws3 & rest & A1 & A2 & A3 & (N & Ag) & E & ->).
    unfold Py.QUOTE.
    rewrite (proj2 (strip_prefix_append key _ _) eq_refl).
    rewrite (span_append Py.isspace ws1 _ A1) by reflexivity. cbn [snd append].
    rewrite (span_append Py.isspace ws2 _ A2) by reflexivity. cbn [snd append].
    rewrite Ascii.eqb_refl.
    rewrite (span_append _ g _ Ag) by reflexivity.
    destruct g as [|x g]; [now elim N|]. cbn [append].
    rewrite (proj2 (spaces_then_eol_shape (ws3 ++ rest))); [reflexivity|].
    now exists ws3, rest.
Qed.

(** ** The descriptor lines of a diff *)

Lemma pyproject_line_shape (line g : string) :
  TagOnMerge.pyproject_line line = Some g <-> descriptor_line_shape line g.
Proof.
  unfold TagOnMerge.pyproject_line, descriptor_line_shape. split.
  - destruct (Py.span _ line) as [g' r] eqn:S.
    apply span_spec in S. destruct S as (-> & A & St).
    destruct g' as [|x g']; [discriminate|].
    destruct r as [|c r']; [discriminate|].
    cbn in St. apply negb_false_iff, Ascii.eqb_eq in St. subst c.
    destruct (Py.strip_prefix "pyproject.toml" r') as [e|] eqn:P;
      [|discriminate].
    apply strip_prefix_append in P. subst r'.
    destruct (Py.at_end e) eqn:E; [|discriminate].
    intros H. inversion H; subst g. clear H.
    apply at_end_spec in E.
    split; [discriminate|]. split; [exact A|].
    destruct E as [->| ->]; [left | right]; reflexivity.
  - intros (N & A & E).
    assert (H : exists e, Py.at_end e = true
                          /\ line = g ++ "/pyproject.toml" ++ e).
    { destruct E as [->| ->]; [exists "" | exists Py.NL];
        split; reflexivity. }
    destruct H as (e & He & ->).
    rewrite (span_append _ g ("/pyproject.toml" ++ e) A) by reflexivity.
    destruct g as [|x g]; [now elim N|].
    cbn [append Py.strip_prefix Ascii.eqb Bool.eqb]. rewrite He. reflexivity.
Qed.

(** ** Reading the version of a descriptor *)

Lemma search_assignment_from (key : string) (s : string) (bol : bool) :
  search_assignment key bol s
  = hd_error (flat_map (assignment_at key)
                ((if bol then [s] else []) ++ later_line_starts s)%list).
Proof.
  revert bol. induction s as [|c s IH]; intros bol.
  - cbn. destruct bol; cbn; [|reflexivity].
    unfold assignment_at. destruct (match_assignment key ""); reflexivity.
  - cbn [search_assignment later_line_starts].
    rewrite IH.
    destruct bol; cbn [app flat_map].
    + unfold assignment_at at 2.
      destruct (match_assignment key (String c s)) as [g|]; [reflexivity|].
      cbn [app]. destruct (Ascii.eqb c Py.LF); reflexivity.
    + destruct (Ascii.eqb c Py.LF); reflexivity.
Qed.

Lemma search_assignment_first (key txt : string) :
  search_assignment key true txt = hd_error (assignments key txt).
Proof. apply search_assignment_from. Qed.

(** C5 (counterexample). A descriptor with two version lines: both lines
    match the assignment pattern, and both readers return the first
    value instead of failing. *)
Lemma two_version_lines_read_first :
  assignments "version" Example.two_versions = ["1.2.0"; "1.1.9"]
  /\ Release.read_pyproject_version (fun _ => Ok Example.two_versions)
       "/repo/p/pyproject.toml" = Ok "1.2.0"
  /\ ~ (exists e,
          Release.read_pyproject_version (fun _ => Ok Example.two_versions)
            "/repo/p/pyproject.toml" = Raise e)
  /\ TagOnMerge.read_project_version "/repo/p/pyproject.toml"
       Example.ambiguous
     = (Ok "1.2.0", Example.ambiguous).
Proof.
  split; [reflexivity|]. split; [reflexivity|]. split.
  - intros (e & H). discriminate H.
  - reflexivity.
Qed.

(** C5 (amended). Reading the version of a descriptor fails (ValueError)
    exactly when no line of the text matches the assignment pattern;
    when one or more lines match, it returns the value of the first of
    them: several matching lines are not an error for the readers. *)
Theorem read_version_first_assignment :
  forall (read_text : string -> result string) (w : TagOnMerge.World)
         (pyproject txt : string),
    read_text pyproject = Ok txt ->
    TagOnMerge.files w pyproject = Some txt ->
    (assignments "version" txt = [] ->
     Release.read_pyproject_version read_text pyproject
     = Raise (ValueError ("Could not find version in " ++ pyproject))
     /\ TagOnMerge.read_project_version pyproject w
        = (Raise (ValueError ("Could not find version in " ++ pyproject)), w))
    /\ (forall g rest,
          assignments "version" txt = g :: rest ->
          Release.read_pyproject_version read_text pyproject = Ok g
          /\ TagOnMerge.read_project_version pyproject w = (Ok g, w)).
Proof.
  intros read_text w pyproject txt Hr Hw.
  unfold Release.read_pyproject_version, TagOnMerge.read_project_version,
    TagOnMerge.bindM, TagOnMerge.read_text.
  rewrite Hr, Hw. cbn [bind]. rewrite search_assignment_first.
  split.
  - intros ->. split; reflexivity.
  - intros g rest ->. split; reflexivity.
Qed.

Lemma read_version_first_assignment_witness :
  Release.read_pyproject_version (fun _ => Ok Example.two_versions)
    "/repo/p/pyproject.toml" = Ok "1.2.0"
  /\ TagOnMerge.read_project_version "/repo/p/pyproject.toml"
       Example.ambiguous = (Ok "1.2.0", Example.ambiguous)
  /\ Release.read_pyproject_version (fun _ => Ok Example.no_version)
       "/repo/p/pyproject.toml"
     = Raise (ValueError "Could not find version in /repo/p/pyproject.toml").
Proof.
  pose proof (read_version_first_assignment
                (fun _ => Ok Example.two_versions) Example.ambiguous
                "/repo/p/pyproject.toml" Example.two_versions
                eq_refl eq_refl) as [_ H].
  destruct (H "1.2.0" ["1.1.9"] eq_refl) as [H1 H2].
  pose proof (read_version_first_assignment
                (fun _ => Ok Example.no_version)
                (Example.world [("/repo/p/pyproject.toml", Example.no_version)]
                   Example.diff_p [])
                "/repo/p/pyproject.toml" Example.no_version
                eq_refl eq_refl) as [H0 _].
  destruct (H0 eq_refl) as [H3 _].
  split; [exact H1 | split; [exact H2 | exact H3]].
Defined.

(** ** Failures of queries in release.py *)

Section QueryFailures.

Variable check_output : list string -> result string.
Variable pkg : Release.Package.

Lemma latest_tag_for_guarded (e : exn) :
  check_output (tag_list_args pkg) = Raise e ->
  Release.latest_tag_for check_output pkg = None.
Proof.
  intros H. unfold Release.latest_tag_for, Release.run.
  unfold tag_list_args in H. rewrite H. reflexivity.
Qed.

Lemma latest_tag_for_listed (out : string) :
  check_output (tag_list_args pkg) = Ok out ->
  Release.latest_tag_for check_output pkg
  = hd_error (Py.splitlines (Py.strip out)).
Proof.
  intros H. unfold Release.latest_tag_for, Release.run.
  unfold tag_list_args in H. rewrite H. cbn [bind].
  destruct (Py.splitlines (Py.strip out)); reflexivity.
Qed.

Lemma package_changed_fatal (tag : option string) (e : exn) :
  check_output (changed_files_args tag) = Raise e ->
  Release.package_changed check_output pkg tag = Raise e.
Proof.
  unfold changed_files_args, Release.package_changed,
    Release.changed_files_since, Release.run.
  destruct (String.eqb (Release.git_range_since tag) "HEAD");
    intros H; rewrite H; reflexivity.
Qed.

Lemma rev_list_fatal (tag : option string) (e : exn) :
  check_output (Release.rev_list_args tag) = Raise e ->
  Release.conventional_bump_from_commits check_output tag pkg = Raise e.
Proof.
  intros H. unfold Release.conventional_bump_from_commits, Release.run.
  rewrite H. reflexivity.
Qed.

Lemma show_names_fatal (s : string) (rest : list string)
  (b : SemverBump) (e : exn) :
  check_output (show_names s) = Raise e ->
  Release.bump_loop check_output pkg (s :: rest) b = Raise e.
Proof.
  intros H. cbn [Release.bump_loop]. unfold Release.run.
  unfold show_names in H. rewrite H. reflexivity.
Qed.

Lemma show_subject_fatal (s : string) (rest : list string)
  (b : SemverBump) (out : string) (e : exn) :
  check_output (show_names s) = Ok out ->
  names_touch pkg out = true ->
  check_output (show_subject s) = Raise e ->
  Release.bump_loop check_output pkg (s :: rest) b = Raise e.
Proof.
  intros N T H. cbn [Release.bump_loop]. unfold Release.run.
  unfold show_names in N. unfold show_subject in H. unfold names_touch in T.
  rewrite N. cbn [bind]. rewrite T. cbn [negb]. rewrite H. reflexivity.
Qed.

Lemma show_body_fatal (s : string) (rest : list string)
  (b : SemverBump) (out sub : string) (e : exn) :
  check_output (show_names s) = Ok out ->
  names_touch pkg out = true ->
  check_output (show_subject s) = Ok sub ->
  check_output (show_body s) = Raise e ->
  Release.bump_loop check_output pkg (s :: rest) b = Raise e.
Proof.
  intros N T S H. cbn [Release.bump_loop]. unfold Release.run.
  unfold show_names in N. unfold show_subject in S. unfold show_body in H.
  unfold names_touch in T.
  rewrite N. cbn [bind]. rewrite T. cbn [negb]. rewrite S. cbn [bind].
  rewrite H. reflexivity.
Qed.

Lemma query_fails_fatal (s : string) (rest : list string)
  (b : SemverBump) (e : exn) :
  query_fails check_output pkg s e ->
  Release.bump_loop check_output pkg (s :: rest) b = Raise e.
Proof.
  intros [H|(out & N & T & [H|(sub & S & H)])].
  - now apply show_names_fatal.
  - now apply (show_subject_fatal s rest b out).
  - now apply (show_body_fatal s rest b out sub).
Qed.

(** The failure is reached past every answered commit that does not end
    the scan. *)
Lemma query_fails_in_range (pre : list Commit) (s : string)
  (rest : list string) (e : exn) :
  Forall (answers check_output) pre ->
  Forall (not_breaking_for (Release.name pkg)) pre ->
  query_fails check_output pkg s e ->
  forall b,
    Release.bump_loop check_output pkg (map sha pre ++ s :: rest)%list b
    = Raise e.
Proof.
  intros Ha Hn Hf. induction Ha as [|c pre Hc Ha IH]; intros b; cbn [map app].
  - now apply query_fails_fatal.
  - apply Forall_cons_iff in Hn. destruct Hn as [Hb Hn].
    rewrite (release_loop_step _ _ _ _ _ Hc).
    unfold not_breaking_for in Hb.
    destruct (touches (Release.name pkg) c); cbn [negb];
      [|now apply IH].
    rewrite (Hb eq_refl).
    destruct (Py.startswith (subject c) "feat");
      [|destruct (Py.startswith (subject c) "fix")]; now apply IH.
Qed.

End QueryFailures.

(** C7 (counterexample). The tag listing exits non-zero; [latest_tag_for]
    returns no tag and both passes go on, with the package handled as a
    first release. *)
Lemma failed_tag_listing_is_swallowed :
  let tool := ExampleTools.tag_listing_fails [ExampleTools.chore_commit] in
  tool (tag_list_args Example.pkg_p)
  = Raise (CalledProcessError (tag_list_args Example.pkg_p))
  /\ Release.latest_tag_for tool Example.pkg_p = None
  /\ Release.cmd_detect_changed tool [Example.pkg_p] = Ok ["p"]
  /\ Release.cmd_tag_main_plan tool [Example.pkg_p]
       ExampleTools.read_one_version
     = Ok [(Example.pkg_p, "1.2.1")]
  /\ ~ (exists e, Release.cmd_detect_changed tool [Example.pkg_p] = Raise e)
  /\ ~ (exists e,
          Release.cmd_tag_main_plan tool [Example.pkg_p]
            ExampleTools.read_one_version = Raise e).
Proof.
  cbv zeta. repeat split; try reflexivity; intros (e & H); discriminate H.
Qed.

(** C7 (amended). A failing version-control command is fatal wherever
    the call is not guarded: the change listing, the revision listing and
    the per-commit queries raise to the caller, and so does the planning
    loop. For the per-commit queries this holds for each of the three,
    the name listing, the subject and the body of a commit that touches
    the package, at the head of the range and past every answered commit
    that does not end the scan. The tag listing of [latest_tag_for] is
    guarded: on any failure it returns no tag, as it does for an empty
    listing, and otherwise the first line listed. *)
Theorem query_failures_fatal_unless_guarded :
  forall (check_output : list string -> result string)
         (pkg : Release.Package),
    (forall e,
        check_output (tag_list_args pkg) = Raise e ->
        Release.latest_tag_for check_output pkg = None)
    /\ (forall out,
          check_output (tag_list_args pkg) = Ok out ->
          Release.latest_tag_for check_output pkg
          = hd_error (Py.splitlines (Py.strip out)))
    /\ (forall tag e,
          check_output (changed_files_args tag) = Raise e ->
          Release.package_changed check_output pkg tag = Raise e)
    /\ (forall tag e,
          check_output (Release.rev_list_args tag) = Raise e ->
          Release.conventional_bump_from_commits check_output tag pkg
          = Raise e)
    /\ (forall s rest b e,
          check_output (show_names s) = Raise e ->
          Release.bump_loop check_output pkg (s :: rest) b = Raise e)
    /\ (forall read_text rest planned e,
          Release.package_changed check_output pkg
            (Release.latest_tag_for check_output pkg) = Raise e ->
          Release.plan_loop check_output read_text (pkg :: rest) planned
          = Raise e)
    /\ (forall read_text rest planned e,
          Release.package_changed check_output pkg
            (Release.latest_tag_for check_output pkg) = Ok true ->
          Release.conventional_bump_from_commits check_output
            (Release.latest_tag_for check_output pkg) pkg = Raise e ->
          Release.plan_loop check_output read_text (pkg :: rest) planned
          = Raise e)
    /\ (forall s rest b out e,
          check_output (show_names s) = Ok out ->
          names_touch pkg out = true ->
          check_output (show_subject s) = Raise e ->
          Release.bump_loop check_output pkg (s :: rest) b = Raise e)
    /\ (forall s rest b out sub e,
          check_output (show_names s) = Ok out ->
          names_touch pkg out = true ->
          check_output (show_subject s) = Ok sub ->
          check_output (show_body s) = Raise e ->
          Release.bump_loop check_output pkg (s :: rest) b = Raise e)
    /\ (forall tag out pre s rest e,
          check_output (Release.rev_list_args tag) = Ok out ->
          Py.splitlines (Py.strip out) = (map sha pre ++ s :: rest)%list ->
          Forall (answers check_output) pre ->
          Forall (not_breaking_for (Release.name pkg)) pre ->
          query_fails check_output pkg s e ->
          Release.conventional_bump_from_commits check_output tag pkg
          = Raise e).
Proof.
  intros check_output pkg.
  split; [apply latest_tag_for_guarded|].
  split; [apply latest_tag_for_listed|].
  split; [apply package_changed_fatal|].
  split; [apply rev_list_fatal|].
  split; [apply show_names_fatal|].
  split.
  { intros read_text rest planned e H.
    cbn [Release.plan_loop]. rewrite H. reflexivity. }
  split.
  { intros read_text rest planned e H1 H2.
    cbn [Release.plan_loop]. rewrite H1. cbn [bind negb]. rewrite H2.
    reflexivity. }
  split; [apply show_subject_fatal|].
  split; [apply show_body_fatal|].
  intros tag out pre s rest e L S Ha Hn Hf.
  unfold Release.conventional_bump_from_commits, Release.run.
  rewrite L. cbn [bind]. rewrite S.
  now apply query_fails_in_range.
Qed.

Lemma query_failures_fatal_unless_guarded_witness :
  Release.latest_tag_for
    (ExampleTools.tag_listing_fails [ExampleTools.chore_commit])
    Example.pkg_p = None
  /\ Release.latest_tag_for
       (fun _ => Ok "better-mcps-p-v1.2.0") Example.pkg_p
     = Some "better-mcps-p-v1.2.0"
  /\ Release.package_changed (Example.tool []) Example.pkg_p None
     = Raise (CalledProcessError ["git"; "ls-files"])
  /\ Release.conventional_bump_from_commits ExampleTools.history_fails
       None Example.pkg_p
     = Raise (CalledProcessError ["git"; "rev-list"; "HEAD"])
  /\ Release.bump_loop ExampleTools.history_fails Example.pkg_p ["c1"]
       BumpNone
     = Raise (CalledProcessError (show_names "c1"))
  /\ Release.plan_loop (Example.tool []) ExampleTools.read_one_version
       [Example.pkg_p] []
     = Raise (CalledProcessError ["git"; "ls-files"])
  /\ Release.plan_loop ExampleTools.history_fails
       ExampleTools.read_one_version [Example.pkg_p] []
     = Raise (CalledProcessError ["git"; "rev-list"; "HEAD"])
  /\ Release.bump_loop
       (ExampleTools.subject_fails [Example.fix_commit]) Example.pkg_p
       ["c2"] BumpNone
     = Raise (CalledProcessError (show_subject "c2"))
  /\ Release.bump_loop
       (ExampleTools.body_fails "c2" [Example.fix_commit]) Example.pkg_p
       ["c2"] BumpNone
     = Raise (CalledProcessError (show_body "c2"))
  /\ Release.conventional_bump_from_commits
       (ExampleTools.body_fails "c3"
          [Example.fix_commit; Example.feat_commit])
       None Example.pkg_p
     = Raise (CalledProcessError (show_body "c3")).
Proof.
  destruct (query_failures_fatal_unless_guarded
              (ExampleTools.tag_listing_fails [ExampleTools.chore_commit])
              Example.pkg_p) as (G & _).
  destruct (query_failures_fatal_unless_guarded
              (fun _ => Ok "better-mcps-p-v1.2.0") Example.pkg_p)
    as (_ & L & _).
  destruct (query_failures_fatal_unless_guarded (Example.tool [])
              Example.pkg_p) as (_ & _ & C & _ & _ & P & _).
  destruct (query_failures_fatal_unless_guarded ExampleTools.history_fails
              Example.pkg_p) as (_ & _ & _ & R & S & _ & P' & _).
  destruct (query_failures_fatal_unless_guarded
              (ExampleTools.subject_fails [Example.fix_commit])
              Example.pkg_p) as (_ & _ & _ & _ & _ & _ & _ & Su & _).
  destruct (query_failures_fatal_unless_guarded
              (ExampleTools.body_fails "c2" [Example.fix_commit])
              Example.pkg_p) as (_ & _ & _ & _ & _ & _ & _ & _ & Bo & _).
  destruct (query_failures_fatal_unless_guarded
              (ExampleTools.body_fails "c3"
                 [Example.fix_commit; Example.feat_commit])
              Example.pkg_p) as (_ & _ & _ & _ & _ & _ & _ & _ & _ & Ra).
  split; [exact (G _ eq_refl)|].
  split; [exact (L _ eq_refl)|].
  split; [exact (C None _ eq_refl)|].
  split; [exact (R None _ eq_refl)|].
  split; [exact (S "c1" [] BumpNone _ eq_refl)|].
  split; [exact (P ExampleTools.read_one_version [] [] _ eq_refl)|].
  split; [exact (P' ExampleTools.read_one_version [] [] _ eq_refl eq_refl)|].
  split; [exact (Su "c2" [] BumpNone _ _ eq_refl eq_refl eq_refl)|].
  split; [exact (Bo "c2" [] BumpNone _ _ _ eq_refl eq_refl eq_refl eq_refl)|].
  apply (Ra None _ [Example.fix_commit] "c3" [] _ eq_refl eq_refl).
  - constructor; [|constructor].
    repeat split; eexists; split; reflexivity.
  - constructor; [|constructor]. intros _. reflexivity.
  - right. eexists. split; [reflexivity|]. split; [reflexivity|].
    right. eexists. split; reflexivity.
Defined.

(** ** The planning loop of cmd_tag_main *)

Section Planning.

Variable check_output : list string -> result string.
Variable read_text : string -> result string.

Let plan_loop := Release.plan_loop check_output read_text.

(** One changed package: the loop goes on with the package planned at
    the forced bump. *)
Lemma plan_loop_changed (pkg : Release.Package)
  (rest : list Release.Package) (planned : list (Release.Package * string))
  (bump : SemverBump) (current next_v : string) :
  Release.package_changed check_output pkg
    (Release.latest_tag_for check_output pkg) = Ok true ->
  Release.conventional_bump_from_commits check_output
    (Release.latest_tag_for check_output pkg) pkg = Ok bump ->
  Release.read_pyproject_version read_text
    (Release.path pkg ++ "/pyproject.toml") = Ok current ->
  Release.bump_version current (planned_bump bump) = Ok next_v ->
  plan_loop (pkg :: rest) planned
  = plan_loop rest (planned ++ [(pkg, next_v)])%list.
Proof.
  intros H1 H2 H3 H4. unfold plan_loop. cbn [Release.plan_loop].
  rewrite H1. cbn [bind negb]. rewrite H2. cbn [bind].
  rewrite H3. cbn [bind]. unfold planned_bump in H4. rewrite H4.
  reflexivity.
Qed.

Lemma plan_loop_extends (pkgs : list Release.Package) :
  forall planned plan,
    plan_loop pkgs planned = Ok plan ->
    forall x, In x planned -> In x plan.
Proof.
  unfold plan_loop.
  induction pkgs as [|pkg rest IH]; intros planned plan H x Hx.
  - cbn in H. inversion H; subst. exact Hx.
  - cbn [Release.plan_loop] in H.
    destruct (Release.package_changed _ _ _) as [[|]|e];
      cbn [bind negb] in H; try discriminate.
    + destruct (Release.conventional_bump_from_commits _ _ _) as [b|e];
        cbn [bind] in H; try discriminate.
      destruct (Release.read_pyproject_version _ _) as [cur|e];
        cbn [bind] in H; try discriminate.
      destruct (Release.bump_version _ _) as [nv|e];
        cbn [bind] in H; try discriminate.
      apply (IH _ _ H). apply in_or_app. now left.
    + apply (IH _ _ H). exact Hx.
Qed.

(** A run of the loop that returns has planned every changed package,
    at the forced bump of its classification. *)
Lemma plan_loop_includes (pkgs : list Release.Package) :
  forall planned plan,
    plan_loop pkgs planned = Ok plan ->
    forall pkg,
      In pkg pkgs ->
      Release.package_changed check_output pkg
        (Release.latest_tag_for check_output pkg) = Ok true ->
      exists bump current next_v,
        Release.conventional_bump_from_commits check_output
          (Release.latest_tag_for check_output pkg) pkg = Ok bump
        /\ Release.read_pyproject_version read_text
             (Release.path pkg ++ "/pyproject.toml") = Ok current
        /\ Release.bump_version current (planned_bump bump) = Ok next_v
        /\ In (pkg, next_v) plan.
Proof.
  unfold plan_loop.
  induction pkgs as [|p rest IH]; intros planned plan H pkg Hin Hch.
  - inversion Hin.
  - cbn [Release.plan_loop] in H.
    destruct Hin as [->|Hin].
    + rewrite Hch in H. cbn [bind negb] in H.
      destruct (Release.conventional_bump_from_commits _ _ _) as [b|e];
        cbn [bind] in H; try discriminate.
      destruct (Release.read_pyproject_version _ _) as [cur|e];
        cbn [bind] in H; try discriminate.
      destruct (Release.bump_version _ _) as [nv|e] eqn:B;
        cbn [bind] in H; try discriminate.
      exists b, cur, nv. repeat split; try assumption.
      apply (plan_loop_extends _ _ _ H). apply in_or_app. right. now left.
    + destruct (Release.package_changed _ p _) as [[|]|e];
        cbn [bind negb] in H; try discriminate.
      * destruct (Release.conventional_bump_from_commits _ _ p) as [b|e];
          cbn [bind] in H; try discriminate.
        destruct (Release.read_pyproject_version _ _) as [cur|e];
          cbn [bind] in H; try discriminate.
        destruct (Release.bump_version _ _) as [nv|e];
          cbn [bind] in H; try discriminate.
        apply (IH _ _ H pkg Hin Hch).
      * apply (IH _ _ H pkg Hin Hch).
Qed.

End Planning.

(** C8. In the planning loop of the plan-and-tag pass, a package that
    changed since its reference tag and classifies as [none] is planned
    with the bump [patch]: the loop goes on with the package added at the
    patch successor of its current version, and every plan the pass
    returns contains the package at that version. *)
Theorem changed_unclassified_forced_patch :
  forall (check_output : list string -> result string)
         (read_text : string -> result string) (pkg : Release.Package),
    Release.package_changed check_output pkg
      (Release.latest_tag_for check_output pkg) = Ok true ->
    Release.conventional_bump_from_commits check_output
      (Release.latest_tag_for check_output pkg) pkg = Ok BumpNone ->
    (forall rest planned current a b c,
        Release.read_pyproject_version read_text
          (Release.path pkg ++ "/pyproject.toml") = Ok current ->
        semver_shape current a b c ->
        Release.plan_loop check_output read_text (pkg :: rest) planned
        = Release.plan_loop check_output read_text rest
            (planned
               ++ [(pkg,
                    (Py.str (Py.int a) ++ "." ++ Py.str (Py.int b) ++ "."
                       ++ Py.str (Py.int c + 1))%string)])%list)
    /\ (forall glob_pyproject plan,
          In pkg (Release.list_packages glob_pyproject) ->
          Release.cmd_tag_main_plan check_output glob_pyproject read_text
          = Ok plan ->
          exists current next_v,
            Release.read_pyproject_version read_text
              (Release.path pkg ++ "/pyproject.toml") = Ok current
            /\ Release.bump_version current Patch = Ok next_v
            /\ In (pkg, next_v) plan).
Proof.
  intros check_output read_text pkg Hch Hnone. split.
  - intros rest planned current a b c Hread Hshape.
    apply (plan_loop_changed check_output read_text pkg rest planned
             BumpNone current); try assumption.
    destruct (proj1 (bump_version_components_aux current) a b c Hshape)
      as (_ & _ & H & _).
    exact H.
  - intros glob_pyproject plan Hin Hplan.
    destruct (plan_loop_includes check_output read_text _ _ _ Hplan pkg
                Hin Hch) as (bump & current & next_v & Hb & Hr & Hv & Hp).
    rewrite Hnone in Hb. inversion Hb; subst bump.
    exists current, next_v. repeat split; assumption.
Qed.

Lemma changed_unclassified_forced_patch_witness :
  Release.cmd_tag_main_plan
    (ExampleTools.first_release [ExampleTools.chore_commit])
    [Example.pkg_p] ExampleTools.read_one_version
  = Ok [(Example.pkg_p, "1.2.1")]
  /\ exists current next_v,
       Release.read_pyproject_version ExampleTools.read_one_version
         "/repo/p/pyproject.toml" = Ok current
       /\ Release.bump_version current Patch = Ok next_v
       /\ In (Example.pkg_p, next_v) [(Example.pkg_p, "1.2.1")].
Proof.
  destruct (changed_unclassified_forced_patch
              (ExampleTools.first_release [ExampleTools.chore_commit])
              ExampleTools.read_one_version Example.pkg_p
              eq_refl eq_refl) as [Step Plan].
  assert (S : semver_shape "1.2.0" "1" "2" "0").
  { repeat split; try discriminate. now left. }
  split.
  - exact (Step [] [] "1.2.0" "1" "2" "0" eq_refl S).
  - exact (Plan [Example.pkg_p] [(Example.pkg_p, "1.2.1")]
             (or_introl eq_refl) eq_refl).
Defined.

(** ** The reconcile pass, package by package *)

Module ReconcileFacts.

Import TagOnMerge Reconcile.

Lemma read_text_readonly (path : string) (w : World) :
  snd (read_text path w) = w.
Proof. unfold read_text. destruct (files w path); reflexivity. Qed.

Lemma first_with_version_readonly (inits : list string) (w : World) :
  snd (first_with_version inits w) = w.
Proof.
  induction inits as [|i rest IH]; [reflexivity|].
  cbn [first_with_version]. unfold bindM, read_text.
  destruct (files w i) as [txt|]; [|reflexivity].
  destruct (Py.contains "__version__" txt); [reflexivity | exact IH].
Qed.

Lemma find_init_with_version_readonly (pkg_dir : string) (w : World) :
  snd (find_init_with_version pkg_dir w) = w.
Proof.
  unfold find_init_with_version.
  destruct (negb _); [reflexivity | apply first_with_version_readonly].
Qed.

Lemma check_package_readonly (pkg : string) (w : World) :
  snd (check_package pkg w) = w.
Proof.
  unfold check_package, bindM, exists_file, read_project_version,
    read_init_version, read_text, bindM, ret, raise.
  destruct (negb _); [reflexivity|].
  destruct (files w _) as [txt|]; [|reflexivity].
  destruct (search_assignment "version" true txt) as [v|]; [|reflexivity].
  destruct (find_init_with_version _ w) as [r w'] eqn:F.
  pose proof (find_init_with_version_readonly
                (repo_root w ++ "/" ++ pkg) w) as R.
  rewrite F in R. cbn in R. subst w'.
  destruct r as [[i|]|e]; try reflexivity.
  destruct (files w i) as [itxt|]; [|reflexivity].
  destruct (search_assignment "__version__" true itxt) as [iv|];
    [|reflexivity].
  destruct (negb _); reflexivity.
Qed.

Lemma tag_exists_spec (tag : string) (w : World) :
  tag_exists tag w = (Ok (has_tag w tag), w).
Proof.
  unfold tag_exists, run, bindM, check_output.
  destruct (has_tag w tag); reflexivity.
Qed.

Lemma tagging_phase (pkg version : string) (w : World) :
  let tag := tag_name pkg version in
  (te <- tag_exists tag ;;
   if te then print ("Tag already exists: " ++ tag)
   else
     run ["git"; "tag"; "-a"; tag; "-m"; "Release " ++ tag] ;;
     run ["git"; "push"; "origin"; tag] ;;
     print ("Tagged " ++ tag))%world w
  = tag_if_new pkg version w.
Proof.
  unfold tag_if_new. generalize (tag_name pkg version). intros tag.
  cbv zeta. unfold bindM at 1. rewrite tag_exists_spec.
  destruct (has_tag w tag) eqn:H; [reflexivity|].
  unfold run, bindM, check_output. rewrite H. cbn [orb].
  destruct (tag_refused w tag); [reflexivity|].
  cbn. destruct (push_refused w tag); reflexivity.
Qed.

(** [tag_package] is its checks followed by the tagging. *)
Lemma tag_package_phases (pkg : string) (w : World) :
  tag_package pkg w =
    match check_package pkg w with
    | (Raise e, _) => (Raise e, w)
    | (Ok None, _) => (Ok tt, w)
    | (Ok (Some version), _) => tag_if_new pkg version w
    end.
Proof.
  unfold tag_package, check_package, bindM, exists_file,
    read_project_version, read_init_version, read_text, bindM, ret, raise.
  destruct (negb _); [reflexivity|].
  destruct (files w _) as [txt|]; [|reflexivity].
  destruct (search_assignment "version" true txt) as [v|]; [|reflexivity].
  destruct (find_init_with_version _ w) as [r w'] eqn:F.
  pose proof (find_init_with_version_readonly
                (repo_root w ++ "/" ++ pkg) w) as R.
  rewrite F in R. cbn in R. subst w'.
  pose proof (tagging_phase pkg v w) as T.
  destruct r as [[i|]|e]; try reflexivity; try exact T.
  destruct (files w i) as [itxt|]; [|reflexivity].
  destruct (search_assignment "__version__" true itxt) as [iv|];
    [|reflexivity].
  destruct (negb _); [reflexivity | exact T].
Qed.

(** *** What a run leaves alone *)

Lemma static_files (w w' : World) :
  static w = static w' ->
  repo_root w = repo_root w' /\ files w = files w' /\ dirs w = dirs w'
  /\ glob_init w = glob_init w' /\ diff_name_only w = diff_name_only w'.
Proof. unfold static. intros H. inversion H. auto. Qed.

Lemma first_with_version_static (inits : list string) (w w' : World) :
  files w = files w' ->
  fst (first_with_version inits w) = fst (first_with_version inits w').
Proof.
  intros Hf. induction inits as [|i rest IH]; [reflexivity|].
  cbn [first_with_version]. unfold bindM, read_text. rewrite <- Hf.
  destruct (files w i) as [txt|]; [|reflexivity].
  destruct (Py.contains "__version__" txt); [reflexivity | exact IH].
Qed.

Lemma find_init_with_version_static (pkg_dir : string) (w w' : World) :
  static w = static w' ->
  fst (find_init_with_version pkg_dir w)
  = fst (find_init_with_version pkg_dir w').
Proof.
  intros H. destruct (static_files _ _ H) as (_ & Hf & Hd & Hg & _).
  unfold find_init_with_version. rewrite <- Hd, <- Hg.
  destruct (negb _); [reflexivity|].
  apply first_with_version_static. exact Hf.
Qed.

Lemma check_package_static (pkg : string) (w w' : World) :
  static w = static w' ->
  fst (check_package pkg w) = fst (check_package pkg w').
Proof.
  intros H.
  pose proof (fun d => find_init_with_version_static d w w' H) as E.
  pose proof (fun d => find_init_with_version_readonly d w) as R.
  pose proof (fun d => find_init_with_version_readonly d w') as R'.
  destruct w as [root fl ds gl df tg tr pr pu so se].
  destruct w' as [root' fl' ds' gl' df' tg' tr' pr' pu' so' se'].
  unfold static in H. cbn in H. inversion H; subst. clear H.
  unfold check_package, bindM, exists_file, read_project_version,
    read_init_version, read_text, bindM, ret, raise.
  cbv [repo_root files dirs].
  destruct (negb _); [reflexivity|].
  destruct (fl' _) as [txt|]; [|reflexivity].
  destruct (search_assignment "version" true txt) as [v|]; [|reflexivity].
  specialize (E (root' ++ "/" ++ pkg)).
  specialize (R (root' ++ "/" ++ pkg)).
  specialize (R' (root' ++ "/" ++ pkg)).
  destruct (find_init_with_version _ (mkWorld _ _ _ _ _ tg _ _ _ _ _))
    as [r w1].
  destruct (find_init_with_version _ (mkWorld _ _ _ _ _ tg' _ _ _ _ _))
    as [r' w1'].
  cbn in R, R', E. subst w1 w1' r'.
  destruct r as [[i|]|e]; try reflexivity.
  cbv [files].
  destruct (fl' i) as [itxt|]; [|reflexivity].
  destruct (search_assignment "__version__" true itxt) as [iv|];
    [|reflexivity].
  destruct (negb _); reflexivity.
Qed.

Lemma tag_if_new_effects (pkg version : string) (w : World) :
  static (snd (tag_if_new pkg version w)) = static w
  /\ incl (tags w) (tags (snd (tag_if_new pkg version w)))
  /\ stderr (snd (tag_if_new pkg version w)) = stderr w
  /\ (fst (tag_if_new pkg version w) = Ok tt ->
      has_tag (snd (tag_if_new pkg version w)) (tag_name pkg version)
      = true).
Proof.
  unfold tag_if_new. generalize (tag_name pkg version). intros tag.
  destruct (has_tag w tag) eqn:H.
  { cbn. repeat split; auto using incl_refl. }
  destruct (tag_refused w tag).
  { cbn. repeat split; auto using incl_refl. discriminate. }
  destruct (push_refused w tag); cbn; repeat split;
    auto using incl_tl, incl_refl; try discriminate.
  intros _. unfold has_tag. cbn. now rewrite String.eqb_refl.
Qed.

Lemma tag_package_effects (pkg : string) (w : World) :
  static (snd (tag_package pkg w)) = static w
  /\ incl (tags w) (tags (snd (tag_package pkg w)))
  /\ stderr (snd (tag_package pkg w)) = stderr w.
Proof.
  rewrite tag_package_phases.
  destruct (check_package pkg w) as [[[v|]|e] w'];
    cbn; auto using incl_refl.
  destruct (tag_if_new_effects pkg v w) as (S & I & E & _). auto.
Qed.

Lemma tag_loop_effects (pkgs : list string) :
  forall w,
    static (snd (tag_loop pkgs w)) = static w
    /\ incl (tags w) (tags (snd (tag_loop pkgs w)))
    /\ stderr (snd (tag_loop pkgs w)) = stderr w.
Proof.
  induction pkgs as [|pkg rest IH]; intros w.
  - cbn. auto using incl_refl.
  - cbn [tag_loop]. unfold bindM.
    destruct (tag_package_effects pkg w) as (S & I & E).
    destruct (tag_package pkg w) as [[[]|e] w1]; cbn in S, I, E.
    + destruct (IH w1) as (S' & I' & E').
      repeat split; [congruence | eauto using incl_tran | congruence].
    + cbn. auto.
Qed.

Lemma has_tag_In (w : World) (tag : string) :
  has_tag w tag = true <-> In tag (tags w).
Proof.
  unfold has_tag. rewrite existsb_exists. split.
  - intros (x & Hx & E). apply String.eqb_eq in E. now subst.
  - intros H. exists tag. split; [exact H | apply String.eqb_refl].
Qed.

Lemma check_package_result (pkg : string) (w : World) :
  check_package pkg w = (fst (check_package pkg w), w).
Proof.
  pose proof (check_package_readonly pkg w) as R.
  destruct (check_package pkg w) as [r w']. cbn in *. now subst.
Qed.

(** *** A missing descriptor *)

Lemma check_package_missing (pkg : string) (w : World) :
  files w (descriptor_path w pkg) = None ->
  dirs w (descriptor_path w pkg) = false ->
  fst (check_package pkg w) = Ok None.
Proof.
  unfold descriptor_path, package_dir. intros Hf Hd.
  unfold check_package, bindM, exists_file. rewrite Hf, Hd. reflexivity.
Qed.

Lemma tag_package_skips (pkg : string) (w : World) :
  fst (check_package pkg w) = Ok None -> tag_package pkg w = (Ok tt, w).
Proof.
  intros H. rewrite tag_package_phases, check_package_result, H.
  reflexivity.
Qed.

Lemma tag_loop_skips (pkg : string) (pre post : list string) :
  forall w,
    fst (check_package pkg w) = Ok None ->
    tag_loop (pre ++ pkg :: post) w = tag_loop (pre ++ post) w.
Proof.
  induction pre as [|p pre IH]; intros w H.
  - cbn [app tag_loop]. unfold bindM at 1.
    rewrite (tag_package_skips pkg w H). reflexivity.
  - cbn [app tag_loop]. unfold bindM.
    destruct (tag_package_effects p w) as (S & _).
    destruct (tag_package p w) as [[[]|e] w1]; [|reflexivity].
    apply IH. cbn in S.
    rewrite (check_package_static pkg w1 w S). exact H.
Qed.

(** *** Disagreeing versions *)

Lemma check_package_mismatch (pkg version init_py init_version : string)
  (w : World) :
  versions_disagree w pkg version init_py init_version ->
  fst (check_package pkg w)
  = Raise (SystemExit
             (mismatch_message pkg version init_version init_py)).
Proof.
  unfold versions_disagree, descriptor_path, package_dir.
  intros ((txt & Hf & Hv) & Hi & (itxt & Hif & Hiv) & Hne).
  pose proof (find_init_with_version_readonly
                (repo_root w ++ "/" ++ pkg) w) as R.
  unfold check_package, bindM, exists_file, read_project_version,
    read_init_version, read_text, bindM, ret, raise.
  rewrite Hf. cbv [negb]. rewrite Hf. cbv beta iota zeta. rewrite Hv.
  destruct (find_init_with_version _ w) as [r w']. cbn in R, Hi.
  subst w' r. rewrite Hif. cbv beta iota. rewrite Hiv.
  apply String.eqb_neq in Hne. rewrite Hne. reflexivity.
Qed.

Lemma tag_package_fails (pkg : string) (e : exn) (w : World) :
  fst (check_package pkg w) = Raise e -> tag_package pkg w = (Raise e, w).
Proof.
  intros H. rewrite tag_package_phases, check_package_result, H.
  reflexivity.
Qed.

(** A package whose checks raise makes the loop raise, at that package
    or before it. *)
Lemma tag_loop_fails (pkg : string) (e : exn) (pre post : list string) :
  forall w,
    fst (check_package pkg w) = Raise e ->
    exists e' w', tag_loop (pre ++ pkg :: post) w = (Raise e', w').
Proof.
  induction pre as [|p pre IH]; intros w H.
  - cbn [app tag_loop]. unfold bindM at 1.
    rewrite (tag_package_fails pkg e w H). eauto.
  - cbn [app tag_loop]. unfold bindM.
    destruct (tag_package_effects p w) as (S & _).
    destruct (tag_package p w) as [[[]|e1] w1]; [|eauto].
    apply IH. cbn in S.
    rewrite (check_package_static pkg w1 w S). exact H.
Qed.

(** When the packages before it pass, the loop raises at the package,
    in the world they left. *)
Lemma tag_loop_fails_at (pkg : string) (e : exn) (pre post : list string) :
  forall w w1,
    fst (check_package pkg w) = Raise e ->
    tag_loop pre w = (Ok tt, w1) ->
    tag_loop (pre ++ pkg :: post) w = (Raise e, w1).
Proof.
  induction pre as [|p pre IH]; intros w w1 H Hpre.
  - cbn in Hpre. inversion Hpre; subst w1.
    cbn [app tag_loop]. unfold bindM at 1.
    rewrite (tag_package_fails pkg e w H). reflexivity.
  - cbn [app tag_loop] in *. unfold bindM in *.
    destruct (tag_package_effects p w) as (S & _).
    destruct (tag_package p w) as [[[]|e1] wa]; [|discriminate].
    apply IH; [|exact Hpre]. cbn in S.
    rewrite (check_package_static pkg wa w S). exact H.
Qed.

(** *** A second run *)

Lemma tag_if_new_existing (pkg version : string) (w : World) :
  has_tag w (tag_name pkg version) = true ->
  tag_if_new pkg version w
  = (Ok tt,
     with_stdout w
       (stdout w
          ++ [("Tag already exists: " ++ tag_name pkg version)%string])%list).
Proof. intros H. unfold tag_if_new. rewrite H. reflexivity. Qed.

Lemma tag_loop_rerun (pkgs : list string) :
  forall w w1,
    tag_loop pkgs w = (Ok tt, w1) ->
    forall w2,
      static w2 = static w ->
      incl (tags w1) (tags w2) ->
      exists w3,
        tag_loop pkgs w2 = (Ok tt, w3)
        /\ tags w3 = tags w2 /\ pushed w3 = pushed w2
        /\ static w3 = static w2.
Proof.
  induction pkgs as [|p rest IH]; intros w w1 H w2 S I.
  - exists w2. cbn. auto.
  - cbn [tag_loop] in *. unfold bindM in *.
    destruct (tag_package p w) as [[[]|e] wa] eqn:TP; [|discriminate].
    pose proof (tag_loop_effects rest wa) as (Sr & Ir & _).
    rewrite H in Sr, Ir. cbn in Sr, Ir.
    rewrite tag_package_phases, check_package_result in TP.
    rewrite tag_package_phases, check_package_result.
    rewrite (check_package_static p w2 w S).
    destruct (fst (check_package p w)) as [[v|]|e]; [| |discriminate].
    + pose proof (tag_if_new_effects p v w) as (Sa & _ & _ & Ha).
      rewrite TP in Sa, Ha. cbn in Sa, Ha. specialize (Ha eq_refl).
      assert (Hin : has_tag w2 (tag_name p v) = true).
      { apply has_tag_In. apply I, Ir. apply has_tag_In. exact Ha. }
      rewrite (tag_if_new_existing p v w2 Hin).
      destruct (IH wa w1 H
                  (with_stdout w2
                     (stdout w2
                        ++ [("Tag already exists: "
                               ++ tag_name p v)%string])%list))
        as (w3 & L & T3 & P3 & S3).
      * change (static w2 = static wa). congruence.
      * exact I.
      * exists w3. auto.
    + inversion TP; subst wa.
      destruct (IH w w1 H w2 S I) as (w3 & L & T3 & P3 & S3).
      exists w3. auto.
Qed.

Lemma tag_if_new_nodup (pkg version : string) (w : World) :
  NoDup (tags w) -> NoDup (tags (snd (tag_if_new pkg version w))).
Proof.
  unfold tag_if_new. generalize (tag_name pkg version). intros tag N.
  destruct (has_tag w tag) eqn:H; [exact N|].
  assert (Hn : ~ In tag (tags w)).
  { intros Hin. apply has_tag_In in Hin. congruence. }
  destruct (tag_refused w tag); [exact N|].
  destruct (push_refused w tag); cbn; constructor; assumption.
Qed.

Lemma tag_loop_nodup (pkgs : list string) :
  forall w, NoDup (tags w) -> NoDup (tags (snd (tag_loop pkgs w))).
Proof.
  induction pkgs as [|p rest IH]; intros w N; [exact N|].
  cbn [tag_loop]. unfold bindM.
  assert (Np : NoDup (tags (snd (tag_package p w)))).
  { rewrite tag_package_phases, check_package_result.
    destruct (fst (check_package p w)) as [[v|]|e]; try exact N.
    apply tag_if_new_nodup. exact N. }
  destruct (tag_package p w) as [[[]|e] wa]; cbn in Np.
  - apply IH. exact Np.
  - exact Np.
Qed.

(** *** The pass as a whole *)

Lemma main_after_diff (script before after : string) (w : World) :
  main [script; before; after] w =
    if String.eqb before after then after_diff "" w
    else
      match diff_name_only w before after with
      | Ok out => after_diff (Py.strip out) w
      | Raise e => (Raise e, w)
      end.
Proof.
  unfold main, after_diff. unfold bindM at 1.
  destruct (String.eqb before after); cbn [negb].
  - reflexivity.
  - unfold run, bindM at 1. unfold check_output.
    destruct (diff_name_only w before after); reflexivity.
Qed.

Lemma main_tags_changed (script before after out : string)
  (pkgs : list string) (w : World) :
  before <> after ->
  diff_name_only w before after = Ok out ->
  Py.sorted (changed_packages (Py.strip out)) = pkgs ->
  pkgs <> [] ->
  main [script; before; after] w = (tag_loop pkgs ;; ret 0)%world w.
Proof.
  intros Hne Hd Hs Hp. apply String.eqb_neq in Hne.
  rewrite main_after_diff, Hne, Hd. unfold after_diff.
  destruct (changed_packages (Py.strip out)) as [|p ps].
  - cbn in Hs. congruence.
  - rewrite Hs. reflexivity.
Qed.

Lemma after_diff_effects (changed : string) (w : World) :
  static (snd (after_diff changed w)) = static w
  /\ (NoDup (tags w) -> NoDup (tags (snd (after_diff changed w)))).
Proof.
  unfold after_diff.
  destruct (changed_packages changed) as [|p ps]; [cbn; auto|].
  unfold bindM.
  destruct (tag_loop_effects (Py.sorted (p :: ps)) w) as (S & _).
  pose proof (tag_loop_nodup (Py.sorted (p :: ps)) w) as N.
  destruct (tag_loop (Py.sorted (p :: ps)) w) as [[[]|e] w1];
    cbn in *; auto.
Qed.

Lemma main_effects (argv : list string) (w : World) :
  static (snd (main argv w)) = static w
  /\ (NoDup (tags w) -> NoDup (tags (snd (main argv w)))).
Proof.
  destruct argv as [|a0 [|a1 [|a2 [|a3 rest]]]]; try (cbn; auto; fail).
  rewrite main_after_diff.
  destruct (String.eqb a1 a2); [apply after_diff_effects|].
  destruct (diff_name_only w a1 a2); [apply after_diff_effects|].
  cbn. auto.
Qed.

Lemma after_diff_rerun (changed : string) (w w1 : World) (n : nat) :
  after_diff changed w = (Ok n, w1) ->
  exists w2,
    after_diff changed w1 = (Ok n, w2)
    /\ tags w2 = tags w1 /\ pushed w2 = pushed w1
    /\ static w2 = static w1.
Proof.
  unfold after_diff.
  destruct (changed_packages changed) as [|p ps].
  - cbn. intros H. inversion H; subst. eexists. split; [reflexivity|].
    cbn. auto.
  - unfold bindM.
    destruct (tag_loop (Py.sorted (p :: ps)) w) as [[[]|e] wa] eqn:L;
      [|discriminate].
    intros H. cbn in H. inversion H; subst n w1.
    destruct (tag_loop_effects (Py.sorted (p :: ps)) w) as (S & _).
    rewrite L in S. cbn in S.
    destruct (tag_loop_rerun _ _ _ L wa S (incl_refl _))
      as (w3 & L3 & T3 & P3 & S3).
    exists w3. rewrite L3. cbn. auto.
Qed.

End ReconcileFacts.

(** ** Claims on the reconcile-on-merge pass *)

Module ReconcileClaims.

Import TagOnMerge Reconcile ReconcileFacts.

(** C6. When the descriptor of a changed package and its init file
    read two different versions, the iteration for that package raises
    the version mismatch with the world untouched (no tag command is
    issued for it), the run fails, it fails with that mismatch in the
    world the earlier packages left whenever those pass, and no run
    changes a file: neither side is overwritten. *)
Theorem version_mismatch_is_fatal :
  forall (w : World) (script before after out : string)
         (pre post : list string)
         (pkg version init_py init_version : string),
    before <> after ->
    diff_name_only w before after = Ok out ->
    Py.sorted (changed_packages (Py.strip out)) = (pre ++ pkg :: post)%list ->
    versions_disagree w pkg version init_py init_version ->
    let mismatch :=
      SystemExit (mismatch_message pkg version init_version init_py) in
    tag_package pkg w = (Raise mismatch, w)
    /\ (exists e w', main [script; before; after] w = (Raise e, w'))
    /\ (forall w1,
          tag_loop pre w = (Ok tt, w1) ->
          main [script; before; after] w = (Raise mismatch, w1))
    /\ files (snd (main [script; before; after] w)) = files w.
Proof.
  intros w script before after out pre post pkg version init_py
    init_version Hne Hd Hs Hv mismatch.
  pose proof (check_package_mismatch _ _ _ _ _ Hv) as Hc.
  fold mismatch in Hc.
  assert (Hm : main [script; before; after] w
               = (tag_loop (pre ++ pkg :: post) ;; ret 0)%world w).
  { apply (main_tags_changed script before after out); try assumption.
    destruct pre; discriminate. }
  split; [apply tag_package_fails; exact Hc|].
  split; [|split].
  - destruct (tag_loop_fails pkg mismatch pre post w Hc) as (e & w' & L).
    exists e, w'. rewrite Hm. unfold bindM. rewrite L. reflexivity.
  - intros w1 Hpre. rewrite Hm. unfold bindM.
    rewrite (tag_loop_fails_at pkg mismatch pre post w w1 Hc Hpre).
    reflexivity.
  - destruct (main_effects [script; before; after] w) as (S & _).
    apply static_files in S. tauto.
Qed.

Lemma version_mismatch_is_fatal_witness :
  main ["tag_on_merge.py"; "a1"; "b2"] Example.mismatched
  = (Raise (SystemExit
              "Version mismatch for p: pyproject=1.2.0 init=1.1.9 (/repo/p/src/p/__init__.py)"),
     Example.mismatched).
Proof.
  assert (Hne : "a1" <> "b2") by discriminate.
  assert (Hv : versions_disagree Example.mismatched "p" "1.2.0"
                 "/repo/p/src/p/__init__.py" "1.1.9").
  { split; [eexists; split; reflexivity|].
    split; [reflexivity|].
    split; [eexists; split; reflexivity | discriminate]. }
  destruct (version_mismatch_is_fatal Example.mismatched "tag_on_merge.py"
              "a1" "b2" Example.diff_p [] [] "p" "1.2.0"
              "/repo/p/src/p/__init__.py" "1.1.9" Hne eq_refl eq_refl Hv)
    as (_ & _ & H & _).
  exact (H Example.mismatched eq_refl).
Defined.

(** C10. A package whose descriptor is named in the diff and does not
    exist in the working tree is skipped: its iteration returns at once
    with the world untouched (nothing is read, no tag command is
    issued), and the run is the run over the other packages. *)
Theorem missing_descriptor_is_skipped :
  forall (w : World) (script before after out : string)
         (pre post : list string) (pkg : string),
    before <> after ->
    diff_name_only w before after = Ok out ->
    Py.sorted (changed_packages (Py.strip out)) = (pre ++ pkg :: post)%list ->
    files w (descriptor_path w pkg) = None ->
    dirs w (descriptor_path w pkg) = false ->
    tag_package pkg w = (Ok tt, w)
    /\ main [script; before; after] w
       = (tag_loop (pre ++ post) ;; ret 0)%world w.
Proof.
  intros w script before after out pre post pkg Hne Hd Hs Hf Hdir.
  pose proof (check_package_missing pkg w Hf Hdir) as Hc.
  split; [apply tag_package_skips; exact Hc|].
  rewrite (main_tags_changed script before after out (pre ++ pkg :: post));
    try assumption; [|destruct pre; discriminate].
  unfold bindM. rewrite (tag_loop_skips pkg pre post w Hc). reflexivity.
Qed.

Lemma missing_descriptor_is_skipped_witness :
  tag_package "p" Example.deleted = (Ok tt, Example.deleted)
  /\ main ["tag_on_merge.py"; "a1"; "b2"] Example.deleted
     = (Ok 0, Example.deleted).
Proof.
  assert (Hne : "a1" <> "b2") by discriminate.
  exact (missing_descriptor_is_skipped Example.deleted "tag_on_merge.py"
           "a1" "b2" Example.diff_p [] [] "p" Hne eq_refl eq_refl
           eq_refl eq_refl).
Defined.

(** C9. Running the pass twice on the same revision pair creates each
    tag at most once: the list of local tags, which grows by one entry
    per tag created, holds no tag twice after the two runs, whatever
    their outcome. After a run that returned, the second run returns the
    same status and creates and pushes no tag. A package whose derived
    tag exists is passed over with a message and no error. *)
Theorem second_run_creates_no_tag :
  forall (argv : list string) (w : World),
    (NoDup (tags w) ->
     NoDup (tags (snd (main argv (snd (main argv w))))))
    /\ (forall w1 n,
          main argv w = (Ok n, w1) ->
          exists w2,
            main argv w1 = (Ok n, w2)
            /\ tags w2 = tags w1 /\ pushed w2 = pushed w1
            /\ files w2 = files w1)
    /\ (forall pkg version,
          fst (check_package pkg w) = Ok (Some version) ->
          has_tag w (tag_name pkg version) = true ->
          tag_package pkg w
          = (Ok tt,
             with_stdout w
               (stdout w
                  ++ [("Tag already exists: "
                         ++ tag_name pkg version)%string])%list)).
Proof.
  intros argv w. split; [|split].
  - intros N.
    apply (proj2 (main_effects argv _)), (proj2 (main_effects argv w)), N.
  - intros w1 n H.
    assert (R : exists w2,
               main argv w1 = (Ok n, w2)
               /\ tags w2 = tags w1 /\ pushed w2 = pushed w1
               /\ static w2 = static w1).
    { destruct argv as [|a0 [|a1 [|a2 [|a3 rest]]]];
        try (cbn in H; inversion H; subst; eexists;
             split; [reflexivity | cbn; auto]; fail).
      rewrite main_after_diff in H.
      assert (Hs : static w1 = static w).
      { pose proof (main_effects [a0; a1; a2] w) as (S & _).
        rewrite main_after_diff, H in S. exact S. }
      destruct (static_files _ _ Hs) as (_ & _ & _ & _ & Hd).
      rewrite main_after_diff, Hd.
      destruct (String.eqb a1 a2); [apply after_diff_rerun with w; exact H|].
      destruct (diff_name_only w a1 a2); [|discriminate].
      apply after_diff_rerun with w. exact H. }
    destruct R as (w2 & M2 & T2 & P2 & S2).
    exists w2. apply static_files in S2. tauto.
  - intros pkg version Hc Ht.
    rewrite tag_package_phases, check_package_result, Hc.
    apply tag_if_new_existing. exact Ht.
Qed.

Lemma second_run_creates_no_tag_witness :
  tags Example.after_first_run = ["better-mcps-p-v1.2.0"]
  /\ (exists w2,
        main ["tag_on_merge.py"; "a1"; "b2"] Example.after_first_run
        = (Ok 0, w2)
        /\ tags w2 = tags Example.after_first_run
        /\ pushed w2 = pushed Example.after_first_run
        /\ files w2 = files Example.after_first_run)
  /\ NoDup
       (tags (snd (main ["tag_on_merge.py"; "a1"; "b2"]
                     Example.after_first_run)))
  /\ tag_package "p" Example.after_first_run
     = (Ok tt,
        with_stdout Example.after_first_run
          ["Tagged better-mcps-p-v1.2.0";
           "Tag already exists: better-mcps-p-v1.2.0"]).
Proof.
  destruct (second_run_creates_no_tag ["tag_on_merge.py"; "a1"; "b2"]
              Example.consistent) as (N & R & _).
  destruct (second_run_creates_no_tag ["tag_on_merge.py"; "a1"; "b2"]
              Example.after_first_run) as (_ & _ & E).
  split; [reflexivity|]. split; [|split].
  - exact (R Example.after_first_run 0 eq_refl).
  - exact (N (NoDup_nil _)).
  - exact (E "p" "1.2.0" eq_refl eq_refl).
Defined.

End ReconcileClaims.

(** * Further properties *)

(** ** The classifiers and the rules of their docstrings *)

Section ClassifierRules.

Variable check_output : list string -> result string.
Variable package : string.

(** The bump one commit stands for. *)
Let class (patch_prefixes : list string) (c : Commit) : SemverBump :=
  if touches package c && is_breaking c then Major
  else if touches package c && subject_has ["feat"] c then Minor
  else if touches package c && subject_has patch_prefixes c then Patch
  else BumpNone.

Lemma rules_bump_cons (patch_prefixes : list string) (c : Commit)
  (cs : list Commit) :
  rules_bump patch_prefixes package (c :: cs)
  = bump_max (class patch_prefixes c) (rules_bump patch_prefixes package cs).
Proof.
  unfold rules_bump, class, any_commit. cbn [existsb].
  destruct (touches package c), (is_breaking c), (subject_has ["feat"] c),
    (subject_has patch_prefixes c),
    (existsb (fun c0 => touches package c0 && is_breaking c0) cs),
    (existsb (fun c0 => touches package c0 && subject_has ["feat"] c0) cs),
    (existsb (fun c0 => touches package c0 && subject_has patch_prefixes c0)
       cs); reflexivity.
Qed.

Lemma subject_has_one (p : string) (c : Commit) :
  subject_has [p] c = Py.startswith (subject c) p.
Proof. unfold subject_has. cbn. apply orb_false_r. Qed.

Lemma subject_has_two (p q : string) (c : Commit) :
  subject_has [p; q] c
  = Py.startswith (subject c) p || Py.startswith (subject c) q.
Proof. unfold subject_has. cbn. now rewrite orb_false_r. Qed.

(** A commit that does not touch the package is passed over after the
    name listing: its subject and body are not asked for. *)
Lemma release_loop_skip (pkg : Release.Package) (c : Commit)
  (rest : list string) (b : SemverBump) :
  Release.name pkg = package ->
  names_answered check_output c ->
  touches package c = false ->
  Release.bump_loop check_output pkg (sha c :: rest) b
  = Release.bump_loop check_output pkg rest b.
Proof.
  intros Hname (out & E & T) Ht. unfold touches in Ht. rewrite <- T in Ht.
  cbn [Release.bump_loop]. unfold Release.run.
  unfold show_names in E. rewrite E. cbn [bind].
  rewrite Hname, Ht. reflexivity.
Qed.

Lemma bump_level_loop_skip (c : Commit) (rest : list string)
  (b : SemverBump) :
  names_answered check_output c ->
  touches package c = false ->
  BumpLevel.bump_loop check_output package (sha c :: rest) b
  = BumpLevel.bump_loop check_output package rest b.
Proof.
  intros (out & E & T) Ht. unfold touches in Ht. rewrite <- T in Ht.
  cbn [BumpLevel.bump_loop]. unfold BumpLevel.touched_package, BumpLevel.run.
  unfold show_names in E. rewrite E. cbn [bind]. rewrite Ht. reflexivity.
Qed.

Lemma release_loop_rules (pkg : Release.Package) (cs : list Commit) :
  Release.name pkg = package ->
  Forall (seen check_output package) cs ->
  forall b,
    Release.bump_loop check_output pkg (map sha cs) b
    = Ok (bump_max b (rules_bump ["fix"] package cs)).
Proof.
  intros Hname. induction 1 as [|c cs [Hn Hc] Hcs IH]; intros b.
  - destruct b; reflexivity.
  - cbn [map]. rewrite rules_bump_cons. unfold class.
    rewrite !subject_has_one.
    destruct (touches package c) eqn:T; cbn [andb].
    + rewrite (release_loop_step _ _ _ _ _ (Hc eq_refl)), Hname, T.
      cbn [negb].
      destruct (is_breaking c);
        [destruct b, (rules_bump ["fix"] package cs); reflexivity|].
      destruct (Py.startswith (subject c) "feat").
      { rewrite IH.
        destruct b, (rules_bump ["fix"] package cs); reflexivity. }
      destruct (Py.startswith (subject c) "fix"); rewrite IH;
        destruct b, (rules_bump ["fix"] package cs); reflexivity.
    + rewrite (release_loop_skip pkg c _ b Hname Hn T), IH.
      destruct b, (rules_bump ["fix"] package cs); reflexivity.
Qed.

Lemma bump_level_loop_rules (cs : list Commit) :
  Forall (seen check_output package) cs ->
  forall b,
    b <> Major ->
    BumpLevel.bump_loop check_output package (map sha cs) b
    = Ok (bump_max b (rules_bump ["fix"; "perf"] package cs)).
Proof.
  induction 1 as [|c cs [Hn Hc] Hcs IH]; intros b Hb.
  - destruct b; reflexivity.
  - cbn [map]. rewrite rules_bump_cons. unfold class.
    rewrite subject_has_one, subject_has_two.
    destruct (touches package c) eqn:T; cbn [andb].
    + rewrite (bump_level_loop_step _ _ _ _ _ (Hc eq_refl)), T. cbn [negb].
      destruct (is_breaking c);
        [destruct b, (rules_bump ["fix"; "perf"] package cs);
         try reflexivity; now elim Hb|].
      destruct (Py.startswith (subject c) "feat").
      { rewrite IH by discriminate.
        destruct b, (rules_bump ["fix"; "perf"] package cs);
          try reflexivity; now elim Hb. }
      destruct (Py.startswith (subject c) "fix"
                || Py.startswith (subject c) "perf");
        rewrite IH by (destruct b; cbn; congruence);
        destruct b, (rules_bump ["fix"; "perf"] package cs); reflexivity.
    + rewrite (bump_level_loop_skip c _ b Hn T), IH by exact Hb.
      destruct b, (rules_bump ["fix"; "perf"] package cs); reflexivity.
Qed.

(** At a breaking commit of the package the loops return; the commits
    listed after it are not asked about. *)
Lemma release_loop_stops (pkg : Release.Package) (pre : list Commit)
  (c : Commit) (post : list string) :
  Release.name pkg = package ->
  Forall (seen check_output package) pre ->
  answers check_output c ->
  breaking_for package c ->
  forall b,
    Release.bump_loop check_output pkg (map sha pre ++ sha c :: post)%list b
    = Ok Major.
Proof.
  intros Hname Hpre Hc [T B].
  induction Hpre as [|p pre [Hn Hp] Hpre IH]; intros b; cbn [map app].
  - rewrite (release_loop_step _ _ _ _ _ Hc), Hname, T, B. reflexivity.
  - destruct (touches package p) eqn:Tp.
    + rewrite (release_loop_step _ _ _ _ _ (Hp eq_refl)), Hname, Tp.
      cbn [negb].
      destruct (is_breaking p); [reflexivity|].
      destruct (Py.startswith (subject p) "feat");
        [|destruct (Py.startswith (subject p) "fix")]; apply IH.
    + rewrite (release_loop_skip pkg p _ b Hname Hn Tp). apply IH.
Qed.

Lemma bump_level_loop_stops (pre : list Commit) (c : Commit)
  (post : list string) :
  Forall (seen check_output package) pre ->
  answers check_output c ->
  breaking_for package c ->
  forall b,
    BumpLevel.bump_loop check_output package
      (map sha pre ++ sha c :: post)%list b
    = Ok Major.
Proof.
  intros Hpre Hc [T B].
  induction Hpre as [|p pre [Hn Hp] Hpre IH]; intros b; cbn [map app].
  - rewrite (bump_level_loop_step _ _ _ _ _ Hc), T, B. reflexivity.
  - destruct (touches package p) eqn:Tp.
    + rewrite (bump_level_loop_step _ _ _ _ _ (Hp eq_refl)), Tp.
      cbn [negb].
      destruct (is_breaking p); [reflexivity|].
      destruct (Py.startswith (subject p) "feat");
        [|destruct (Py.startswith (subject p) "fix"
                   || Py.startswith (subject p) "perf")]; apply IH.
    + rewrite (bump_level_loop_skip p _ b Hn Tp). apply IH.
Qed.

End ClassifierRules.

Ltac seen_all :=
  repeat first
    [ apply Forall_nil
    | apply Forall_cons
    | match goal with
      | |- seen _ _ _ =>
          split;
          [ eexists; (split; [reflexivity | reflexivity])
          | intros Ht; first [discriminate Ht | answered] ]
      | |- answers _ _ =>
          split; [|split]; eexists; (split; [reflexivity | reflexivity])
      | |- lists _ _ _ => eexists; (split; [reflexivity | reflexivity])
      end ].

(** X1. [conventional_bump_from_commits] computes the rules of its
    docstring on the range: major if any commit touching the package is
    breaking, else minor if any has a feat subject, else patch if any has
    a fix subject, else none. Only the name listing of a commit that does
    not touch the package has to succeed. *)
Theorem release_classifier_follows_rules :
  forall (check_output : list string -> result string) (cs : list Commit)
         (tag : option string) (pkg : Release.Package),
    Forall (seen check_output (Release.name pkg)) cs ->
    lists check_output (Release.rev_list_args tag) cs ->
    Release.conventional_bump_from_commits check_output tag pkg
    = Ok (rules_bump ["fix"] (Release.name pkg) cs).
Proof.
  intros check_output cs tag pkg Hs (out & E & L).
  unfold Release.conventional_bump_from_commits, Release.run.
  rewrite E. cbn [bind]. rewrite L.
  rewrite (release_loop_rules check_output (Release.name pkg) pkg cs
             eq_refl Hs BumpNone).
  destruct (rules_bump _ _ _); reflexivity.
Qed.

Lemma release_classifier_follows_rules_witness :
  let cs := [Example.fix_commit; Example.other_commit; Example.feat_commit] in
  Release.conventional_bump_from_commits
    (PartialTools.messages_of_p_only cs) (Some "better-mcps-p-v1.2.0")
    Example.pkg_p = Ok Minor.
Proof.
  intros cs.
  assert (Hs : Forall (seen (PartialTools.messages_of_p_only cs) "p") cs)
    by (subst cs; seen_all).
  assert (Hl : lists (PartialTools.messages_of_p_only cs)
                 (Release.rev_list_args (Some "better-mcps-p-v1.2.0")) cs)
    by (subst cs; seen_all).
  exact (release_classifier_follows_rules _ cs _ Example.pkg_p Hs Hl).
Defined.



Lemma existsb_permutation {A : Type} (f : A -> bool) (l l' : list A) :
  Permutation l l' -> existsb f l = existsb f l'.
Proof.
  induction 1 as [|x l l' _ IH|x y l|l l' l'' _ IH1 _ IH2]; cbn.
  - reflexivity.
  - now rewrite IH.
  - destruct (f x), (f y); reflexivity.
  - congruence.
Qed.

Lemma rules_bump_permutation (prefixes : list string) (package : string)
  (cs cs' : list Commit) :
  Permutation cs cs' ->
  rules_bump prefixes package cs = rules_bump prefixes package cs'.
Proof.
  intros H. unfold rules_bump, any_commit.
  now rewrite !(existsb_permutation _ cs cs' H).
Qed.

(** X3. The classification does not depend on the order of the commits:
    two histories that list the same commits in different orders get the
    same bump from [conventional_bump_from_commits], and the same line
    from [bump_level.py]. *)
Theorem classification_ignores_order :
  forall (tool tool' : list string -> result string)
         (cs cs' : list Commit) (package : string),
    Permutation cs cs' ->
    Forall (seen tool package) cs ->
    Forall (seen tool' package) cs' ->
    (forall tag tag' pkg,
        Release.name pkg = package ->
        lists tool (Release.rev_list_args tag) cs ->
        lists tool' (Release.rev_list_args tag') cs' ->
        Release.conventional_bump_from_commits tool tag pkg
        = Release.conventional_bump_from_commits tool' tag' pkg)
    /\ (forall script since_ref since_ref',
          lists tool (BumpLevel.rev_list_args since_ref) cs ->
          lists tool' (BumpLevel.rev_list_args since_ref') cs' ->
          BumpLevel.main tool [script; package; since_ref]
          = BumpLevel.main tool' [script; package; since_ref']).
Proof.
  intros tool tool' cs cs' package Hp Hs Hs'.
  pose proof (rules_bump_permutation ["fix"] package _ _ Hp) as R1.
  pose proof (rules_bump_permutation ["fix"; "perf"] package _ _ Hp) as R2.
  split.
  - intros tag tag' pkg Hn (out & E & L) (out' & E' & L'). subst package.
    unfold Release.conventional_bump_from_commits, Release.run.
    rewrite E, E'. cbn [bind]. rewrite L, L'.
    rewrite (release_loop_rules tool _ pkg cs eq_refl Hs).
    rewrite (release_loop_rules tool' _ pkg cs' eq_refl Hs').
    now rewrite R1.
  - intros script since_ref since_ref' (out & E & L) (out' & E' & L').
    unfold BumpLevel.main, BumpLevel.commits_since, BumpLevel.run.
    rewrite E, E'. cbn [bind]. rewrite L, L'.
    rewrite (bump_level_loop_rules tool package cs Hs) by discriminate.
    rewrite (bump_level_loop_rules tool' package cs' Hs') by discriminate.
    now rewrite R2.
Qed.

Lemma classification_ignores_order_witness :
  let cs := [Example.fix_commit; Example.feat_commit] in
  let cs' := [Example.feat_commit; Example.fix_commit] in
  Release.conventional_bump_from_commits (Example.tool cs) None
    Example.pkg_p
  = Release.conventional_bump_from_commits (Example.tool cs') None
      Example.pkg_p
  /\ BumpLevel.main (Example.tool cs) ["bump_level.py"; "p"; ""]
     = BumpLevel.main (Example.tool cs') ["bump_level.py"; "p"; ""].
Proof.
  intros cs cs'.
  assert (Hp : Permutation cs cs') by apply perm_swap.
  assert (Hs : Forall (seen (Example.tool cs) "p") cs)
    by (subst cs; seen_all).
  assert (Hs' : Forall (seen (Example.tool cs') "p") cs')
    by (subst cs'; seen_all).
  destruct (classification_ignores_order (Example.tool cs) (Example.tool cs')
              cs cs' "p" Hp Hs Hs') as [R B].
  split.
  - apply R; [reflexivity | subst cs; seen_all | subst cs'; seen_all].
  - apply B; [subst cs; seen_all | subst cs'; seen_all].
Defined.

(** X4. At the first breaking commit of the package both loops return
    [major] at once: the revisions listed after it are not asked about,
    so the result holds whatever the tool would answer for them, and
    also when it would fail. *)
Theorem breaking_commit_stops_the_scan :
  forall (check_output : list string -> result string)
         (pre : list Commit) (c : Commit) (post : list string)
         (package : string),
    Forall (seen check_output package) pre ->
    answers check_output c ->
    breaking_for package c ->
    (forall tag pkg out,
        Release.name pkg = package ->
        check_output (Release.rev_list_args tag) = Ok out ->
        Py.splitlines (Py.strip out) = (map sha pre ++ sha c :: post)%list ->
        Release.conventional_bump_from_commits check_output tag pkg
        = Ok Major)
    /\ (forall script since_ref out,
          check_output (BumpLevel.rev_list_args since_ref) = Ok out ->
          Py.splitlines (Py.strip out)
          = (map sha pre ++ sha c :: post)%list ->
          BumpLevel.main check_output [script; package; since_ref]
          = Ok (BumpLevel.mkOutput ["major"] [] 0)).
Proof.
  intros check_output pre c post package Hpre Hc Hb. split.
  - intros tag pkg out Hn E L.
    unfold Release.conventional_bump_from_commits, Release.run.
    rewrite E. cbn [bind]. rewrite L.
    apply (release_loop_stops check_output package pkg pre c post Hn Hpre
             Hc Hb).
  - intros script since_ref out E L.
    unfold BumpLevel.main, BumpLevel.commits_since, BumpLevel.run.
    rewrite E. cbn [bind]. rewrite L.
    rewrite (bump_level_loop_stops check_output package pre c post Hpre Hc
               Hb BumpNone).
    reflexivity.
Qed.

Lemma breaking_commit_stops_the_scan_witness :
  let cs := [Example.fix_commit; Example.breaking_commit] in
  Release.conventional_bump_from_commits (PartialTools.lists_unknown cs)
    None Example.pkg_p = Ok Major
  /\ BumpLevel.main (PartialTools.lists_unknown cs)
       ["bump_level.py"; "p"; "v1"]
     = Ok (BumpLevel.mkOutput ["major"] [] 0).
Proof.
  intros cs.
  assert (Hpre : Forall (seen (PartialTools.lists_unknown cs) "p")
                   [Example.fix_commit]) by (subst cs; seen_all).
  assert (Hc : answers (PartialTools.lists_unknown cs) Example.breaking_commit)
    by (subst cs; seen_all).
  assert (Hb : breaking_for "p" Example.breaking_commit)
    by (split; reflexivity).
  destruct (breaking_commit_stops_the_scan (PartialTools.lists_unknown cs)
              [Example.fix_commit] Example.breaking_commit ["unknown"] "p"
              Hpre Hc Hb) as [R B].
  split.
  - exact (R None Example.pkg_p _ eq_refl eq_refl eq_refl).
  - exact (B "bump_level.py" "v1" _ eq_refl eq_refl).
Defined.

Lemma any_commit_fix_perf (package : string) (cs : list Commit) :
  any_commit package (subject_has ["fix"]) cs = true ->
  any_commit package (subject_has ["fix"; "perf"]) cs = true.
Proof.
  unfold any_commit. rewrite !existsb_exists.
  intros (c & Hin & H). exists c. split; [exact Hin|].
  apply andb_true_iff in H. destruct H as [T F].
  unfold subject_has in *. cbn in *. rewrite T.
  destruct (Py.startswith (subject c) "fix"); [reflexivity | discriminate].
Qed.

Lemma any_commit_no_perf (package : string) (cs : list Commit) :
  Forall (fun c => touches package c = true ->
                   Py.startswith (subject c) "perf" = false) cs ->
  any_commit package (subject_has ["fix"; "perf"]) cs
  = any_commit package (subject_has ["fix"]) cs.
Proof.
  unfold any_commit.
  induction 1 as [|c cs Hc _ IH]; [reflexivity|].
  change (touches package c && subject_has ["fix"; "perf"] c
          || existsb (fun c0 => touches package c0
                                && subject_has ["fix"; "perf"] c0) cs
          = touches package c && subject_has ["fix"] c
            || existsb (fun c0 => touches package c0
                                  && subject_has ["fix"] c0) cs).
  rewrite IH. f_equal.
  destruct (touches package c); [|reflexivity].
  unfold subject_has. cbn. rewrite (Hc eq_refl). reflexivity.
Qed.

(** X5. On one range the two classifiers give the same bump, or
    [release.py] gives none where [bump_level.py] gives patch; they give
    the same bump when no commit touching the package has a perf
    subject; and the bump [cmd_tag_main] plans with, where none has
    become patch, is the same from both. *)
Theorem classifiers_differ_on_perf_only :
  forall (check_output : list string -> result string) (cs : list Commit)
         (tag : option string) (pkg : Release.Package)
         (script since_ref : string),
    Forall (seen check_output (Release.name pkg)) cs ->
    lists check_output (Release.rev_list_args tag) cs ->
    lists check_output (BumpLevel.rev_list_args since_ref) cs ->
    exists b1 b2,
      Release.conventional_bump_from_commits check_output tag pkg = Ok b1
      /\ BumpLevel.main check_output [script; Release.name pkg; since_ref]
         = Ok (BumpLevel.mkOutput [bump_name b2] [] 0)
      /\ (b1 = b2 \/ (b1 = BumpNone /\ b2 = Patch))
      /\ planned_bump b1 = planned_bump b2
      /\ (Forall (fun c => touches (Release.name pkg) c = true ->
                           Py.startswith (subject c) "perf" = false) cs ->
          b1 = b2).
Proof.
  intros check_output cs tag pkg script since_ref Hs (o1 & E1 & L1)
    (o2 & E2 & L2).
  exists (rules_bump ["fix"] (Release.name pkg) cs),
    (rules_bump ["fix"; "perf"] (Release.name pkg) cs).
  split; [|split].
  - unfold Release.conventional_bump_from_commits, Release.run.
    rewrite E1. cbn [bind]. rewrite L1.
    rewrite (release_loop_rules check_output _ pkg cs eq_refl Hs).
    destruct (rules_bump _ _ _); reflexivity.
  - unfold BumpLevel.main, BumpLevel.commits_since, BumpLevel.run.
    rewrite E2. cbn [bind]. rewrite L2.
    rewrite (bump_level_loop_rules check_output _ cs Hs) by discriminate.
    destruct (rules_bump _ _ _); reflexivity.
  - pose proof (any_commit_fix_perf (Release.name pkg) cs) as Hm.
    pose proof (any_commit_no_perf (Release.name pkg) cs) as Hn.
    unfold rules_bump.
    destruct (any_commit _ is_breaking cs); [auto|].
    destruct (any_commit _ (subject_has ["feat"]) cs); [auto|].
    destruct (any_commit _ (subject_has ["fix"]) cs);
      destruct (any_commit _ (subject_has ["fix"; "perf"]) cs);
      try (specialize (Hm eq_refl); discriminate Hm);
      repeat split; auto.
    intros H. specialize (Hn H). discriminate Hn.
Qed.

Lemma classifiers_differ_on_perf_only_witness :
  let cs := [Example.other_commit; Example.perf_commit] in
  exists b1 b2,
    Release.conventional_bump_from_commits (Example.tool cs) None
      Example.pkg_p = Ok b1
    /\ BumpLevel.main (Example.tool cs) ["bump_level.py"; "p"; ""]
       = Ok (BumpLevel.mkOutput [bump_name b2] [] 0)
    /\ (b1 = b2 \/ (b1 = BumpNone /\ b2 = Patch))
    /\ planned_bump b1 = planned_bump b2.
Proof.
  intros cs.
  assert (Hs : Forall (seen (Example.tool cs) "p") cs)
    by (subst cs; seen_all).
  destruct (classifiers_differ_on_perf_only (Example.tool cs) cs None
              Example.pkg_p "bump_level.py" "" Hs)
    as (b1 & b2 & H1 & H2 & H3 & H4 & _);
    [subst cs; seen_all | subst cs; seen_all |].
  exists b1, b2. auto.
Defined.

(** ** Tags and versions *)

Lemma slice_from_append (p s : string) :
  Py.slice_from (String.length p) (p ++ s) = s.
Proof. induction p as [|c p IH]; cbn; [reflexivity | exact IH]. Qed.

(** X6. [version_from_tag] undoes the tag naming: it returns [v] exactly
    on the tag made of the package's prefix followed by [v], and raises
    ValueError on every tag that does not start with the prefix. *)
Theorem version_from_tag_inverts_tag_name :
  forall (pkg : Release.Package) (tag v : string),
    (Release.version_from_tag tag pkg = Ok v
     <-> tag = Release.tag_prefix pkg ++ v)
    /\ ((forall r, tag <> Release.tag_prefix pkg ++ r) ->
        Release.version_from_tag tag pkg
        = Raise (ValueError
                   ("Tag " ++ tag ++ " does not match "
                      ++ Release.tag_prefix pkg))).
Proof.
  intros pkg tag v. unfold Release.version_from_tag, Py.startswith.
  destruct (String.prefix (Release.tag_prefix pkg) tag) eqn:P; cbn [negb].
  - apply prefix_append in P. destruct P as (r & ->).
    rewrite slice_from_append. split.
    + split; [intros H; now inversion H|].
      intros H. f_equal. revert H. generalize (Release.tag_prefix pkg).
      intros q. induction q as [|c q IH]; cbn; intros H; [now symmetry|].
      inversion H. auto.
    + intros H. now elim (H r).
  - split; [|reflexivity].
    split; [discriminate|]. intros ->.
    assert (E : String.prefix (Release.tag_prefix pkg)
                  (Release.tag_prefix pkg ++ v) = true)
      by (apply prefix_append; now exists v).
    congruence.
Qed.

Lemma version_from_tag_inverts_tag_name_witness :
  Release.version_from_tag "better-mcps-p-v1.2.0" Example.pkg_p = Ok "1.2.0"
  /\ Release.version_from_tag "better-mcps-q-v1.2.0" Example.pkg_p
     = Raise (ValueError
                "Tag better-mcps-q-v1.2.0 does not match better-mcps-p-v").
Proof.
  split.
  - apply (proj1 (version_from_tag_inverts_tag_name Example.pkg_p
                    "better-mcps-p-v1.2.0" "1.2.0")). reflexivity.
  - apply (proj2 (version_from_tag_inverts_tag_name Example.pkg_p
                    "better-mcps-q-v1.2.0" "")).
    intros r H. discriminate H.
Defined.

(** X7. A bump other than none moves the version strictly up in the
    order of semantic versions, and its result is written without
    leading zeros, whatever the input looked like: it is the text of its
    own components, so it parses again. *)
Theorem bump_version_increases :
  forall (v a b c : string) (bump : SemverBump),
    semver_shape v a b c ->
    bump <> BumpNone ->
    exists next,
      Release.bump_version v bump = Ok (version_text next)
      /\ Release.parse_semver (version_text next) = Ok next
      /\ version_lt (Py.int a, Py.int b, Py.int c) next.
Proof.
  intros v a b c bump H Hb.
  destruct (proj1 (bump_version_components_aux v) a b c H)
    as (_ & _ & Hp & Hm & HM).
  destruct bump; [| | |now elim Hb].
  - exists ((Py.int a + 1)%N, 0%N, 0%N).
    split; [exact HM|]. split; [apply parse_semver_formatted|].
    cbn. left. lia.
  - exists (Py.int a, (Py.int b + 1)%N, 0%N).
    split; [exact Hm|]. split; [apply parse_semver_formatted|].
    cbn. right. split; [reflexivity|]. left. lia.
  - exists (Py.int a, Py.int b, (Py.int c + 1)%N).
    split; [exact Hp|]. split; [apply parse_semver_formatted|].
    cbn. right. split; [reflexivity|]. right. split; [reflexivity | lia].
Qed.

Lemma bump_version_increases_witness :
  exists next,
    Release.bump_version "01.002.9" Patch = Ok (version_text next)
    /\ Release.parse_semver (version_text next) = Ok next
    /\ version_lt (1%N, 2%N, 9%N) next.
Proof.
  assert (S : semver_shape "01.002.9" "01" "002" "9").
  { repeat split; try discriminate. now left. }
  assert (Hb : Patch <> BumpNone) by discriminate.
  exact (bump_version_increases "01.002.9" "01" "002" "9" Patch S Hb).
Defined.

(** X8. A higher bump absorbs a lower one made before it: patch then
    minor is minor, patch then major and minor then major are major, on
    every input (an invalid version raises the same error either way). *)
Theorem higher_bump_absorbs_lower :
  forall v : string,
    bind (Release.bump_version v Patch)
      (fun v1 => Release.bump_version v1 Minor)
    = Release.bump_version v Minor
    /\ bind (Release.bump_version v Patch)
         (fun v1 => Release.bump_version v1 Major)
       = Release.bump_version v Major
    /\ bind (Release.bump_version v Minor)
         (fun v1 => Release.bump_version v1 Major)
       = Release.bump_version v Major.
Proof.
  intros v. unfold Release.bump_version at 1 3 4 6 7 9.
  unfold Release.parse_semver at 1 2 3 4 5 6.
  destruct (Release.SEMVER_RE_match v) as [[[a b] c]|]; cbn [bind].
  - pose proof (parse_semver_formatted (Py.int a) (Py.int b)
                  (Py.int c + 1)) as E1.
    assert (E2 : Release.parse_semver
                   (Py.str (Py.int a) ++ "." ++ Py.str (Py.int b + 1) ++ ".0")
                 = Ok (Py.int a, (Py.int b + 1)%N, 0%N))
      by apply (parse_semver_formatted (Py.int a) (Py.int b + 1) 0).
    unfold Release.bump_version. rewrite E1, E2. cbn [bind]. auto.
  - auto.
Qed.

(** ** Sorting by name *)

Lemma ltb_true_le (x y : string) : String.ltb x y = true -> str_le x y.
Proof.
  unfold String.ltb, str_le, String.leb.
  destruct (String.compare x y); [discriminate | reflexivity | discriminate].
Qed.

Lemma ltb_false_le (x y : string) : String.ltb x y = false -> str_le y x.
Proof.
  unfold String.ltb, str_le, String.leb.
  rewrite (String.compare_antisym x y).
  destruct (String.compare y x); cbn;
    [reflexivity | reflexivity | discriminate].
Qed.

Lemma insert_sorted_permutation (x : string) (xs : list string) :
  Permutation (x :: xs) (Py.insert_sorted x xs).
Proof.
  induction xs as [|y ys IH]; cbn; [apply Permutation_refl|].
  destruct (String.ltb x y); [apply Permutation_refl|].
  eapply perm_trans; [apply perm_swap | apply perm_skip, IH].
Qed.

Lemma insert_sorted_sorted (x : string) (xs : list string) :
  Sorted str_le xs -> Sorted str_le (Py.insert_sorted x xs).
Proof.
  induction 1 as [|y ys Hs IH Hd]; cbn; [repeat constructor|].
  destruct (String.ltb x y) eqn:L.
  - constructor; [constructor; assumption|].
    constructor. apply ltb_true_le, L.
  - constructor; [exact IH|].
    destruct ys as [|z zs]; cbn.
    + constructor. apply ltb_false_le, L.
    + destruct (String.ltb x z); constructor.
      * apply ltb_false_le, L.
      * inversion Hd. assumption.
Qed.

Lemma sorted_from (xs acc : list string) :
  Sorted str_le acc ->
  Sorted str_le (fold_left (fun a x => Py.insert_sorted x a) xs acc)
  /\ Permutation (xs ++ acc)
       (fold_left (fun a x => Py.insert_sorted x a) xs acc).
Proof.
  revert acc. induction xs as [|x xs IH]; intros acc Hs; cbn.
  - split; [exact Hs | apply Permutation_refl].
  - destruct (IH (Py.insert_sorted x acc) (insert_sorted_sorted x acc Hs))
      as [S P].
    split; [exact S|].
    eapply perm_trans; [|exact P].
    eapply perm_trans; [apply Permutation_middle|].
    apply Permutation_app_head, insert_sorted_permutation.
Qed.

Lemma py_sorted_spec (xs : list string) :
  Sorted str_le (Py.sorted xs) /\ Permutation xs (Py.sorted xs).
Proof.
  destruct (sorted_from xs [] (Sorted_nil _)) as [S P].
  split; [exact S|]. now rewrite app_nil_r in P.
Qed.

Lemma insert_by_name_permutation (p : Release.Package)
  (ps : list Release.Package) :
  Permutation (p :: ps) (Release.insert_by_name p ps).
Proof.
  induction ps as [|q qs IH]; cbn; [apply Permutation_refl|].
  destruct (String.ltb _ _); [apply Permutation_refl|].
  eapply perm_trans; [apply perm_swap | apply perm_skip, IH].
Qed.

Lemma insert_by_name_sorted (p : Release.Package)
  (ps : list Release.Package) :
  Sorted name_le ps -> Sorted name_le (Release.insert_by_name p ps).
Proof.
  unfold name_le.
  induction 1 as [|q qs Hs IH Hd]; cbn; [repeat constructor|].
  destruct (String.ltb (Release.name p) (Release.name q)) eqn:L.
  - constructor; [constructor; assumption|].
    constructor. apply ltb_true_le, L.
  - constructor; [exact IH|].
    destruct qs as [|z zs]; cbn.
    + constructor. apply ltb_false_le, L.
    + destruct (String.ltb (Release.name p) (Release.name z)); constructor.
      * apply ltb_false_le, L.
      * inversion Hd. assumption.
Qed.

(** X9. [list_packages] returns the packages found, each as often as it
    was found, in ascending order of their names. *)
Theorem list_packages_sorted_by_name :
  forall glob_pyproject : list Release.Package,
    Sorted name_le (Release.list_packages glob_pyproject)
    /\ Permutation glob_pyproject (Release.list_packages glob_pyproject).
Proof.
  intros glob. unfold Release.list_packages.
  assert (H : forall xs acc,
             Sorted name_le acc ->
             Sorted name_le
               (fold_left (fun a p => Release.insert_by_name p a) xs acc)
             /\ Permutation (xs ++ acc)
                  (fold_left (fun a p => Release.insert_by_name p a) xs acc)).
  { induction xs as [|x xs IH]; intros acc Hs; cbn.
    - split; [exact Hs | apply Permutation_refl].
    - destruct (IH _ (insert_by_name_sorted x acc Hs)) as [S P].
      split; [exact S|].
      eapply perm_trans; [|exact P].
      eapply perm_trans; [apply Permutation_middle|].
      apply Permutation_app_head, insert_by_name_permutation. }
  destruct (H glob [] (Sorted_nil _)) as [S P].
  split; [exact S|]. now rewrite app_nil_r in P.
Qed.

(** ** The packages of a diff *)

Lemma set_add_In (x g : string) (s : list string) :
  In g (Py.set_add x s) <-> g = x \/ In g s.
Proof.
  unfold Py.set_add. destruct (existsb (String.eqb x) s) eqn:E.
  - split; [auto|]. intros [->|H]; [|exact H].
    apply existsb_exists in E. destruct E as (y & Hy & Exy).
    apply String.eqb_eq in Exy. now subst.
  - rewrite in_app_iff. cbn. intuition.
Qed.

Lemma set_add_NoDup (x : string) (s : list string) :
  NoDup s -> NoDup (Py.set_add x s).
Proof.
  intros N. unfold Py.set_add. destruct (existsb (String.eqb x) s) eqn:E.
  - exact N.
  - apply NoDup_app; [exact N | repeat constructor; intros [] |].
    intros y Hy [<-|[]].
    assert (T : existsb (String.eqb x) s = true).
    { apply existsb_exists. exists x. split; [exact Hy|].
      apply String.eqb_refl. }
    congruence.
Qed.

Lemma changed_packages_from (lines acc : list string) :
  let step := fun pkgs line =>
                match TagOnMerge.pyproject_line (Py.strip line) with
                | Some g => Py.set_add g pkgs
                | None => pkgs
                end in
  NoDup acc ->
  NoDup (fold_left step lines acc)
  /\ (forall g,
        In g (fold_left step lines acc)
        <-> In g acc
            \/ exists line,
                 In line lines
                 /\ TagOnMerge.pyproject_line (Py.strip line) = Some g).
Proof.
  intros step. revert acc.
  induction lines as [|l lines IH]; intros acc N; cbn [fold_left].
  - split; [exact N|]. intros g. split; [auto|].
    intros [H|(line & [] & _)]. exact H.
  - assert (N' : NoDup (step acc l)).
    { unfold step. destruct (TagOnMerge.pyproject_line _);
        [apply set_add_NoDup|]; exact N. }
    destruct (IH _ N') as [Nd Hin]. split; [exact Nd|].
    intros g. rewrite Hin. unfold step at 1.
    destruct (TagOnMerge.pyproject_line (Py.strip l)) as [h|] eqn:E.
    + rewrite set_add_In. split.
      * intros [[->|H]|(line & Hl & Hg)]; [right | now left | right].
        -- exists l. split; [now left | exact E].
        -- exists line. split; [now right | exact Hg].
      * intros [H|(line & [<-|Hl] & Hg)].
        -- left. now right.
        -- left. left. congruence.
        -- right. now exists line.
    + split.
      * intros [H|(line & Hl & Hg)]; [now left | right].
        exists line. split; [now right | exact Hg].
      * intros [H|(line & [<-|Hl] & Hg)]; [now left | congruence | right].
        now exists line.
Qed.

(** X10. The packages the reconcile pass works on are the top-level
    directories [g] for which some line of the diff, stripped, reads
    [g/pyproject.toml]; each is taken once, in ascending order of names,
    and the pass is the loop over that list. A descriptor deeper in the
    tree, or at the root, names no package. *)
Theorem changed_packages_once_in_order :
  forall changed : string,
    let pkgs := Py.sorted (TagOnMerge.changed_packages changed) in
    Sorted str_le pkgs
    /\ NoDup pkgs
    /\ (forall g,
          In g pkgs
          <-> exists line,
                In line (Py.splitlines changed)
                /\ descriptor_line_shape (Py.strip line) g)
    /\ (forall w script before after out,
          before <> after ->
          TagOnMerge.diff_name_only w before after = Ok out ->
          Py.strip out = changed ->
          pkgs <> [] ->
          TagOnMerge.main [script; before; after] w
          = TagOnMerge.bindM (TagOnMerge.tag_loop pkgs)
              (fun _ => TagOnMerge.ret 0) w).
Proof.
  intros changed pkgs.
  destruct (py_sorted_spec (TagOnMerge.changed_packages changed)) as [S P].
  destruct (changed_packages_from (Py.splitlines changed) [] (NoDup_nil _))
    as [N Hin].
  fold (TagOnMerge.changed_packages changed) in N, Hin.
  split; [exact S|]. split; [|split].
  - apply (Permutation_NoDup P N).
  - intros g. subst pkgs. split.
    + intros H. apply (Permutation_in _ (Permutation_sym P)) in H.
      apply Hin in H. destruct H as [[]|(line & Hl & Hg)].
      exists line. split; [exact Hl|]. now apply pyproject_line_shape.
    + intros (line & Hl & Hg). apply (Permutation_in _ P). apply Hin.
      right. exists line. split; [exact Hl|]. now apply pyproject_line_shape.
  - intros w script before after out Hne Hd Hs Hp.
    apply (ReconcileFacts.main_tags_changed script before after out);
      try assumption.
    subst changed. reflexivity.
Qed.

Lemma changed_packages_once_in_order_witness :
  TagOnMerge.main ["tag_on_merge.py"; "a1"; "b2"] Example.deleted
  = TagOnMerge.bindM (TagOnMerge.tag_loop ["p"])
      (fun _ => TagOnMerge.ret 0) Example.deleted.
Proof.
  assert (Hne : "a1" <> "b2") by discriminate.
  assert (Hp : Py.sorted (TagOnMerge.changed_packages Example.diff_p) <> [])
    by discriminate.
  destruct (changed_packages_once_in_order Example.diff_p)
    as (_ & _ & _ & H).
  exact (H Example.deleted "tag_on_merge.py" "a1" "b2" Example.diff_p
           Hne eq_refl eq_refl Hp).
Defined.

(** ** What the reconcile pass adds to the repository *)

Module GrowthFacts.

Import TagOnMerge Reconcile ReconcileFacts Growth.

Lemma grows_refl (P : string -> Prop) (w : World) : grows P w w.
Proof. unfold grows. repeat split; auto using incl_refl. Qed.

Lemma grows_trans (P : string -> Prop) (w1 w2 w3 : World) :
  grows P w1 w2 -> grows P w2 w3 -> grows P w1 w3.
Proof.
  intros (S1 & T1 & P1 & N1 & U1) (S2 & T2 & P2 & N2 & U2).
  unfold grows. split; [congruence|].
  split; [eauto using incl_tran|]. split; [eauto using incl_tran|].
  split.
  - intros t H. destruct (N2 t H) as [H'|H']; auto.
  - intros t H. destruct (U2 t H) as [H'|[H1 H2]].
    + destruct (U1 t H') as [H1|[H1 H2]]; auto.
    + right. split; [exact H1|]. intros H3. apply H2, T1, H3.
Qed.

Lemma tag_if_new_grows (P : string -> Prop) (pkg v : string) (w : World) :
  P (tag_name pkg v) -> grows P w (snd (tag_if_new pkg v w)).
Proof.
  intros HP. unfold tag_if_new. generalize dependent (tag_name pkg v).
  intros tag HP.
  destruct (has_tag w tag) eqn:H; [exact (grows_refl P w)|].
  destruct (tag_refused w tag); [exact (grows_refl P w)|].
  assert (Hn : ~ In tag (tags w)).
  { intros Hin. apply has_tag_In in Hin. congruence. }
  destruct (push_refused w tag); cbn [snd]; unfold grows; cbn.
  - repeat split; auto using incl_refl, incl_tl.
    intros t [<-|Ht]; auto.
  - repeat split; auto using incl_refl, incl_tl.
    + intros t [<-|Ht]; auto.
    + intros t [<-|Ht]; auto.
Qed.

Lemma tag_package_grows (P : string -> Prop) (pkg : string) (w : World) :
  (forall v, fst (check_package pkg w) = Ok (Some v) -> P (tag_name pkg v)) ->
  grows P w (snd (tag_package pkg w)).
Proof.
  intros HP. rewrite tag_package_phases, check_package_result.
  destruct (fst (check_package pkg w)) as [[v|]|e]; try apply grows_refl.
  apply tag_if_new_grows, HP. reflexivity.
Qed.

Lemma release_tag_in_static (w w' : World) (t : string) :
  static w = static w' -> release_tag_in w t -> release_tag_in w' t.
Proof.
  intros S (pkg & v & C & ->). exists pkg, v. split; [|reflexivity].
  now rewrite <- (check_package_static pkg w w' S).
Qed.

Lemma tag_loop_grows (w0 : World) (pkgs : list string) :
  forall w,
    static w = static w0 ->
    grows (release_tag_in w0) w (snd (tag_loop pkgs w)).
Proof.
  induction pkgs as [|p rest IH]; intros w S; [apply grows_refl|].
  cbn [tag_loop]. unfold bindM.
  assert (G : grows (release_tag_in w0) w (snd (tag_package p w))).
  { apply tag_package_grows. intros v Hv.
    apply (release_tag_in_static w w0 _ S). now exists p, v. }
  destruct (tag_package p w) as [[[]|e] w1]; cbn [snd] in *.
  - apply (grows_trans _ _ _ _ G). apply IH.
    destruct G as (S1 & _). congruence.
  - exact G.
Qed.

Lemma after_diff_grows (changed : string) (w : World) :
  grows (release_tag_in w) w (snd (after_diff changed w)).
Proof.
  unfold after_diff.
  destruct (changed_packages changed) as [|p ps];
    [exact (grows_refl _ w)|].
  unfold bindM.
  pose proof (tag_loop_grows w (Py.sorted (p :: ps)) w eq_refl) as G.
  destruct (tag_loop (Py.sorted (p :: ps)) w) as [[[]|e] w1]; exact G.
Qed.

Lemma main_grows (argv : list string) (w : World) :
  grows (release_tag_in w) w (snd (main argv w)).
Proof.
  destruct argv as [|a0 [|a1 [|a2 [|a3 rest]]]];
    try exact (grows_refl _ w).
  rewrite main_after_diff.
  destruct (String.eqb a1 a2); [apply after_diff_grows|].
  destruct (diff_name_only w a1 a2); [apply after_diff_grows|].
  apply grows_refl.
Qed.

(** X11. Whatever its outcome, a run of the reconcile pass only adds:
    no tag and no push is lost; every tag it adds is the tag of a package
    at the version its descriptor reads, the init file agreeing; every
    tag it pushes is one it has just created; and if every pushed tag
    was a local tag before the run, so it is after. *)
Theorem reconcile_only_adds_release_tags :
  forall (argv : list string) (w : World),
    let w' := snd (main argv w) in
    incl (tags w) (tags w')
    /\ incl (pushed w) (pushed w')
    /\ (forall t, In t (tags w') -> ~ In t (tags w) -> release_tag_in w t)
    /\ (forall t,
          In t (pushed w') -> ~ In t (pushed w) ->
          In t (tags w') /\ ~ In t (tags w))
    /\ (incl (pushed w) (tags w) -> incl (pushed w') (tags w')).
Proof.
  intros argv w w'.
  destruct (main_grows argv w) as (_ & T & P & N & U). fold w' in T, P, N, U.
  split; [exact T|]. split; [exact P|]. split; [|split].
  - intros t H Hn. destruct (N t H) as [H'|H']; [now elim Hn | exact H'].
  - intros t H Hn. destruct (U t H) as [H'|H']; [now elim Hn | exact H'].
  - intros I t H. destruct (U t H) as [H'|[H' _]]; [apply T, I, H' | exact H'].
Qed.

Lemma reconcile_only_adds_release_tags_witness :
  let w' := snd (main ["tag_on_merge.py"; "a1"; "b2"] Example.consistent) in
  release_tag_in Example.consistent "better-mcps-p-v1.2.0"
  /\ In "better-mcps-p-v1.2.0" (tags w')
  /\ incl (pushed w') (tags w').
Proof.
  intros w'.
  destruct (reconcile_only_adds_release_tags
              ["tag_on_merge.py"; "a1"; "b2"] Example.consistent)
    as (_ & _ & N & U & I).
  assert (Ht : In "better-mcps-p-v1.2.0" (tags w')) by (left; reflexivity).
  split; [|split].
  - apply (N _ Ht). intros [].
  - exact Ht.
  - apply I. intros t [].
Defined.

End GrowthFacts.

(** ** Outcomes of the reconcile pass *)

Module ReconcileOutcomes.

Import TagOnMerge Reconcile ReconcileFacts.

Lemma tag_if_new_done (pkg v : string) (w wa : World) :
  tag_if_new pkg v w = (Ok tt, wa) ->
  In (tag_name pkg v) (tags wa)
  /\ (In (tag_name pkg v) (tags w) \/ In (tag_name pkg v) (pushed wa)).
Proof.
  unfold tag_if_new. generalize (tag_name pkg v). intros tag.
  destruct (has_tag w tag) eqn:H.
  - intros E. inversion E; subst wa. cbn.
    apply has_tag_In in H. auto.
  - destruct (tag_refused w tag); [discriminate|].
    destruct (push_refused w tag); [discriminate|].
    intros E. inversion E; subst wa. cbn. auto.
Qed.

(** After a loop that returned, every package was skipped for want of a
    descriptor or has its tag. *)
Lemma tag_loop_done (pkgs : list string) :
  forall w w1,
    tag_loop pkgs w = (Ok tt, w1) ->
    forall pkg,
      In pkg pkgs ->
      fst (check_package pkg w) = Ok None
      \/ exists v,
           fst (check_package pkg w) = Ok (Some v)
           /\ In (tag_name pkg v) (tags w1)
           /\ (In (tag_name pkg v) (tags w)
               \/ In (tag_name pkg v) (pushed w1)).
Proof.
  induction pkgs as [|p rest IH]; intros w w1 H pkg Hin; [inversion Hin|].
  cbn [tag_loop] in H. unfold bindM in H.
  destruct (tag_package p w) as [[[]|e] wa] eqn:TP; [|discriminate].
  destruct (GrowthFacts.tag_loop_grows wa rest wa eq_refl)
    as (_ & Tr & Pr & _).
  rewrite H in Tr, Pr. cbn [snd] in Tr, Pr.
  destruct (tag_package_effects p w) as (Sa & Ta & _).
  rewrite TP in Sa, Ta. cbn [snd] in Sa, Ta.
  destruct Hin as [->|Hin].
  - rewrite tag_package_phases, check_package_result in TP.
    destruct (fst (check_package pkg w)) as [[v|]|e]; [| |discriminate].
    + right. exists v. split; [reflexivity|].
      destruct (tag_if_new_done pkg v w wa TP) as [H1 H2].
      split; [apply Tr, H1|]. destruct H2 as [H2|H2]; auto.
    + now left.
  - rewrite <- (check_package_static pkg wa w Sa).
    destruct (IH wa w1 H pkg Hin) as [HN|(v & Hc & H1 & H2)];
      [now left | right].
    exists v. split; [exact Hc|]. split; [exact H1|].
    destruct H2 as [H2|H2]; [|now right].
    rewrite tag_package_phases, check_package_result in TP.
    destruct (fst (check_package p w)) as [[u|]|e]; [| |discriminate].
    + unfold tag_if_new in TP.
      destruct (has_tag w (tag_name p u)).
      * inversion TP; subst wa. now left.
      * destruct (tag_refused w (tag_name p u)); [discriminate|].
        destruct (push_refused w (tag_name p u)); [discriminate|].
        inversion TP; subst wa. cbn in H2.
        destruct H2 as [H2|H2]; [|now left].
        right. apply Pr. cbn. left. exact H2.
    + inversion TP; subst wa. now left.
Qed.

(** X12. When the pass returns on a diff that names descriptors, every
    package of the diff whose descriptor exists has the tag of its
    descriptor version among the local tags, and that tag was there
    before the run or has been pushed by it; the other packages of the
    diff have no descriptor in the working tree. *)
Theorem returned_pass_has_tagged_every_package :
  forall (w w1 : World) (script before after out : string) (n : nat),
    before <> after ->
    diff_name_only w before after = Ok out ->
    main [script; before; after] w = (Ok n, w1) ->
    forall pkg,
      In pkg (changed_packages (Py.strip out)) ->
      fst (check_package pkg w) = Ok None
      \/ exists v,
           fst (check_package pkg w) = Ok (Some v)
           /\ In (tag_name pkg v) (tags w1)
           /\ (In (tag_name pkg v) (tags w)
               \/ In (tag_name pkg v) (pushed w1)).
Proof.
  intros w w1 script before after out n Hne Hd Hm pkg Hin.
  assert (Hp : Py.sorted (changed_packages (Py.strip out)) <> []).
  { intros E.
    destruct (py_sorted_spec (changed_packages (Py.strip out))) as [_ P].
    rewrite E in P. apply Permutation_sym, Permutation_nil in P.
    rewrite P in Hin. inversion Hin. }
  rewrite (main_tags_changed script before after out _ w Hne Hd eq_refl Hp)
    in Hm.
  unfold bindM in Hm.
  destruct (tag_loop _ w) as [[[]|e] wa] eqn:L; [|discriminate].
  cbn in Hm. inversion Hm; subst.
  apply (tag_loop_done _ _ _ L).
  destruct (py_sorted_spec (changed_packages (Py.strip out))) as [_ P].
  apply (Permutation_in _ P Hin).
Qed.

Lemma returned_pass_has_tagged_every_package_witness :
  fst (check_package "p" Example.consistent) = Ok None
  \/ exists v,
       fst (check_package "p" Example.consistent) = Ok (Some v)
       /\ In (tag_name "p" v) (tags Example.after_first_run)
       /\ (In (tag_name "p" v) (tags Example.consistent)
           \/ In (tag_name "p" v) (pushed Example.after_first_run)).
Proof.
  assert (Hne : "a1" <> "b2") by discriminate.
  apply (returned_pass_has_tagged_every_package Example.consistent
           Example.after_first_run "tag_on_merge.py" "a1" "b2"
           Example.diff_p 0 Hne eq_refl eq_refl "p").
  left. reflexivity.
Defined.

(** X13. When the remote refuses the push of a tag the pass has just
    created, the pass fails with the local tag kept and nothing pushed;
    run again, it finds the tag, reports it as existing and returns
    without pushing it: the tag stays unpushed. *)
Theorem refused_push_is_not_retried :
  forall (w : World) (pkg v : string),
    let tag := tag_name pkg v in
    let w1 := with_tags w (tag :: tags w) in
    fst (check_package pkg w) = Ok (Some v) ->
    has_tag w tag = false ->
    tag_refused w tag = false ->
    push_refused w tag = true ->
    tag_package pkg w
    = (Raise (CalledProcessError ["git"; "push"; "origin"; tag]), w1)
    /\ tag_package pkg w1
       = (Ok tt,
          with_stdout w1
            (stdout w1 ++ [("Tag already exists: " ++ tag)%string])%list)
    /\ pushed (snd (tag_package pkg w1)) = pushed w.
Proof.
  intros w pkg v tag w1 Hc Ht Hr Hp.
  assert (Hc1 : fst (check_package pkg w1) = Ok (Some v)).
  { rewrite <- Hc. apply check_package_static. reflexivity. }
  assert (Ht1 : has_tag w1 tag = true).
  { apply has_tag_In. left. reflexivity. }
  assert (E1 : tag_package pkg w1
               = (Ok tt,
                  with_stdout w1
                    (stdout w1
                       ++ [("Tag already exists: " ++ tag)%string])%list)).
  { rewrite tag_package_phases, check_package_result, Hc1.
    apply tag_if_new_existing. exact Ht1. }
  split; [|split].
  - rewrite tag_package_phases, check_package_result, Hc.
    unfold tag_if_new. fold tag. rewrite Ht, Hr, Hp. reflexivity.
  - exact E1.
  - rewrite E1. reflexivity.
Qed.

Lemma refused_push_is_not_retried_witness :
  tag_package "p" Example.offline
  = (Raise (CalledProcessError
              ["git"; "push"; "origin"; "better-mcps-p-v1.2.0"]),
     with_tags Example.offline ["better-mcps-p-v1.2.0"])
  /\ pushed
       (snd (tag_package "p"
               (with_tags Example.offline ["better-mcps-p-v1.2.0"])))
     = [].
Proof.
  destruct (refused_push_is_not_retried Example.offline "p" "1.2.0"
              eq_refl eq_refl eq_refl eq_refl) as (H1 & _ & H3).
  split; [exact H1 | exact H3].
Defined.

(** X14. The pass fails closed on a descriptor whose version cannot be
    read: when the descriptor of a package of the diff exists and no line
    of it assigns a version, the iteration for the package raises
    ValueError with nothing tagged, and the run fails. *)
Theorem unreadable_version_is_fatal :
  forall (w : World) (script before after out txt : string)
         (pre post : list string) (pkg : string),
    before <> after ->
    diff_name_only w before after = Ok out ->
    Py.sorted (changed_packages (Py.strip out)) = (pre ++ pkg :: post)%list ->
    files w (descriptor_path w pkg) = Some txt ->
    assignments "version" txt = [] ->
    let unread :=
      ValueError ("Could not find version in " ++ descriptor_path w pkg) in
    tag_package pkg w = (Raise unread, w)
    /\ (exists e w', main [script; before; after] w = (Raise e, w'))
    /\ (forall w1,
          tag_loop pre w = (Ok tt, w1) ->
          main [script; before; after] w = (Raise unread, w1)).
Proof.
  intros w script before after out txt pre post pkg Hne Hd Hs Hf Ha unread.
  assert (Hc : fst (check_package pkg w) = Raise unread).
  { unfold check_package, bindM, exists_file, read_project_version,
      read_text, bindM, raise.
    unfold descriptor_path, package_dir in Hf.
    rewrite Hf. cbv [negb]. rewrite Hf. cbv beta iota zeta.
    rewrite search_assignment_first, Ha. reflexivity. }
  assert (Hm : main [script; before; after] w
               = (tag_loop (pre ++ pkg :: post) ;; ret 0)%world w).
  { apply (main_tags_changed script before after out); try assumption.
    destruct pre; discriminate. }
  split; [apply tag_package_fails; exact Hc|]. split.
  - destruct (tag_loop_fails pkg unread pre post w Hc) as (e & w' & L).
    exists e, w'. rewrite Hm. unfold bindM. rewrite L. reflexivity.
  - intros w1 Hpre. rewrite Hm. unfold bindM.
    rewrite (tag_loop_fails_at pkg unread pre post w w1 Hc Hpre).
    reflexivity.
Qed.

Lemma unreadable_version_is_fatal_witness :
  main ["tag_on_merge.py"; "a1"; "b2"] Example.unversioned
  = (Raise (ValueError "Could not find version in /repo/p/pyproject.toml"),
     Example.unversioned).
Proof.
  assert (Hne : "a1" <> "b2") by discriminate.
  destruct (unreadable_version_is_fatal Example.unversioned
              "tag_on_merge.py" "a1" "b2" Example.diff_p Example.no_version
              [] [] "p" Hne eq_refl eq_refl eq_refl eq_refl) as (_ & _ & H).
  exact (H Example.unversioned eq_refl).
Defined.

(** X15. With equal revisions the pass does not run the diff: whatever
    the diff would answer, it prints that there is nothing to tag and
    returns 0 with no tag created or pushed. A diff that fails is raised
    with nothing done, and a diff that names no descriptor ends like
    equal revisions. *)
Theorem nothing_to_tag :
  forall (w : World) (script before after : string),
    let idle :=
      (Ok 0,
       with_stdout w
         (stdout w
            ++ ["No package pyproject.toml changes detected; nothing to tag."])%list) in
    (before = after -> main [script; before; after] w = idle)
    /\ (forall e,
          before <> after ->
          diff_name_only w before after = Raise e ->
          main [script; before; after] w = (Raise e, w))
    /\ (forall out,
          before <> after ->
          diff_name_only w before after = Ok out ->
          (forall line g,
              In line (Py.splitlines (Py.strip out)) ->
              ~ descriptor_line_shape (Py.strip line) g) ->
          main [script; before; after] w = idle).
Proof.
  intros w script before after idle.
  assert (Hn : after_diff "" w = idle) by reflexivity.
  split; [|split].
  - intros ->. rewrite main_after_diff, String.eqb_refl. exact Hn.
  - intros e Hne Hd. apply String.eqb_neq in Hne.
    rewrite main_after_diff, Hne, Hd. reflexivity.
  - intros out Hne Hd Hno. apply String.eqb_neq in Hne.
    rewrite main_after_diff, Hne, Hd. unfold after_diff.
    destruct (changed_packages (Py.strip out)) as [|g gs] eqn:E;
      [reflexivity|].
    exfalso.
    destruct (changed_packages_from (Py.splitlines (Py.strip out)) []
                (NoDup_nil _)) as [_ Hin].
    fold (changed_packages (Py.strip out)) in Hin.
    destruct (proj1 (Hin g)) as [[]|(line & Hl & Hg)].
    { rewrite E. now left. }
    apply (Hno line g Hl). now apply pyproject_line_shape.
Qed.

Lemma nothing_to_tag_witness :
  main ["tag_on_merge.py"; "a1"; "a1"] Example.consistent
  = (Ok 0,
     with_stdout Example.consistent
       ["No package pyproject.toml changes detected; nothing to tag."]).
Proof.
  exact (proj1 (nothing_to_tag Example.consistent "tag_on_merge.py"
                  "a1" "a1") eq_refl).
Defined.

End ReconcileOutcomes.

(** ** Rewriting and reading agree on what matches *)




(** ** A written version is the one read back *)
























(** ** The command log of [cmd_tag_main] *)

















(** ** What a rewriting keeps *)





(** ** The releases of [cmd_create_releases] *)











(** ** The plan and the changed packages *)

Lemma planned_bump_not_none (b : SemverBump) : planned_bump b <> BumpNone.
Proof. destruct b; discriminate. Qed.

Lemma plan_loop_spec (check_output : list string -> result string)
  (read_text : string -> result string) (pkgs : list Release.Package) :
  forall acc plan,
    Release.plan_loop check_output read_text pkgs acc = Ok plan ->
    exists new,
      plan = (acc ++ new)%list
      /\ map fst new = filter (is_changed check_output) pkgs
      /\ Forall (planned_version check_output read_text) new.
Proof.
  induction pkgs as [|pkg rest IH]; intros acc plan H.
  - cbn in H. inversion H; subst. exists []. rewrite app_nil_r. auto.
  - cbn [Release.plan_loop] in H. cbn [filter]. unfold is_changed at 1.
    destruct (Release.package_changed _ _ _) as [[|]|e];
      cbn [bind negb] in H; try discriminate.
    + destruct (Release.conventional_bump_from_commits _ _ _) as [b|e] eqn:B;
        cbn [bind] in H; try discriminate.
      destruct (Release.read_pyproject_version _ _) as [cur|e] eqn:R;
        cbn [bind] in H; try discriminate.
      destruct (Release.bump_version _ _) as [nv|e] eqn:V;
        cbn [bind] in H; try discriminate.
      destruct (IH _ _ H) as (new & -> & F & P).
      exists ((pkg, nv) :: new). rewrite <- app_assoc. cbn [app map fst].
      repeat split; [now rewrite F|].
      constructor; [|exact P].
      exists b, cur. cbn [fst snd]. repeat split; auto.
      apply planned_bump_not_none.
    + exact (IH _ _ H).
Qed.

Lemma detect_loop_spec (check_output : list string -> result string)
  (pkgs : list Release.Package) :
  forall acc,
    (forall pkg e,
        In pkg pkgs ->
        Release.package_changed check_output pkg
          (Release.latest_tag_for check_output pkg) <> Raise e) ->
    Release.detect_loop check_output pkgs acc
    = Ok (acc ++ map Release.name
                   (filter (is_changed check_output) pkgs))%list.
Proof.
  induction pkgs as [|pkg rest IH]; intros acc H.
  - cbn. now rewrite app_nil_r.
  - cbn [Release.detect_loop filter]. unfold is_changed at 1.
    pose proof (H pkg) as Hp.
    destruct (Release.package_changed _ _ _) as [[|]|e]; cbn [bind].
    + rewrite IH by (intros q e Hq; apply H; now right).
      cbn [map]. now rewrite <- app_assoc.
    + apply IH. intros q e Hq. apply H. now right.
    + now elim (Hp e (or_introl eq_refl)).
Qed.

Lemma plan_loop_no_listing_failure
  (check_output : list string -> result string)
  (read_text : string -> result string) (pkgs : list Release.Package) :
  forall acc plan,
    Release.plan_loop check_output read_text pkgs acc = Ok plan ->
    forall pkg e,
      In pkg pkgs ->
      Release.package_changed check_output pkg
        (Release.latest_tag_for check_output pkg) <> Raise e.
Proof.
  induction pkgs as [|pkg rest IH]; intros acc plan H q e [].
  - subst q. cbn [Release.plan_loop] in H.
    destruct (Release.package_changed _ _ _); [discriminate|].
    discriminate H.
  - cbn [Release.plan_loop] in H.
    destruct (Release.package_changed _ _ _) as [[|]|e'];
      cbn [bind negb] in H; try discriminate.
    + destruct (Release.conventional_bump_from_commits _ _ _) as [b|e'];
        cbn [bind] in H; try discriminate.
      destruct (Release.read_pyproject_version _ _) as [cur|e'];
        cbn [bind] in H; try discriminate.
      destruct (Release.bump_version _ _) as [nv|e'];
        cbn [bind] in H; try discriminate.
      now apply (IH _ _ H).
    + now apply (IH _ _ H).
Qed.

(** X21. The plan of [cmd_tag_main] is made of the changed packages and
    of nothing else: when the planning returns, the packages planned
    are, in the order of [list_packages], exactly those for which
    [package_changed] holds since their latest tag; [cmd_detect_changed]
    on the same repository returns their names in the same order; and
    the version planned for each is a bump other than none of the
    version its descriptor reads. *)
Theorem plan_is_the_changed_packages :
  forall (check_output : list string -> result string)
         (glob_pyproject : list Release.Package)
         (read_text : string -> result string)
         (planned : list (Release.Package * string)),
    Release.cmd_tag_main_plan check_output glob_pyproject read_text
    = Ok planned ->
    map fst planned
    = filter (is_changed check_output) (Release.list_packages glob_pyproject)
    /\ Release.cmd_detect_changed check_output glob_pyproject
       = Ok (map (fun pv => Release.name (fst pv)) planned)
    /\ Forall (planned_version check_output read_text) planned.
Proof.
  intros check_output glob_pyproject read_text planned H.
  unfold Release.cmd_tag_main_plan in H.
  destruct (plan_loop_spec _ _ _ _ _ H) as (new & E & F & P).
  cbn [app] in E. subst new.
  split; [exact F|]. split; [|exact P].
  unfold Release.cmd_detect_changed.
  rewrite detect_loop_spec
    by exact (plan_loop_no_listing_failure _ _ _ _ _ H).
  cbn [app]. rewrite <- F, map_map. reflexivity.
Qed.

Lemma plan_is_the_changed_packages_witness :
  Release.cmd_detect_changed
    (ExampleTools.first_release [Example.feat_commit]) [Example.pkg_p]
  = Ok ["p"]
  /\ Forall (planned_version
               (ExampleTools.first_release [Example.feat_commit])
               ExampleTools.read_one_version)
       [(Example.pkg_p, "1.3.0")].
Proof.
  destruct (plan_is_the_changed_packages
              (ExampleTools.first_release [Example.feat_commit])
              [Example.pkg_p] ExampleTools.read_one_version
              [(Example.pkg_p, "1.3.0")] eq_refl) as (_ & D & P).
  split; [exact D | exact P].
Defined.

(** ** The tree a release leaves, seen by the reconcile pass *)








